(** * AREA risk-analysis pipeline: a shallow embedding

    The development follows the Python sources of the repository:
    - [agents/heuristic_analyzer/heuristic_risk_analyzer_agent.py]
      (fact extraction, Prolog initialisation, the metric catalogue, save),
    - [agents/domain_analyzer/domain_risk_analyzer_agent.py],
    - [agents/causality_analyzer/causality_risk_analyzer_agent.py],
    - [agents/report_generator/report_generator_agent.py],
    - [agents/report_generator/chart_data_builder.py] (the bar chart and
      the flow diagram),
    - [agents/orchestrator.py].

    Conventions.
    - A state dictionary ([TypedDict], [total=False]) is a record of optional
      fields; [None] stands for a key that is absent or bound to [None].  In
      a document or a risk dictionary [None] is an absent key.
    - Values are taken at the types of [utils/models.py]; a field read with
      [dict.get] is optional.
    - A node returns its state ([Return]) or lets an exception escape
      ([Raise]); the state dictionary is mutated in place, so [Raise] keeps
      the state as it was when the exception left the node.
    - A compiled graph runs its nodes in the order of its edges, each node
      on the dictionary the node before it returned.  The reducers that the
      state classes annotate on [messages] and [errors] belong to the graph
      library and are not modelled.
    - Python numbers are exact rationals; [round(x, 2)] rounds half to even.
      The module [Binary64] redoes the share computation of the alerts in
      IEEE binary64 for comparison.
    - Collaborators whose code is outside the sources (file system, clock,
      UUID generator, language model, Prolog runtime with its rule file,
      HTML generator) are fields of the record [Env]. *)

From Corelib Require Import PrimFloat.
From Stdlib Require Import ZArith QArith Qround Lqa String Ascii List Lia.
From stdpp Require Import base option strings gmap list pretty.

Open Scope string_scope.
Open Scope list_scope.

(** ** Python built-ins used by the sources *)

Module Py.

(** [s.split(sep)] for a one-character separator. *)
Fixpoint split (sep : ascii) (s : string) : list string :=
  match s with
  | EmptyString => [EmptyString]
  | String c rest =>
      if Ascii.eqb c sep then EmptyString :: split sep rest
      else match split sep rest with
           | [] => [String c EmptyString]
           | part :: parts => String c part :: parts
           end
  end.

(** [s.replace(old, new)] for a one-character [old]. *)
Fixpoint replace (old : ascii) (new : string) (s : string) : string :=
  match s with
  | EmptyString => EmptyString
  | String c rest =>
      if Ascii.eqb c old then new +:+ replace old new rest
      else String c (replace old new rest)
  end.

(** [enumerate(l, start)] *)
Fixpoint enumerate {A : Type} (start : nat) (l : list A) : list (nat * A) :=
  match l with
  | [] => []
  | x :: rest => (start, x) :: enumerate (S start) rest
  end.

(** Truth value of an optional string: [None] and [""] are false. *)
Definition truthy (v : option string) : bool :=
  match v with
  | Some (String _ _) => true
  | _ => false
  end.

(** [s.startswith(prefix)] *)
Definition startswith (prefix s : string) : bool := String.prefix prefix s.

(** [s.lower()] on the letters of ASCII.  The code modelled here compares
    the result with the words [high], [medium], [low], [pre-deployment] and
    [post-deployment] only, and no character outside ASCII lowers to one of
    their letters. *)
Definition lower_char (c : ascii) : ascii :=
  let n := nat_of_ascii c in
  if (65 <=? n)%nat && (n <=? 90)%nat then ascii_of_nat (n + 32) else c.

Fixpoint lower (s : string) : string :=
  match s with
  | EmptyString => EmptyString
  | String c rest => String (lower_char c) (lower rest)
  end.

End Py.

(** ** Data model *)

(** [{"value": ..., "rationale": ...}] *)
Record CausalityField := {
  cvalue : option string;
  crationale : option string;
}.

(** The entry of a causality block under ["entity"]: the code asks
    [isinstance(causality["entity"], dict)]. *)
Inductive EntitySlot :=
  | EntityDict (f : CausalityField)
  | EntityScalar (s : string).

Record CausalityBlock := {
  c_entity : option EntitySlot;
  c_intent : option CausalityField;
  c_timing : option CausalityField;
}.

(** A risk dictionary, flat (as the language model returns it) or nested (as
    the causality stage stores it); every key is optional. *)
Record Risk := {
  title : option string;
  explanation : option string;
  severity : option string;
  severity_rationale : option string;
  mitigation : option string;
  causality : option CausalityBlock;
  entity : option string;
  entity_rationale : option string;
  intent : option string;
  intent_rationale : option string;
  timing : option string;
  timing_rationale : option string;
}.

(** The value of one subdomain key: [{"risks": [...]}]. *)
Record Content := { risks : option (list Risk) }.

(** The inventory: a Python dict, in insertion order. *)
Definition Analysis := list (string * Content).

(** ** Fact extraction (heuristic stage, node 2) *)

(** The node builds each fact as an f-string.  A fact is kept here as the
    tuple of the values the f-string interpolates; [fact_text] gives the
    text, which is what the facts are when they are handed to Prolog. *)

Inductive Fact :=
  | DomainFact (domain name : string)
  | SubdomainFact (domain subdomain name : string)
  | RiskFact (domain subdomain : string) (risk_id : nat) (title severity : string)
  | CausalityEntityFact (domain subdomain : string) (risk_id : nat) (v : string)
  | CausalityIntentFact (domain subdomain : string) (risk_id : nat) (v : string)
  | CausalityTimingFact (domain subdomain : string) (risk_id : nat) (v : string).

(** The text of the f-string that the node appends for each fact. *)
Definition fact_text (f : Fact) : string :=
  match f with
  | DomainFact d n => "domain('" +:+ d +:+ "', '" +:+ n +:+ "')"
  | SubdomainFact d s n =>
      "subdomain('" +:+ d +:+ "', '" +:+ s +:+ "', '" +:+ n +:+ "')"
  | RiskFact d s i t sev =>
      "risk('" +:+ d +:+ "', '" +:+ s +:+ "', " +:+ pretty i +:+ ", '" +:+ t
      +:+ "', " +:+ sev +:+ ")"
  | CausalityEntityFact d s i v =>
      "causality_entity('" +:+ d +:+ "', '" +:+ s +:+ "', " +:+ pretty i
      +:+ ", " +:+ v +:+ ")"
  | CausalityIntentFact d s i v =>
      "causality_intent('" +:+ d +:+ "', '" +:+ s +:+ "', " +:+ pretty i
      +:+ ", " +:+ v +:+ ")"
  | CausalityTimingFact d s i v =>
      "causality_timing('" +:+ d +:+ "', '" +:+ s +:+ "', " +:+ pretty i
      +:+ ", '" +:+ v +:+ "')"
  end.

Definition _escape_prolog_string (s : string) : string :=
  let s := Py.replace "\" "\\" s in
  let s := Py.replace "'" "\'" s in
  s.

Definition domain_mapping : list (string * string) :=
  [ ("1", "Discrimination & Toxicity");
    ("2", "Privacy & Security");
    ("3", "Misinformation");
    ("4", "Malicious actors");
    ("5", "Human-Computer Interaction");
    ("6", "Socioeconomic & Environmental");
    ("7", "AI system safety, failures, & limitations") ].

Definition subdomain_mapping : list (string * string) :=
  [ ("1.1", "Unfair discrimination and misrepresentation");
    ("1.2", "Exposure to toxic content");
    ("1.3", "Unequal performance across groups");
    ("2.1", "Compromise of privacy by obtaining, leaking or correctly inferring sensitive information");
    ("2.2", "AI system security vulnerabilities and attacks");
    ("3.1", "False or misleading information");
    ("3.2", "Pollution of information ecosystem and loss of consensus reality");
    ("4.1", "Disinformation, surveillance, and influence at scale");
    ("4.2", "Cyberattacks, weapon development or use, and mass harm");
    ("4.3", "Fraud, scams, and targeted manipulation");
    ("5.1", "Overreliance and unsafe use");
    ("5.2", "Loss of human agency and autonomy");
    ("6.1", "Power centralization and unfair distribution of benefits");
    ("6.2", "Increased inequality and decline in employment quality");
    ("6.3", "Economic and cultural devaluation of human effort");
    ("6.4", "Competitive dynamics");
    ("6.5", "Governance failure");
    ("6.6", "Environmental harm");
    ("7.1", "AI pursuing its own goals in conflict with human goals or values");
    ("7.2", "AI possessing dangerous capabilities");
    ("7.3", "Lack of capability or robustness");
    ("7.4", "Lack of transparency or interpretability");
    ("7.5", "AI welfare and rights");
    ("7.6", "Multi-agent risks") ].

(** [d.get(k, default)] on a literal table. *)
Fixpoint table_get (table : list (string * string)) (k default : string) : string :=
  match table with
  | [] => default
  | (k', v) :: rest => if String.eqb k' k then v else table_get rest k default
  end.

(** The source also takes the state, which it does not use. *)
Definition _extract_domain_name (domain_key : string) : string :=
  table_get domain_mapping
    (hd EmptyString (Py.split "." domain_key))
    ("Domain " +:+ domain_key).

Definition _extract_subdomain_name (domain_key subdomain_key : string) : string :=
  let full_key := domain_key +:+ "." +:+ subdomain_key in
  table_get subdomain_mapping full_key ("Subdomain " +:+ full_key).

(** The three causality values of a risk (lines 211-220). *)
Definition causality_values (risk : Risk) : string * string * string :=
  match causality risk with
  | Some {| c_entity := Some (EntityDict e); c_intent := i; c_timing := t |} =>
      (default "other" (cvalue e),
       default "other" (i ≫= cvalue),
       default "other" (t ≫= cvalue))
  | _ =>
      (default "other" (entity risk),
       default "other" (intent risk),
       default "other" (timing risk))
  end.

(** The body of the inner loop: the four facts of one risk. *)
Definition risk_facts (domain subdomain : string) (risk_id : nat) (risk : Risk)
  : list Fact :=
  let title := _escape_prolog_string (default EmptyString (title risk)) in
  let severity := default "medium" (severity risk) in
  let '(entity, intent, timing) := causality_values risk in
  [ RiskFact domain subdomain risk_id title severity;
    CausalityEntityFact domain subdomain risk_id entity;
    CausalityIntentFact domain subdomain risk_id intent;
    CausalityTimingFact domain subdomain risk_id timing ].

(** The local variables of [node_generate_prolog_facts]. *)
Record Gathered := {
  facts : list Fact;
  domains_seen : gset string;
  subdomains_seen : gset string;
}.

Definition extraction_start : Gathered :=
  {| facts := []; domains_seen := ∅; subdomains_seen := ∅ |}.

Definition see_domain (domain : string) (x : Gathered) : Gathered :=
  if decide (domain ∈ domains_seen x) then x
  else {| facts := facts x ++
                   [DomainFact domain (_escape_prolog_string (_extract_domain_name domain))];
          domains_seen := {[domain]} ∪ domains_seen x;
          subdomains_seen := subdomains_seen x |}.

Definition see_subdomain (domain subdomain : string) (x : Gathered) : Gathered :=
  let subdomain_key := domain +:+ "." +:+ subdomain in
  if decide (subdomain_key ∈ subdomains_seen x) then x
  else {| facts := facts x ++
                   [SubdomainFact domain subdomain
                      (_escape_prolog_string (_extract_subdomain_name domain subdomain))];
          domains_seen := domains_seen x;
          subdomains_seen := {[subdomain_key]} ∪ subdomains_seen x |}.

Definition entry_risk_facts (domain subdomain : string) (rs : list Risk) : list Fact :=
  flat_map (fun '(risk_id, risk) => risk_facts domain subdomain risk_id risk)
           (Py.enumerate 1 rs).

(** One iteration of the outer loop (lines 180-236). *)
Definition extract_entry (x : Gathered) (item : string * Content) : Gathered :=
  let '(domain_subdomain, content) := item in
  let rs := default [] (risks content) in
  match Py.split "." domain_subdomain with
  | [domain; subdomain] =>
      let x := see_domain domain x in
      let x := see_subdomain domain subdomain x in
      {| facts := facts x ++ entry_risk_facts domain subdomain rs;
         domains_seen := domains_seen x;
         subdomains_seen := subdomains_seen x |}
  | _ => x
  end.

Definition extract (analysis : Analysis) : Gathered :=
  fold_left extract_entry analysis extraction_start.

(** ** The Prolog runtime as the metric catalogue sees it *)

(** A value bound to a query variable. *)
Inductive Term :=
  | TNum (q : Q)
  | TAtom (s : string).

(** [list(prolog.query(q))]: an exception, or the list of solutions, each a
    dictionary from variable names to values. *)
Inductive QueryResult :=
  | QError
  | QSolutions (sols : list (list (string * Term))).

(** A [Prolog] instance after [consult] and [assertz]: what each query
    answers is decided by the rule file, which is outside the sources.
    [show] is the text Python's [str] gives to a returned value. *)
Record Engine := {
  query : string -> QueryResult;
  show : Term -> string;
}.

Module Num.

Definition Qlt_bool (a b : Q) : bool := negb (Qle_bool b a).

(** Round half to even at two decimals. *)
Definition round2 (x : Q) : Q :=
  let y := (x * 100)%Q in
  let n := Qfloor y in
  let r := (y - inject_Z n)%Q in
  let up :=
    if Qlt_bool (1 # 2) r then true
    else if Qlt_bool r (1 # 2) then false
    else Z.odd n in
  Qred (Qmake (if up then n + 1 else n) 100).

(** [t > k], [t < k], [t >= k]: [None] is the [TypeError] on an atom. *)
Definition gt (t : Term) (k : Q) : option bool :=
  match t with TNum q => Some (Qlt_bool k q) | TAtom _ => None end.

Definition lt (t : Term) (k : Q) : option bool :=
  match t with TNum q => Some (Qlt_bool q k) | TAtom _ => None end.

Definition ge (t : Term) (k : Q) : option bool :=
  match t with TNum q => Some (Qle_bool k q) | TAtom _ => None end.

Definition num (t : Term) : option Q :=
  match t with TNum q => Some q | TAtom _ => None end.

(** [round(t, 2)] *)
Definition round (t : Term) : option Q :=
  match t with TNum q => Some (round2 q) | TAtom _ => None end.

Definition term_eqb (a b : Term) : bool :=
  match a, b with
  | TNum x, TNum y => Qeq_bool x y
  | TAtom x, TAtom y => String.eqb x y
  | _, _ => false
  end.

(** [set(l)], as the list of its distinct members. *)
Fixpoint distinct (l : list Term) : list Term :=
  match l with
  | [] => []
  | x :: rest => if existsb (term_eqb x) rest then distinct rest else x :: distinct rest
  end.

End Num.

(** [d[var]] on a solution; [None] is the [KeyError]. *)
Fixpoint binding (sol : list (string * Term)) (var : string) : option Term :=
  match sol with
  | [] => None
  | (v, t) :: rest => if String.eqb v var then Some t else binding rest var
  end.

(** [list(prolog.query(q))[0][var]]; [None] stands for any exception. *)
Definition first_binding (prolog : Engine) (q var : string) : option Term :=
  match query prolog q with
  | QError => None
  | QSolutions [] => None
  | QSolutions (sol :: _) => binding sol var
  end.

(** [round(list(prolog.query(q))[0][var], 2)] under [try]. *)
Definition first_rounded (prolog : Engine) (q var : string) : option Q :=
  first_binding prolog q var ≫= Num.round.

(** ** The metric catalogue *)

Record Alert := {
  alert : bool;
  value : Q;
}.

Record Alerts := {
  critical_risk_concentration : option Alert;
  ai_dominance : option Alert;
  intentional_threats : option Alert;
  operational_risks : option Alert;
  low_preventable_ratio : option Alert;
  medium_risk_accumulation : option Alert;
  human_error_dominance : option Alert;
  high_risk_fragmentation : option Alert;
}.

(** [(count / total * 100) if total > 0 else 0] *)
Definition percentage_or_zero (count total : Term) : option Q :=
  positive ← Num.gt total 0;
  if positive : bool then
    c ← Num.num count;
    t ← Num.num total;
    Some (c / t * 100)%Q
  else Some 0%Q.

(** The five alerts that divide a count by the total (lines 769-842). *)
Definition share_alert (prolog : Engine) (count_query : string)
    (test : Q -> bool) : option Alert :=
  count ← first_binding prolog count_query "C";
  total ← first_binding prolog "total_risks(T)" "T";
  pct ← percentage_or_zero count total;
  Some {| alert := test pct; value := Num.round2 pct |}.

Definition alert_critical_risk_concentration (prolog : Engine) : option Alert :=
  match query prolog "percentage_high_severity(P)" with
  | QError => None
  | QSolutions high_pct_query =>
      high_pct ← match high_pct_query with
                 | [] => Some (TNum 0)
                 | sol :: _ => binding sol "P"
                 end;
      has_critical ← Num.gt high_pct 40;
      v ← Num.round high_pct;
      Some {| alert := has_critical; value := v |}
  end.

Definition alert_ai_dominance (prolog : Engine) : option Alert :=
  share_alert prolog "risks_by_entity(ai, C)" (fun ai_pct => Num.Qlt_bool 60 ai_pct).

Definition alert_intentional_threats (prolog : Engine) : option Alert :=
  intent_count ← first_binding prolog "risks_by_intent(intentional, C)" "C";
  has_threats ← Num.gt intent_count 3;
  v ← Num.num intent_count;
  Some {| alert := has_threats; value := v |}.

Definition alert_operational_risks (prolog : Engine) : option Alert :=
  share_alert prolog "risks_by_timing('post-deployment', C)" (fun post_pct => Num.Qlt_bool 70 post_pct).

Definition alert_low_preventable_ratio (prolog : Engine) : option Alert :=
  share_alert prolog "risks_by_timing('pre-deployment', C)" (fun pre_pct => Num.Qlt_bool pre_pct 10).

Definition alert_medium_risk_accumulation (prolog : Engine) : option Alert :=
  share_alert prolog "risks_by_severity(medium, C)" (fun medium_pct => Num.Qlt_bool 40 medium_pct).

Definition alert_human_error_dominance (prolog : Engine) : option Alert :=
  share_alert prolog "risks_by_entity(human, C)" (fun human_pct => Num.Qlt_bool 50 human_pct).

(** [len(set([d["D"] for d in sols]))] *)
Definition count_domains (sols : list (list (string * Term))) : option nat :=
  ds ← mapM (fun d => binding d "D") sols;
  Some (length (Num.distinct ds)).

Definition alert_high_risk_fragmentation (prolog : Engine) : option Alert :=
  match query prolog "risks_in_domain_by_severity(D, high, C), C > 0" with
  | QError => None
  | QSolutions domains_with_high_query =>
      domain_count ← count_domains domains_with_high_query;
      high_count ← first_binding prolog "risks_by_severity(high, C)" "C";
      is_fragmented ←
        (if (4 <=? domain_count)%nat then Num.ge high_count 6 else Some false);
      Some {| alert := is_fragmented; value := inject_Z (Z.of_nat domain_count) |}
  end.

Definition run_alerts (prolog : Engine) : Alerts :=
  {| critical_risk_concentration := alert_critical_risk_concentration prolog;
     ai_dominance := alert_ai_dominance prolog;
     intentional_threats := alert_intentional_threats prolog;
     operational_risks := alert_operational_risks prolog;
     low_preventable_ratio := alert_low_preventable_ratio prolog;
     medium_risk_accumulation := alert_medium_risk_accumulation prolog;
     human_error_dominance := alert_human_error_dominance prolog;
     high_risk_fragmentation := alert_high_risk_fragmentation prolog |}.

(** *** [_run_pattern_analysis] *)

(** One [try: count = list(prolog.query(q))[0]["Count"] ... except: None]
    block per name. *)
Definition pattern_counts (prolog : Engine) (names : list string)
  : list (string * option Term) :=
  map (fun name => (name, first_binding prolog (name +:+ "_count(Count)") "Count")) names.

Definition critical_pattern_names : list string :=
  [ "critical_ai_risks"; "malicious_human_risks"; "high_threat_attacks";
    "unintended_ai_failures"; "human_error_risks"; "intentional_ai_risks";
    "preventable_critical_ai_risks"; "critical_human_errors";
    "low_priority_preventable" ].

Definition moderate_pattern_names : list string :=
  [ "moderate_operational_risks"; "moderate_ai_risks"; "moderate_human_risks";
    "moderate_intentional_ai_risks"; "moderate_human_intentional_risks" ].

Definition prevention_pattern_names : list string :=
  [ "preventable_ai_risks"; "preventable_human_risks";
    "preventable_intentional_threats" ].

Definition low_pattern_names : list string := [ "low_operational_risks" ].

(** [{"subdomain": f"{domain}.{subdomain}", "subdomain_name": ..,
      "high_risk_count": ..}] *)
Record CriticalSubdomain := {
  cs_subdomain : string;
  cs_subdomain_name : Term;
  cs_high_risk_count : Term;
}.

Definition critical_subdomain (prolog : Engine) (sol : list (string * Term))
  : option CriticalSubdomain :=
  domain ← binding sol "D";
  subdomain ← binding sol "SD";
  subdomain_name ← binding sol "Name";
  count ← binding sol "Count";
  Some {| cs_subdomain := show prolog domain +:+ "." +:+ show prolog subdomain;
          cs_subdomain_name := subdomain_name;
          cs_high_risk_count := count |}.

(** The value stored under a key of [results["subdomain_analysis"]]. *)
Inductive Entry (A : Type) :=
  | KeyAbsent
  | KeyNone
  | KeyValue (a : A).
Arguments KeyAbsent {A}.
Arguments KeyNone {A}.
Arguments KeyValue {A} a.

Record SubdomainAnalysis := {
  most_critical : option CriticalSubdomain;
  most_critical_in_top_domain : Entry CriticalSubdomain;
}.

Definition run_subdomain_analysis (prolog : Engine) : SubdomainAnalysis :=
  {| most_critical :=
       match query prolog "most_critical_subdomain(D, SD, Name, Count)" with
       | QError => None
       | QSolutions [] => None
       | QSolutions (result :: _) => critical_subdomain prolog result
       end;
     most_critical_in_top_domain :=
       match query prolog "most_critical_subdomain_in_top_domain(D, SD, Name, Count)" with
       | QError => KeyNone
       | QSolutions [] => KeyAbsent
       | QSolutions (result :: _) =>
           match critical_subdomain prolog result with
           | Some r => KeyValue r
           | None => KeyNone
           end
       end |}.

Record DistributionMetrics := {
  ai_predeployment_percentage : option Q;
  high_intentional_percentage : option Q;
  ai_human_ratio : option Q;
}.

Definition run_distribution_metrics (prolog : Engine) : DistributionMetrics :=
  {| ai_predeployment_percentage := first_rounded prolog "percentage_ai_predeployment(P)" "P";
     high_intentional_percentage := first_rounded prolog "percentage_high_intentional(P)" "P";
     ai_human_ratio := first_rounded prolog "ai_human_ratio(R)" "R" |}.

Record Patterns := {
  critical_patterns : list (string * option Term);
  moderate_patterns : list (string * option Term);
  prevention_patterns : list (string * option Term);
  low_patterns : list (string * option Term);
  subdomain_analysis : SubdomainAnalysis;
  distribution_metrics : DistributionMetrics;
  alerts : Alerts;
}.

Definition _run_pattern_analysis (prolog : Engine) : Patterns :=
  {| critical_patterns := pattern_counts prolog critical_pattern_names;
     moderate_patterns := pattern_counts prolog moderate_pattern_names;
     prevention_patterns := pattern_counts prolog prevention_pattern_names;
     low_patterns := pattern_counts prolog low_pattern_names;
     subdomain_analysis := run_subdomain_analysis prolog;
     distribution_metrics := run_distribution_metrics prolog;
     alerts := run_alerts prolog |}.

(** *** [_run_executive_summary] *)

Record TopSubdomain := {
  ts_subdomain : Term;
  ts_subdomain_name : Term;
  ts_high_count : Term;
}.

Record CriticalDomain := {
  cd_domain : Term;
  cd_domain_name : Term;
  cd_high_count : Term;
  cd_most_critical_subdomain : option TopSubdomain;
}.

Record RankedDomain := {
  rank : nat;
  rd_domain : Term;
  rd_domain_name : Term;
  rd_high_count : Term;
}.

Record ExecutiveSummary := {
  global_risk_score : option Q;
  overall_risk_level : option Term;
  primary_concern : option Term;
  recommended_action : option Term;
  most_critical_domain : option CriticalDomain;
  top_3_critical_domains : list RankedDomain;
}.

(** The inner [try] of the most-critical-domain block: any exception leaves
    [most_critical_subdomain] at [None]. *)
Definition top_subdomain (prolog : Engine) : option TopSubdomain :=
  match query prolog "most_critical_subdomain_in_top_domain(D, SD, SDN, C)" with
  | QSolutions (sol :: _) =>
      sd ← binding sol "SD";
      sdn ← binding sol "SDN";
      c ← binding sol "C";
      Some {| ts_subdomain := sd; ts_subdomain_name := sdn; ts_high_count := c |}
  | _ => None
  end.

Definition run_most_critical_domain (prolog : Engine) : option CriticalDomain :=
  match query prolog "most_critical_domain(D, N, C)" with
  | QError => None
  | QSolutions [] => None
  | QSolutions (sol :: _) =>
      domain ← binding sol "D";
      domain_name ← binding sol "N";
      count ← binding sol "C";
      Some {| cd_domain := domain; cd_domain_name := domain_name;
              cd_high_count := count;
              cd_most_critical_subdomain := top_subdomain prolog |}
  end.

(** One turn of [for rank in range(1, 4)]; [None] is an exception, which
    resets the whole list to [[]]. *)
Definition ranked_domain (prolog : Engine) (rank : nat) : option (list RankedDomain) :=
  match query prolog ("critical_domain_ranked(" +:+ pretty rank +:+ ", D, N, C)") with
  | QError => None
  | QSolutions [] => Some []
  | QSolutions (sol :: _) =>
      domain ← binding sol "D";
      domain_name ← binding sol "N";
      count ← binding sol "C";
      Some [ {| rank := rank; rd_domain := domain; rd_domain_name := domain_name;
                rd_high_count := count |} ]
  end.

Definition _run_executive_summary (prolog : Engine) : ExecutiveSummary :=
  {| global_risk_score := first_rounded prolog "global_risk_score(S)" "S";
     overall_risk_level := first_binding prolog "overall_risk_level(L)" "L";
     primary_concern := first_binding prolog "primary_concern(C)" "C";
     recommended_action := first_binding prolog "recommended_action(A)" "A";
     most_critical_domain := run_most_critical_domain prolog;
     top_3_critical_domains :=
       default [] (mjoin <$> mapM (ranked_domain prolog) [1; 2; 3]%nat) |}.

(** *** [_run_basic_counting_analysis] *)

(** [d[k] = v] on a dictionary kept in insertion order. *)
Fixpoint dict_set (d : list (Term * option Term)) (k : Term) (v : option Term)
  : list (Term * option Term) :=
  match d with
  | [] => [(k, v)]
  | (k', v') :: rest =>
      if Num.term_eqb k' k then (k', v) :: rest else (k', v') :: dict_set rest k v
  end.

(** The loop over the solutions of [domain(D, _)]; a missing ["D"] leaves the
    loop through the outer [except: pass]. *)
Fixpoint by_domain_loop (prolog : Engine) (domains : list (list (string * Term)))
    (acc : list (Term * option Term)) : list (Term * option Term) :=
  match domains with
  | [] => acc
  | domain_result :: rest =>
      match binding domain_result "D" with
      | None => acc
      | Some domain_id =>
          let count :=
            first_binding prolog
              ("risks_in_domain('" +:+ show prolog domain_id +:+ "', Count)") "Count" in
          by_domain_loop prolog rest (dict_set acc domain_id count)
      end
  end.

Record Counting := {
  total_risks : option Term;
  by_severity : list (string * option Term);
  by_entity : list (string * option Term);
  by_intent : list (string * option Term);
  by_timing : list (string * option Term);
  by_domain : list (Term * option Term);
}.

Definition _run_basic_counting_analysis (prolog : Engine) : Counting :=
  {| total_risks := first_binding prolog "total_risks(Count)" "Count";
     by_severity :=
       map (fun severity =>
              (severity,
               first_binding prolog ("risks_by_severity(" +:+ severity +:+ ", Count)") "Count"))
           ["low"; "medium"; "high"];
     by_entity :=
       map (fun entity =>
              (entity,
               first_binding prolog ("risks_by_entity(" +:+ entity +:+ ", Count)") "Count"))
           ["ai"; "human"; "other"];
     by_intent :=
       map (fun intent =>
              (intent,
               first_binding prolog ("risks_by_intent(" +:+ intent +:+ ", Count)") "Count"))
           ["intentional"; "unintentional"; "other"];
     by_timing :=
       map (fun timing =>
              (timing,
               first_binding prolog ("risks_by_timing('" +:+ timing +:+ "', Count)") "Count"))
           ["pre-deployment"; "post-deployment"; "other"];
     by_domain :=
       match query prolog "domain(D, _)" with
       | QError => []
       | QSolutions domains => by_domain_loop prolog domains []
       end |}.

(** *** [_run_context_analysis] *)

Record DominantPattern := {
  dp_entity : Term;
  dp_intent : Term;
  dp_timing : Term;
  dp_count : Term;
}.

Record ContextAnalysis := {
  risk_profile_comparison : option Term;
  dominant_pattern : option DominantPattern;
  fully_defined_causality_percentage : option Q;
  domain_coverage_percentage : option Q;
  subdomain_coverage_percentage : option Q;
}.

Definition _run_context_analysis (prolog : Engine) : ContextAnalysis :=
  {| risk_profile_comparison := first_binding prolog "risk_profile_comparison(C)" "C";
     dominant_pattern :=
       match query prolog "dominant_pattern(E, I, T, C)" with
       | QError => None
       | QSolutions [] => None
       | QSolutions (sol :: _) =>
           e ← binding sol "E";
           i ← binding sol "I";
           t ← binding sol "T";
           c ← binding sol "C";
           Some {| dp_entity := e; dp_intent := i; dp_timing := t; dp_count := c |}
       end;
     fully_defined_causality_percentage :=
       first_rounded prolog "fully_defined_causality_percentage(P)" "P";
     domain_coverage_percentage :=
       first_rounded prolog "domain_coverage_percentage(P)" "P";
     subdomain_coverage_percentage :=
       first_rounded prolog "subdomain_coverage_percentage(P)" "P" |}.

(** The value of [state["heuristic"]]. *)
Record Heuristic := {
  executive_summary : ExecutiveSummary;
  counting : Counting;
  patterns : Patterns;
  context : ContextAnalysis;
}.

(** ** Run context *)

(** One answer of the questionnaire. *)
Record Response := {
  question : option string;
  answer : option string;
}.

(** The questionnaire document; [q_extra] lists its keys other than
    ["metadata"] and ["responses"]. *)
Record Questionnaire := {
  q_metadata : option (gmap string string);
  q_responses : option (list (string * Response));
  q_extra : list string;
}.

Definition empty_questionnaire : Questionnaire :=
  {| q_metadata := None; q_responses := None; q_extra := [] |}.

(** [bool(data)] for a questionnaire: a dictionary with at least one key. *)
Definition questionnaire_truthy (data : option Questionnaire) : bool :=
  match data with
  | None => false
  | Some q =>
      match q_metadata q, q_responses q, q_extra q with
      | None, None, [] => false
      | _, _, _ => true
      end
  end.

Record Message := {
  role : string;
  content : string;
}.

(** [state["heuristic"]]: the empty dictionary the orchestrator seeds, or the
    four sections. *)
Inductive HeuristicDict :=
  | HeuristicEmpty
  | HeuristicSections (h : Heuristic).

(** The state dictionary of a stage.  The four [TypedDict]s of the stages
    are dictionaries over subsets of these keys. *)
Record State := {
  metadata : option (gmap string string);
  questionnaire : option Questionnaire;
  analysis : option Analysis;
  heuristic : option HeuristicDict;
  prolog_facts : option (list Fact);
  prolog : option Engine;
  html_path : option string;
  messages : option (list Message);
  errors : option (list string);
}.

Definition set_metadata (v : option (gmap string string)) (s : State) : State :=
  {| metadata := v; questionnaire := questionnaire s; analysis := analysis s;
     heuristic := heuristic s; prolog_facts := prolog_facts s; prolog := prolog s;
     html_path := html_path s; messages := messages s; errors := errors s |}.

Definition set_questionnaire (v : option Questionnaire) (s : State) : State :=
  {| metadata := metadata s; questionnaire := v; analysis := analysis s;
     heuristic := heuristic s; prolog_facts := prolog_facts s; prolog := prolog s;
     html_path := html_path s; messages := messages s; errors := errors s |}.

Definition set_analysis (v : option Analysis) (s : State) : State :=
  {| metadata := metadata s; questionnaire := questionnaire s; analysis := v;
     heuristic := heuristic s; prolog_facts := prolog_facts s; prolog := prolog s;
     html_path := html_path s; messages := messages s; errors := errors s |}.

Definition set_heuristic (v : option HeuristicDict) (s : State) : State :=
  {| metadata := metadata s; questionnaire := questionnaire s; analysis := analysis s;
     heuristic := v; prolog_facts := prolog_facts s; prolog := prolog s;
     html_path := html_path s; messages := messages s; errors := errors s |}.

Definition set_prolog_facts (v : option (list Fact)) (s : State) : State :=
  {| metadata := metadata s; questionnaire := questionnaire s; analysis := analysis s;
     heuristic := heuristic s; prolog_facts := v; prolog := prolog s;
     html_path := html_path s; messages := messages s; errors := errors s |}.

Definition set_prolog (v : option Engine) (s : State) : State :=
  {| metadata := metadata s; questionnaire := questionnaire s; analysis := analysis s;
     heuristic := heuristic s; prolog_facts := prolog_facts s; prolog := v;
     html_path := html_path s; messages := messages s; errors := errors s |}.

Definition set_html_path (v : option string) (s : State) : State :=
  {| metadata := metadata s; questionnaire := questionnaire s; analysis := analysis s;
     heuristic := heuristic s; prolog_facts := prolog_facts s; prolog := prolog s;
     html_path := v; messages := messages s; errors := errors s |}.

Definition set_messages (v : option (list Message)) (s : State) : State :=
  {| metadata := metadata s; questionnaire := questionnaire s; analysis := analysis s;
     heuristic := heuristic s; prolog_facts := prolog_facts s; prolog := prolog s;
     html_path := html_path s; messages := v; errors := errors s |}.

Definition set_errors (v : option (list string)) (s : State) : State :=
  {| metadata := metadata s; questionnaire := questionnaire s; analysis := analysis s;
     heuristic := heuristic s; prolog_facts := prolog_facts s; prolog := prolog s;
     html_path := html_path s; messages := messages s; errors := v |}.

(** The state with no key. *)
Definition empty_state : State :=
  {| metadata := None; questionnaire := None; analysis := None; heuristic := None;
     prolog_facts := None; prolog := None; html_path := None; messages := None;
     errors := None |}.

(** [state.get("errors", [])] *)
Definition errors_of (s : State) : list string := default [] (errors s).

(** The deduplicating append:
    [errs = state.setdefault("errors", []); if msg not in errs: errs.append(msg)] *)
Definition record_error (msg : string) (s : State) : State :=
  let errs := errors_of s in
  set_errors (Some (if decide (msg ∈ errs) then errs else errs ++ [msg])) s.

(** The plain append: [state.setdefault("errors", []).append(msg)] *)
Definition push_error (msg : string) (s : State) : State :=
  set_errors (Some (errors_of s ++ [msg])) s.

(** [(state.get("metadata") or {}).get(key)] *)
Definition metadata_get (s : State) (key : string) : option string :=
  metadata s ≫= (fun m => m !! key).

(** What leaves a node: the state it returns, or an exception together with
    the state as the node left it. *)
Inductive Result :=
  | Return (state : State)
  | Raise (e : string) (state : State).

Definition final_state (r : Result) : State :=
  match r with Return s => s | Raise _ s => s end.

Definition raised (r : Result) : bool :=
  match r with Return _ => false | Raise _ _ => true end.

(** The value or exception of a call into a collaborator. *)
Inductive Outcome (A : Type) :=
  | Ok (a : A)
  | Exn (e : string).
Arguments Ok {A} a.
Arguments Exn {A} e.

(** A compiled linear graph: the nodes run in order; an exception that
    leaves a node leaves [invoke]. *)
Fixpoint run_nodes (nodes : list (State -> Result)) (s : State) : Result :=
  match nodes with
  | [] => Return s
  | node :: rest =>
      match node s with
      | Return s' => run_nodes rest s'
      | Raise e s' => Raise e s'
      end
  end.

#[global] Instance Outcome_ret : MRet Outcome := fun _ a => Ok a.
#[global] Instance Outcome_bind : MBind Outcome :=
  fun _ _ f m => match m with Ok a => f a | Exn e => Exn e end.

(** ** Collaborators *)

(** [open(file_path)] followed by [json.load]. *)
Inductive FileRead :=
  | FileOk (q : Questionnaire)
  | FileNotFoundError
  | JSONDecodeError (msg : string)
  | FileOtherError (e : string).

(** What [structured.invoke(messages)] gives: an exception, a dictionary
    (directly or under [.parsed]), or a value of another type, whose type
    prints as [type_repr]. *)
Inductive StructuredReply :=
  | ReplyRaises (e : string)
  | ReplyParsed (parsed : Analysis)
  | ReplyOther (type_repr : string).

Record Env := {
  (* paths *)
  RULES_FILE : string;
  DOMAIN_DIR : string;
  CAUSALITY_DIR : string;
  HEURISTIC_DIR : string;
  REPORT_DIR : string;
  ANSWERS_DIR : string;
  (* file system *)
  exists_file : string -> bool;
  makedirs : string -> Outcome unit;
  write_json : string -> Outcome unit;
  open_json : string -> FileRead;
  (* [uuid.uuid4().hex], by the number of identifiers minted before *)
  uuid4_hex : nat -> string;
  (* language model *)
  get_llm_instance : Outcome unit;
  with_structured_output : Outcome unit;
  domain_invoke : list Message -> StructuredReply;
  causality_invoke : list Message -> StructuredReply;
  summary_invoke : list Message -> Outcome string;
  (* prompt templates and [json.dumps] *)
  domain_messages : string -> string -> list Message;
  causality_messages : option Analysis -> string -> list Message;
  summary_messages : option HeuristicDict -> option Analysis -> string -> list Message;
  (* [DomainAnalysisAdapter.validate_python] then [model_dump]; the
     exception text is that of [ve.errors()] *)
  validate_python : Analysis -> Outcome Analysis;
  (* [Prolog()], [consult(RULES_FILE)] and one [assertz] per fact *)
  prolog_boot : list string -> Outcome Engine;
  (* [generate_html_report] *)
  generate_html_report :
    option (gmap string string) -> option HeuristicDict -> option Analysis ->
    option Questionnaire -> Outcome string;
}.

(** [dir / name] *)
Definition path_join (dir name : string) : string := dir +:+ "/" +:+ name.

(** ** Heuristic stage *)

Module HeuristicAnalyzer.

(** Node 1 *)
Definition node_load (state : State) : Result :=
  let state := set_messages (Some []) state in
  let state := set_errors (Some []) state in
  match analysis state with
  | None => Return (record_error "No analysis data present in initial state" state)
  | Some _ =>
      match metadata state with
      | None => Return (set_metadata (Some ∅) state)
      | Some _ => Return state
      end
  end.

(** The [try] block of node 2.  On an inventory of the types above none of
    its statements raises. *)
Definition generate_facts (state : State) : Outcome (list Fact) :=
  let analysis := default [] (analysis state) in
  Ok (facts (extract analysis)).

(** Node 2 *)
Definition node_generate_prolog_facts (state : State) : Result :=
  match generate_facts state with
  | Ok facts => Return (set_prolog_facts (Some facts) state)
  | Exn e => Return (record_error ("Prolog facts generation failed: " +:+ e) state)
  end.

(** The [try] block of node 3. *)
Definition initialize (env : Env) (state : State) : Outcome Engine :=
  if exists_file env (RULES_FILE env) then
    prolog_boot env (map fact_text (default [] (prolog_facts state)))
  else Exn ("Rules file not found: " +:+ RULES_FILE env).

(** Node 3 *)
Definition node_initialize_prolog (env : Env) (state : State) : Result :=
  match initialize env state with
  | Ok prolog => Return (set_prolog (Some prolog) state)
  | Exn e =>
      let err_msg := "Prolog initialization failed: " +:+ e in
      Raise ("Prolog initialization failed: " +:+ e) (record_error err_msg state)
  end.

(** The [try] block of node 4: each metric is evaluated under its own
    [try], so the four sections are always built. *)
Definition execute (prolog : Engine) : Outcome Heuristic :=
  let executive_summary := _run_executive_summary prolog in
  let counting_results := _run_basic_counting_analysis prolog in
  let pattern_results := _run_pattern_analysis prolog in
  let context_results := _run_context_analysis prolog in
  Ok {| executive_summary := executive_summary;
        counting := counting_results;
        patterns := pattern_results;
        context := context_results |}.

(** Node 4 *)
Definition node_execute_heuristic_analysis (state : State) : Result :=
  match prolog state with
  | None => Return (record_error "Prolog instance not available" state)
  | Some prolog =>
      match execute prolog with
      | Ok h => Return (set_heuristic (Some (HeuristicSections h)) state)
      | Exn e =>
          let err_msg := "Heuristic analysis failed: " +:+ e in
          Raise ("Heuristic analysis failed: " +:+ e) (record_error err_msg state)
      end
  end.

(** The [try] block of node 5.  The envelope is built only to be written,
    and the write is a call into the file system. *)
Definition save (env : Env) (state : State) : Outcome unit :=
  _ ← makedirs env (HEURISTIC_DIR env);
  let run_id := metadata_get state "run_id" in
  if Py.truthy run_id then
    write_json env
      (path_join (HEURISTIC_DIR env)
         ("heuristic_analysis_" +:+ default EmptyString run_id +:+ ".json"))
  else Exn "Missing run_id in state; run must start from domain analyzer".

(** Node 5 *)
Definition node_save (env : Env) (state : State) : Result :=
  match save env state with
  | Ok _ => Return state
  | Exn e => Return (record_error ("Save failed: " +:+ e) state)
  end.

Definition nodes (env : Env) : list (State -> Result) :=
  [ node_load; node_generate_prolog_facts; node_initialize_prolog env;
    node_execute_heuristic_analysis; node_save env ].

(** [create_heuristic_analyzer_graph().invoke] *)
Definition invoke (env : Env) (state : State) : Result := run_nodes (nodes env) state.

End HeuristicAnalyzer.

(** ** Domain stage *)

Module DomainAnalyzer.

(** Node 1.  [minted] counts the identifiers [uuid.uuid4()] has produced so
    far; the node is the only place of the sources that calls it. *)
Definition node_load (env : Env) (file_path : string) (state : State) (minted : nat)
  : Result * nat :=
  match open_json env file_path with
  | FileOk q =>
      let state := set_questionnaire (Some q) state in
      let meta := default ∅ (q_metadata q) in
      let '(run_id, minted) :=
        match meta !! "run_id" with
        | Some (String c r) => (String c r, minted)
        | _ => (uuid4_hex env minted, S minted)
        end in
      let state :=
        set_metadata (Some (<["run_id" := run_id]> (default ∅ (metadata state)))) state in
      (Return state, minted)
  | FileNotFoundError =>
      let msg := "[DOMAIN][FATAL] load_questionnaire: file_not_found file_path="
                 +:+ file_path in
      (Return (record_error msg state), minted)
  | JSONDecodeError e_msg =>
      let msg := "[DOMAIN][FATAL] load_questionnaire: invalid_json file_path="
                 +:+ file_path +:+ " error=" +:+ e_msg in
      (Return (record_error msg state), minted)
  | FileOtherError e => (Raise e state, minted)
  end.

(** Node 2 *)
Definition node_validate (state : State) : Result :=
  let data := questionnaire state in
  if negb (questionnaire_truthy data) then
    Return (record_error "Missing questionnaire" state)
  else
    match data ≫= q_metadata, data ≫= q_responses with
    | None, _ => Return (record_error "Missing field: metadata" state)
    | Some _, None => Return (record_error "Missing field: responses" state)
    | Some data_metadata, Some _ =>
        let existing_run := metadata_get state "run_id" in
        let state := set_metadata (Some data_metadata) state in
        if Py.truthy existing_run && negb (Py.truthy (data_metadata !! "run_id")) then
          Return (set_metadata
                    (Some (<["run_id" := default EmptyString existing_run]> data_metadata))
                    state)
        else Return state
    end.

Definition newline : string := String (ascii_of_nat 10) EmptyString.

(** [str(resp.get(key))] *)
Definition str_or_None (v : option string) : string := default "None" v.

(** [sep.join(parts)] *)
Fixpoint join (sep : string) (parts : list string) : string :=
  match parts with
  | [] => EmptyString
  | [p] => p
  | p :: rest => p +:+ sep +:+ join sep rest
  end.

Definition questions_and_answers (responses : list (string * Response)) : string :=
  join newline
    (map (fun '(qid, resp) =>
            "- Domain and sub-domain: " +:+ qid +:+ newline
            +:+ "  Question: " +:+ str_or_None (question resp) +:+ newline
            +:+ "  Answer: " +:+ str_or_None (answer resp))
         responses).

(** The outer [try] of node 3 up to the parsed reply. *)
Definition structured_reply (env : Env) (msgs : list Message) : Outcome Analysis :=
  _ ← with_structured_output env;
  match domain_invoke env msgs with
  | ReplyRaises e => Exn e
  | ReplyParsed parsed => Ok parsed
  | ReplyOther type_repr => Exn ("Unexpected structured response type: " +:+ type_repr)
  end.

(** Node 3 *)
Definition node_analyze (env : Env) (state : State) : Result :=
  match get_llm_instance env with
  | Exn e => Raise e state
  | Ok _ =>
      let data := questionnaire state in
      if negb (questionnaire_truthy data) then
        let msg := "analyze_responses: no_questionnaire" in
        match errors state with
        | None => Raise "'errors'" state
        | Some errs => Return (set_errors (Some (errs ++ [msg])) state)
        end
      else
        let responses := default [] (data ≫= q_responses) in
        let language := default "en" ((data ≫= q_metadata) ≫= (fun m : gmap string string => m !! "language")) in
        let state :=
          set_messages (Some (domain_messages env (questions_and_answers responses) language))
                       state in
        match structured_reply env (default [] (messages state)) with
        | Ok parsed =>
            match validate_python env parsed with
            | Ok validated => Return (set_analysis (Some validated) state)
            | Exn ve_errors =>
                Return (record_error ("[DOMAIN][FATAL] validation_error: " +:+ ve_errors)
                                     state)
            end
        | Exn e => Return (record_error ("[DOMAIN][FATAL] " +:+ e) state)
        end
  end.

Definition _save_output (env : Env) (state : State) : Outcome string :=
  _ ← makedirs env (DOMAIN_DIR env);
  let run_id := metadata_get state "run_id" in
  if Py.truthy run_id then
    let path := path_join (DOMAIN_DIR env)
                  ("domain_analysis_" +:+ default EmptyString run_id +:+ ".json") in
    _ ← write_json env path;
    Ok path
  else
    Exn "Missing run_id in state; ensure the flow starts from domain analyzer which creates run_id".

(** Node 4 *)
Definition node_save (env : Env) (state : State) : Result :=
  match _save_output env state with
  | Ok _ => Return state
  | Exn e => Return (record_error e state)
  end.

(** [create_domain_analyzer_graph(file_path).invoke] *)
Definition invoke (env : Env) (file_path : string) (state : State) (minted : nat)
  : Result * nat :=
  match node_load env file_path state minted with
  | (Return state, minted) =>
      (run_nodes [node_validate; node_analyze env; node_save env] state, minted)
  | (Raise e state, minted) => (Raise e state, minted)
  end.

End DomainAnalyzer.

(** ** Causality stage *)

Module CausalityAnalyzer.

(** Node 1 *)
Definition node_load (state : State) : Result :=
  let state := set_messages (Some []) state in
  let state := set_errors (Some []) state in
  match analysis state with
  | None => Return (record_error "No analysis data present in initial state" state)
  | Some _ => Return state
  end.

(** The [try] block of node 2: the first entry without a ["risks"] list
    raises [ValueError]. *)
Fixpoint check_shape (items : Analysis) : Outcome unit :=
  match items with
  | [] => Ok ()
  | (k, v) :: rest =>
      match risks v with
      | None => Exn ("Domain " +:+ k +:+ " missing 'risks' list")
      | Some _ => check_shape rest
      end
  end.

(** Node 2 *)
Definition node_validate (state : State) : Result :=
  match analysis state with
  | None => Return (record_error "No analysis data present to validate" state)
  | Some analysis =>
      match check_shape analysis with
      | Ok _ => Return state
      | Exn e => Return (push_error e state)
      end
  end.

(** [flat[key]]: a missing key raises [KeyError], whose text is the quoted
    key. *)
Definition item (key : string) (v : option string) : Outcome string :=
  match v with
  | Some x => Ok x
  | None => Exn ("'" +:+ key +:+ "'")
  end.

Definition _flat_to_nested_risk (flat : Risk) : Outcome Risk :=
  t ← item "title" (title flat);
  e ← item "explanation" (explanation flat);
  s ← item "severity" (severity flat);
  let sr := default EmptyString (severity_rationale flat) in
  m ← item "mitigation" (mitigation flat);
  ev ← item "entity" (entity flat);
  er ← item "entity_rationale" (entity_rationale flat);
  iv ← item "intent" (intent flat);
  ir ← item "intent_rationale" (intent_rationale flat);
  tv ← item "timing" (timing flat);
  tr ← item "timing_rationale" (timing_rationale flat);
  Ok {| title := Some t; explanation := Some e; severity := Some s;
        severity_rationale := Some sr; mitigation := Some m;
        causality :=
          Some {| c_entity := Some (EntityDict {| cvalue := Some ev; crationale := Some er |});
                  c_intent := Some {| cvalue := Some iv; crationale := Some ir |};
                  c_timing := Some {| cvalue := Some tv; crationale := Some tr |} |};
        entity := None; entity_rationale := None; intent := None;
        intent_rationale := None; timing := None; timing_rationale := None |}.

Fixpoint convert_risks (rs : list Risk) : Outcome (list Risk) :=
  match rs with
  | [] => Ok []
  | r :: rest =>
      r' ← _flat_to_nested_risk r;
      rest' ← convert_risks rest;
      Ok (r' :: rest')
  end.

Fixpoint _convert_analysis_to_nested (analysis : Analysis) : Outcome Analysis :=
  match analysis with
  | [] => Ok []
  | (k, v) :: rest =>
      match risks v with
      | None => Exn "'risks'"
      | Some rs =>
          rs' ← convert_risks rs;
          rest' ← _convert_analysis_to_nested rest;
          Ok ((k, {| risks := Some rs' |}) :: rest')
      end
  end.

(** The [try] block of node 3. *)
Definition analyze (env : Env) (msgs : list Message) : Outcome Analysis :=
  match causality_invoke env msgs with
  | ReplyRaises e => Exn e
  | ReplyParsed parsed => _convert_analysis_to_nested parsed
  | ReplyOther _ => Exn "Unexpected structured response type"
  end.

(** Node 3 *)
Definition node_analyze (env : Env) (state : State) : Result :=
  let analysis_json := analysis state in
  match get_llm_instance env with
  | Exn e => Raise e state
  | Ok _ =>
      let language := default "en" (metadata_get state "language") in
      let msgs := causality_messages env analysis_json language in
      let state := set_messages (Some msgs) state in
      match with_structured_output env with
      | Exn e => Raise e state
      | Ok _ =>
          match analyze env msgs with
          | Ok nested => Return (set_analysis (Some nested) state)
          | Exn e => Return (push_error e state)
          end
      end
  end.

Definition _save_output (env : Env) (state : State) : Outcome string :=
  _ ← makedirs env (CAUSALITY_DIR env);
  let run_id := metadata_get state "run_id" in
  if Py.truthy run_id then
    let path := path_join (CAUSALITY_DIR env)
                  ("causality_analysis_" +:+ default EmptyString run_id +:+ ".json") in
    _ ← write_json env path;
    Ok path
  else Exn "Missing run_id in state; run must start from domain analyzer".

(** Node 4: the handler appends the text once without a test and once more
    with one. *)
Definition node_save (env : Env) (state : State) : Result :=
  match _save_output env state with
  | Ok _ => Return state
  | Exn e => Return (record_error e (push_error e state))
  end.

Definition nodes (env : Env) : list (State -> Result) :=
  [ node_load; node_validate; node_analyze env; node_save env ].

(** [create_causality_analyzer_graph().invoke] *)
Definition invoke (env : Env) (state : State) : Result := run_nodes (nodes env) state.

End CausalityAnalyzer.

(** ** Report stage *)

Module ReportGenerator.

(** Node 1 *)
Definition node_load (state : State) : Result :=
  let state := set_messages (Some []) state in
  let state := set_errors (Some []) state in
  match analysis state, heuristic state with
  | Some _, Some _ =>
      let state :=
        match questionnaire state with
        | None => set_questionnaire (Some empty_questionnaire) state
        | Some _ => state
        end in
      match metadata state with
      | None => Return (set_metadata (Some ∅) state)
      | Some _ => Return state
      end
  | _, _ =>
      Return (record_error "Missing analysis or heuristic data in initial state" state)
  end.

(** [generate_executive_summary_text]: an exception of [get_llm_instance]
    leaves the function; one of [llm.invoke] gives the fixed text. *)
Definition generate_executive_summary_text (env : Env) (heuristic : option HeuristicDict)
    (analysis : option Analysis) (language : string) : Outcome string :=
  _ ← get_llm_instance env;
  match summary_invoke env (summary_messages env heuristic analysis language) with
  | Ok text => Ok text
  | Exn _ => Ok "Executive summary not available due to generation error."
  end.

(** The questionnaire reloaded from the answers file when the state has
    none. *)
Definition reload_questionnaire (env : Env) (meta : gmap string string) (state : State)
  : State :=
  if questionnaire_truthy (questionnaire state) then state
  else
    match meta !! "run_id" with
    | Some (String c r) =>
        let answers_path :=
          path_join (ANSWERS_DIR env) ("answers_" +:+ String c r +:+ ".json") in
        if exists_file env answers_path then
          match open_json env answers_path with
          | FileOk q => set_questionnaire (Some q) state
          | _ => state
          end
        else state
    | _ => state
    end.

(** Node 2: every exception is logged and dropped; what the node had
    written into the state by then stays. *)
Definition node_generate_html_report (env : Env) (state : State) : Result :=
  let meta := default ∅ (metadata state) in
  let state := set_metadata (Some meta) state in
  let language := default "en" (meta !! "language") in
  match generate_executive_summary_text env (heuristic state) (analysis state) language with
  | Exn _ => Return state
  | Ok summary_text =>
      let meta := <["executive_summary_text" := summary_text]> meta in
      let state := set_metadata (Some meta) state in
      let state := reload_questionnaire env meta state in
      match generate_html_report env (metadata state) (heuristic state) (analysis state)
              (questionnaire state) with
      | Ok path => Return (set_html_path (Some path) state)
      | Exn _ => Return state
      end
  end.

(** The [try] block of node 3. *)
Definition save (env : Env) (state : State) : Outcome unit :=
  _ ← makedirs env (REPORT_DIR env);
  let run_id := metadata_get state "run_id" in
  if Py.truthy run_id then
    write_json env
      (path_join (REPORT_DIR env)
         ("report_metadata_" +:+ default EmptyString run_id +:+ ".json"))
  else Exn "Missing run_id in state; run must start from domain analyzer".

(** Node 3 *)
Definition node_save (env : Env) (state : State) : Result :=
  match save env state with
  | Ok _ => Return state
  | Exn e => Return (record_error ("Metadata save failed: " +:+ e) state)
  end.

Definition nodes (env : Env) : list (State -> Result) :=
  [ node_load; node_generate_html_report env; node_save env ].

(** [create_report_generator_graph().invoke] *)
Definition invoke (env : Env) (state : State) : Result := run_nodes (nodes env) state.

End ReportGenerator.

(** ** Orchestrator *)

Module Orchestrator.

Record OrchestratorState := {
  input_file : string;
  domain_state : option State;
  causality_state : option State;
  heuristic_state : option State;
  report_state : option State;
}.

(** An exception leaving a step: the one the step raises on a non-empty
    error list, [Exception(f"{stage} failed: {result['errors']}")], or one
    that left [graph.invoke] or a dictionary access. *)
Inductive Failure :=
  | StageFailed (stage : string) (errs : list string)
  | Propagated (e : string).

(** What the steps share besides the orchestrator state: the number of
    identifiers minted and the messages of the orchestrator's logger. *)
Record World := {
  minted : nat;
  log : list string;
}.

Definition Step := OrchestratorState -> World -> World * (OrchestratorState + Failure).

Definition logged (msg : string) (w : World) : World :=
  {| minted := minted w; log := log w ++ [msg] |}.

(** [if result.get("errors"): raise Exception(...)] *)
Definition check (stage : string) (result : State)
    (store : State -> OrchestratorState) : OrchestratorState + Failure :=
  match errors_of result with
  | [] => inl (store result)
  | errs => inr (StageFailed stage errs)
  end.

Definition domain_step (env : Env) : Step := fun state w =>
  let w := logged "Domain analysis start" w in
  match domain_state state with
  | None => (w, inr (Propagated "'domain_state'"))
  | Some seed =>
      match DomainAnalyzer.invoke env (input_file state) seed (minted w) with
      | (Raise e _, n) => ({| minted := n; log := log w |}, inr (Propagated e))
      | (Return result, n) =>
          ({| minted := n; log := log w |},
           check "Domain analysis" result (fun result =>
             {| input_file := input_file state;
                domain_state := Some result;
                causality_state := causality_state state;
                heuristic_state := heuristic_state state;
                report_state := report_state state |}))
      end
  end.

(** The seed of the causality stage. *)
Definition causality_seed (domain_state : State) : State :=
  {| metadata := Some (default ∅ (metadata domain_state));
     questionnaire := Some (default empty_questionnaire (questionnaire domain_state));
     analysis := Some (default [] (analysis domain_state));
     heuristic := None; prolog_facts := None; prolog := None; html_path := None;
     messages := Some [];
     errors := Some [] |}.

Definition causality_step (env : Env) : Step := fun state w =>
  let w := logged "Causality analysis start" w in
  match domain_state state with
  | None => (w, inr (Propagated "'domain_state'"))
  | Some d =>
      match CausalityAnalyzer.invoke env (causality_seed d) with
      | Raise e _ => (w, inr (Propagated e))
      | Return result =>
          (w, check "Causality analysis" result (fun result =>
             {| input_file := input_file state;
                domain_state := domain_state state;
                causality_state := Some result;
                heuristic_state := heuristic_state state;
                report_state := report_state state |}))
      end
  end.

(** The seed of the heuristic stage. *)
Definition heuristic_seed (causality_state : State) : State :=
  {| metadata := Some (default ∅ (metadata causality_state));
     questionnaire := None;
     analysis := Some (default [] (analysis causality_state));
     heuristic := Some HeuristicEmpty;
     prolog_facts := Some [];
     prolog := None;
     html_path := None;
     messages := Some [];
     errors := Some [] |}.

Definition heuristic_step (env : Env) : Step := fun state w =>
  let w := logged "Heuristic analysis start" w in
  match causality_state state with
  | None => (w, inr (Propagated "'causality_state'"))
  | Some c =>
      match HeuristicAnalyzer.invoke env (heuristic_seed c) with
      | Raise e _ => (w, inr (Propagated e))
      | Return result =>
          (w, check "Heuristic analysis" result (fun result =>
             {| input_file := input_file state;
                domain_state := domain_state state;
                causality_state := causality_state state;
                heuristic_state := Some result;
                report_state := report_state state |}))
      end
  end.

(** The seed of the report stage. *)
Definition report_seed (heuristic_state causality_state : State) : State :=
  {| metadata := Some (default ∅ (metadata heuristic_state));
     questionnaire := Some (default empty_questionnaire (questionnaire causality_state));
     analysis := Some (default [] (analysis heuristic_state));
     heuristic := Some (default HeuristicEmpty (heuristic heuristic_state));
     prolog_facts := None;
     prolog := None;
     html_path := Some EmptyString;
     messages := Some [];
     errors := Some [] |}.

Definition report_step (env : Env) : Step := fun state w =>
  let w := logged "Report generation start" w in
  match heuristic_state state with
  | None => (w, inr (Propagated "'heuristic_state'"))
  | Some h =>
      match causality_state state with
      | None => (w, inr (Propagated "'causality_state'"))
      | Some c =>
          match ReportGenerator.invoke env (report_seed h c) with
          | Raise e _ => (w, inr (Propagated e))
          | Return result =>
              (w, check "Report generation" result (fun result =>
                 {| input_file := input_file state;
                    domain_state := domain_state state;
                    causality_state := causality_state state;
                    heuristic_state := heuristic_state state;
                    report_state := Some result |}))
          end
      end
  end.

(** The compiled orchestrator graph: the steps in the order of its edges;
    the first exception ends the run. *)
Fixpoint run_steps (steps : list Step) (state : OrchestratorState) (w : World)
  : World * (OrchestratorState + Failure) :=
  match steps with
  | [] => (w, inl state)
  | step :: rest =>
      match step state w with
      | (w, inl state) => run_steps rest state w
      | (w, inr f) => (w, inr f)
      end
  end.

Definition build_orchestrator_graph (env : Env) : list Step :=
  [ domain_step env; causality_step env; heuristic_step env; report_step env ].

Definition initial_state (input_file : string) : OrchestratorState :=
  {| input_file := input_file;
     domain_state :=
       Some {| metadata := Some ∅;
               questionnaire := Some empty_questionnaire;
               analysis := Some [];
               heuristic := None; prolog_facts := None; prolog := None;
               html_path := None;
               messages := Some [];
               errors := Some [] |};
     causality_state := None;
     heuristic_state := None;
     report_state := None |}.

Definition run_orchestrator (env : Env) (input_file : string) (w : World)
  : World * (OrchestratorState + Failure) :=
  if exists_file env input_file then
    match run_steps (build_orchestrator_graph env) (initial_state input_file) w with
    | (w, inl final_state) =>
        (logged "Report generation end" (logged "Orchestrator completed successfully" w),
         inl final_state)
    | (w, inr f) => (w, inr f)
    end
  else (logged "Input file not found" w,
        inr (Propagated ("Input file not found: " +:+ input_file))).

End Orchestrator.

(** ** Vocabulary of the statements *)

Definition is_risk_fact (f : Fact) : bool :=
  match f with RiskFact _ _ _ _ _ => true | _ => false end.

Definition is_entity_fact (f : Fact) : bool :=
  match f with CausalityEntityFact _ _ _ _ => true | _ => false end.

Definition is_intent_fact (f : Fact) : bool :=
  match f with CausalityIntentFact _ _ _ _ => true | _ => false end.

Definition is_timing_fact (f : Fact) : bool :=
  match f with CausalityTimingFact _ _ _ _ => true | _ => false end.

(** The number of facts of one kind. *)
Fixpoint count_facts (p : Fact -> bool) (fs : list Fact) : nat :=
  match fs with
  | [] => 0
  | f :: rest => (if p f then 1 else 0) + count_facts p rest
  end.

(** [content.get("risks", [])] *)
Definition risks_of (c : Content) : list Risk := default [] (risks c).

(** The sum of the risk-list lengths over all subdomain keys. *)
Definition inventory_size (analysis : Analysis) : nat :=
  sum_list (map (fun kv => length (risks_of kv.2)) analysis).

(** Every subdomain key splits into exactly two parts. *)
Definition well_keyed (analysis : Analysis) : Prop :=
  Forall (fun kv => length (Py.split "." kv.1) = 2%nat) analysis.

(** [block] occurs in [fs] as a run of consecutive facts. *)
Definition occurs_in (block fs : list Fact) : Prop :=
  ∃ before after, fs = before ++ block ++ after.

(** The value a risk carries for a causality dimension inside its nested
    ["causality"] dictionary. *)
Definition nested_entity (r : Risk) : option string :=
  c ← causality r;
  slot ← c_entity c;
  match slot with EntityDict f => cvalue f | EntityScalar _ => None end.

Definition nested_intent (r : Risk) : option string :=
  (causality r ≫= c_intent) ≫= cvalue.

Definition nested_timing (r : Risk) : option string :=
  (causality r ≫= c_timing) ≫= cvalue.

(** A kind of fact that each risk contributes once and the taxonomy never. *)
Definition per_risk_kind (p : Fact -> bool) : Prop :=
  (∀ d s i r, count_facts p (risk_facts d s i r) = 1%nat)
  ∧ (∀ d n, p (DomainFact d n) = false)
  ∧ (∀ d s n, p (SubdomainFact d s n) = false).

(** ** Sample data *)

Definition nested_risk (sev e i t : string) : Risk :=
  {| title := Some "risk"; explanation := Some "why"; severity := Some sev;
     severity_rationale := Some "because"; mitigation := Some "how";
     causality :=
       Some {| c_entity := Some (EntityDict {| cvalue := Some e; crationale := Some "r" |});
               c_intent := Some {| cvalue := Some i; crationale := Some "r" |};
               c_timing := Some {| cvalue := Some t; crationale := Some "r" |} |};
     entity := None; entity_rationale := None; intent := None;
     intent_rationale := None; timing := None; timing_rationale := None |}.

(** A risk dictionary with the title only. *)
Definition bare_risk : Risk :=
  {| title := Some "risk"; explanation := None; severity := None;
     severity_rationale := None; mitigation := None; causality := None;
     entity := None; entity_rationale := None; intent := None;
     intent_rationale := None; timing := None; timing_rationale := None |}.

(** The inventory of the scenario of the specification. *)
Definition sample_inventory : Analysis :=
  [ ("2.1", {| risks := Some [ nested_risk "high" "ai" "intentional" "post-deployment";
                               nested_risk "low" "human" "unintentional" "pre-deployment" ] |}) ].

(** An inventory with the key ["abc"] between two well-formed keys. *)
Definition inventory_with_abc : Analysis :=
  [ ("2.1", {| risks := Some [ nested_risk "high" "ai" "intentional" "post-deployment" ] |});
    ("abc", {| risks := Some [ bare_risk ] |});
    ("7.3", {| risks := Some [ bare_risk ] |}) ].

(** A state as [heuristic_step] seeds it. *)
Definition heuristic_state_of (meta : gmap string string) (analysis : Analysis) : State :=
  {| metadata := Some meta; questionnaire := None; analysis := Some analysis;
     heuristic := Some HeuristicEmpty; prolog_facts := Some []; prolog := None;
     html_path := None; messages := Some []; errors := Some [] |}.

(** [v] is [x] rounded to two decimals: a whole number of hundredths at
    most half a hundredth away from [x]. *)
Definition rounds_to (x v : Q) : Prop :=
  ∃ n : Z, (v == n # 100)%Q ∧ (- (1 # 2) <= x * 100 - inject_Z n <= 1 # 2)%Q.

(** [pct] is the share of [count] in [total], as a percentage, with the
    code's convention for a total that is not positive. *)
Definition share (count total : Term) (pct : Q) : Prop :=
  ∃ t, total = TNum t
       ∧ ((0 < t)%Q ∧ (∃ c, count = TNum c ∧ (pct == c / t * 100)%Q)
          ∨ (t <= 0)%Q ∧ pct = 0%Q).

(** The record of a share alert: its flag tells whether [holds] is true of
    the share, its value is the share rounded to two decimals. *)
Definition share_alert_of (prolog : Engine) (count_query : string)
    (holds : Q -> Prop) (r : Alert) : Prop :=
  ∃ count total pct,
    first_binding prolog count_query "C" = Some count
    ∧ first_binding prolog "total_risks(T)" "T" = Some total
    ∧ share count total pct
    ∧ (alert r = true ↔ holds pct)
    ∧ value r = Num.round2 pct
    ∧ rounds_to pct (value r).

(** An engine given by the table of its answers; a query outside the table
    raises. *)
Fixpoint answer_of (table : list (string * list (list (string * Term)))) (q : string)
  : QueryResult :=
  match table with
  | [] => QError
  | (q', sols) :: rest => if String.eqb q' q then QSolutions sols else answer_of rest q
  end.

Definition engine_of (table : list (string * list (list (string * Term)))) : Engine :=
  {| query := answer_of table;
     show := fun t => match t with TAtom s => s | TNum q => pretty (Qnum q) end |}.

(** The counts of a fact base without risks. *)
Definition empty_base : Engine :=
  engine_of
    [ ("total_risks(T)", [[("T", TNum 0)]]);
      ("risks_by_entity(ai, C)", [[("C", TNum 0)]]);
      ("risks_by_entity(human, C)", [[("C", TNum 0)]]);
      ("risks_by_intent(intentional, C)", [[("C", TNum 0)]]);
      ("risks_by_timing('post-deployment', C)", [[("C", TNum 0)]]);
      ("risks_by_timing('pre-deployment', C)", [[("C", TNum 0)]]);
      ("risks_by_severity(medium, C)", [[("C", TNum 0)]]);
      ("risks_by_severity(high, C)", [[("C", TNum 0)]]);
      ("risks_in_domain_by_severity(D, high, C), C > 0", []) ].

(** The counts of the scenario of the specification: two risks in domain 2,
    one high/ai/intentional/post-deployment, one
    low/human/unintentional/pre-deployment. *)
Definition scenario_base : Engine :=
  engine_of
    [ ("total_risks(T)", [[("T", TNum 2)]]);
      ("percentage_high_severity(P)", [[("P", TNum 50)]]);
      ("risks_by_entity(ai, C)", [[("C", TNum 1)]]);
      ("risks_by_entity(human, C)", [[("C", TNum 1)]]);
      ("risks_by_intent(intentional, C)", [[("C", TNum 1)]]);
      ("risks_by_timing('post-deployment', C)", [[("C", TNum 1)]]);
      ("risks_by_timing('pre-deployment', C)", [[("C", TNum 1)]]);
      ("risks_by_severity(medium, C)", [[("C", TNum 0)]]);
      ("risks_by_severity(high, C)", [[("C", TNum 1)]]);
      ("risks_in_domain_by_severity(D, high, C), C > 0",
       [[("D", TAtom "2"); ("C", TNum 1)]]) ].


(** ** Vocabulary for the pipelines *)

(** [(state.get("metadata") or {}).get("run_id")] *)
Definition run_id_of (s : State) : option string := metadata_get s "run_id".

(** The run identifier a questionnaire document carries, if it is a
    non-empty string. *)
Definition document_run_id (q : Questionnaire) : option string :=
  match q_metadata q ≫= (fun m : gmap string string => m !! "run_id") with
  | Some (String c r) => Some (String c r)
  | _ => None
  end.

(** A step of the orchestrator ended with an exception. *)
Definition step_raised
    (out : Orchestrator.World * (Orchestrator.OrchestratorState + Orchestrator.Failure))
  : Prop :=
  ∃ f, out.2 = inr f.

(** ** Sample collaborators *)

Definition sample_questionnaire (meta : gmap string string) : Questionnaire :=
  {| q_metadata := Some meta;
     q_responses := Some [ ("2.1", {| question := Some "q"; answer := Some "a" |}) ];
     q_extra := [] |}.

(** The flat reply of the language model for the causality stage. *)
Definition flat_risk (sev e i t : string) : Risk :=
  {| title := Some "risk"; explanation := Some "why"; severity := Some sev;
     severity_rationale := Some "because"; mitigation := Some "how";
     causality := None;
     entity := Some e; entity_rationale := Some "r";
     intent := Some i; intent_rationale := Some "r";
     timing := Some t; timing_rationale := Some "r" |}.

Definition flat_inventory : Analysis :=
  [ ("2.1", {| risks := Some [ flat_risk "high" "ai" "intentional" "post-deployment";
                               flat_risk "low" "human" "unintentional" "pre-deployment" ] |}) ].

(** Collaborators that all succeed, up to three switches: whether the rule
    file exists, what reading the input document gives, and what the
    language model replies in the causality stage. *)
Definition sample_env (rules_exist : bool) (document : FileRead)
    (causality_reply : StructuredReply) : Env :=
  {| RULES_FILE := "rules.pl";
     DOMAIN_DIR := "domain";
     CAUSALITY_DIR := "causality";
     HEURISTIC_DIR := "heuristic";
     REPORT_DIR := "reports";
     ANSWERS_DIR := "answers";
     exists_file := fun p => if String.eqb p "rules.pl" then rules_exist else true;
     makedirs := fun _ => Ok ();
     write_json := fun _ => Ok ();
     open_json := fun _ => document;
     uuid4_hex := fun n => "id" +:+ pretty n;
     get_llm_instance := Ok ();
     with_structured_output := Ok ();
     domain_invoke := fun _ => ReplyParsed flat_inventory;
     causality_invoke := fun _ => causality_reply;
     summary_invoke := fun _ => Ok "summary";
     domain_messages := fun _ _ => [];
     causality_messages := fun _ _ => [];
     summary_messages := fun _ _ _ => [];
     validate_python := fun parsed => Ok parsed;
     prolog_boot := fun _ => Ok scenario_base;
     generate_html_report := fun _ _ _ _ => Ok "report.html" |}.

(** Everything succeeds; the document carries no run identifier. *)
Definition happy_env : Env :=
  sample_env true (FileOk (sample_questionnaire {[ "language" := "en" ]}))
             (ReplyParsed flat_inventory).

(** The rule file is missing. *)
Definition env_without_rules : Env :=
  sample_env false (FileOk (sample_questionnaire {[ "language" := "en" ]}))
             (ReplyParsed flat_inventory).

(** The text [node_validate] of the causality stage records for an entry
    without ["risks"] under key ["1.1"]. *)
Definition missing_risks_text : string := "Domain 1.1 missing 'risks' list".

(** The language model fails in the causality stage, with that text. *)
Definition env_llm_fails : Env :=
  sample_env true (FileOk (sample_questionnaire {[ "language" := "en" ]}))
             (ReplyRaises missing_risks_text).

(** A state as [causality_step] seeds it. *)
Definition causality_state_of (meta : gmap string string) (analysis : Analysis) : State :=
  {| metadata := Some meta; questionnaire := Some empty_questionnaire;
     analysis := Some analysis; heuristic := None; prolog_facts := None;
     prolog := None; html_path := None; messages := Some []; errors := Some [] |}.

(** An inventory whose entry lacks the ["risks"] key. *)
Definition inventory_without_risks : Analysis := [ ("1.1", {| risks := None |}) ].

Definition start_world : Orchestrator.World :=
  {| Orchestrator.minted := 0; Orchestrator.log := [] |}.

(** A node leaves the run identifier of the state as it found it, whether
    it returns or raises. *)
Definition keeps_run_id (node : State -> Result) : Prop :=
  ∀ s, run_id_of (final_state (node s)) = run_id_of s.

(** The nodes that run after the identifier is settled: the domain stage
    from its analyze node on, and every node of the later stages. *)
Definition later_nodes (env : Env) : list (State -> Result) :=
  [ DomainAnalyzer.node_analyze env; DomainAnalyzer.node_save env ]
  ++ CausalityAnalyzer.nodes env
  ++ HeuristicAnalyzer.nodes env
  ++ ReportGenerator.nodes env.


(** ** Binary64 arithmetic, for comparison

    The alert code works on Python floats.  The definitions below redo the
    share [count / total * 100] and its threshold tests in IEEE binary64, so
    that the tests on exact rationals used above can be compared with them. *)

Module Binary64.

(** [float(n)] for a positive integer below 2^53. *)
Fixpoint of_positive (p : positive) : float :=
  match p with
  | xH => 1%float
  | xO p => (2 * of_positive p)%float
  | xI p => (2 * of_positive p + 1)%float
  end.

(** [float(n)] for a natural number below 2^53. *)
Definition of_count (n : N) : float :=
  match n with
  | N0 => 0%float
  | Npos p => of_positive p
  end.

(** [count / total * 100] *)
Definition percentage (count total : N) : float :=
  (of_count count / of_count total * 100)%float.

(** The same share as an exact rational. *)
Definition exact_percentage (count total : N) : Q :=
  (inject_Z (Z.of_N count) / inject_Z (Z.of_N total) * 100)%Q.

(** The five threshold tests of the share alerts give the same flag on the
    float and on the rational. *)
Definition flags_agree (count total : N) : bool :=
  let f := percentage count total in
  let q := exact_percentage count total in
  Bool.eqb (PrimFloat.ltb 60 f) (Num.Qlt_bool 60 q)
  && Bool.eqb (PrimFloat.ltb 70 f) (Num.Qlt_bool 70 q)
  && Bool.eqb (PrimFloat.ltb f 10) (Num.Qlt_bool q 10)
  && Bool.eqb (PrimFloat.ltb 40 f) (Num.Qlt_bool 40 q)
  && Bool.eqb (PrimFloat.ltb 50 f) (Num.Qlt_bool 50 q).

(** All totals from 1 to [n] and all counts from 0 to the total. *)
Definition flags_agree_up_to (n : nat) : bool :=
  forallb (fun total =>
             forallb (fun count => flags_agree (N.of_nat count) (N.of_nat total))
                     (seq 0 (S total)))
          (seq 1 n).

End Binary64.

(** ** Chart data (report stage)

    [agents/report_generator/chart_data_builder.py]: the stacked bar chart
    ([build_risk_distribution_data]) and the flow diagram
    ([build_causality_sankey_data]) of the report. *)

Module ChartDataBuilder.

(** *** [build_risk_distribution_data] *)

Definition domain_names : list (string * string) :=
  [ ("1", "Discrimination & Toxicity");
    ("2", "Privacy & Security");
    ("3", "Misinformation");
    ("4", "Malicious Actors");
    ("5", "Human-Computer Interaction");
    ("6", "Socioeconomic & Environmental");
    ("7", "AI System Safety") ].

Definition domains : list string := [ "1"; "2"; "3"; "4"; "5"; "6"; "7" ].

(** The three counters of one domain. *)
Record SeverityCounts := {
  high_count : nat;
  medium_count : nat;
  low_count : nat;
}.

(** The body of the innermost loop (lines 68-74). *)
Definition count_risk (c : SeverityCounts) (risk : Risk) : SeverityCounts :=
  let severity := Py.lower (default EmptyString (severity risk)) in
  if String.eqb severity "high" then
    {| high_count := S (high_count c); medium_count := medium_count c;
       low_count := low_count c |}
  else if String.eqb severity "medium" then
    {| high_count := high_count c; medium_count := S (medium_count c);
       low_count := low_count c |}
  else if String.eqb severity "low" then
    {| high_count := high_count c; medium_count := medium_count c;
       low_count := S (low_count c) |}
  else c.

(** One turn of [for subdomain_id, subdomain_data in analysis.items()]. *)
Definition count_entry (domain_id : string) (c : SeverityCounts)
    (item : string * Content) : SeverityCounts :=
  let '(subdomain_id, subdomain_data) := item in
  if Py.startswith (domain_id +:+ ".") subdomain_id then
    fold_left count_risk (default [] (risks subdomain_data)) c
  else c.

(** One turn of [for domain_id in domains]. *)
Definition count_domain (analysis : Analysis) (domain_id : string) : SeverityCounts :=
  fold_left (count_entry domain_id) analysis
    {| high_count := 0; medium_count := 0; low_count := 0 |}.

Record RiskDistribution := {
  rd_domains : list string;
  rd_domain_names : list string;
  high : list nat;
  medium : list nat;
  low : list nat;
}.

Definition build_risk_distribution_data (analysis : Analysis) : RiskDistribution :=
  let counts := map (count_domain analysis) domains in
  {| rd_domains := map (fun d => "D" +:+ d) domains;
     rd_domain_names := map (fun d => table_get domain_names d EmptyString) domains;
     high := map high_count counts;
     medium := map medium_count counts;
     low := map low_count counts |}.

(** *** [build_causality_sankey_data]

    The source also takes the heuristic dictionary, which it does not use. *)

Section Sankey.

(** [str.capitalize].  It is left open: the diagram is built the same way
    whatever it does to a text. *)
Variable capitalize : string → string.

Definition nodes : list string :=
  [ "AI"; "Human"; "Other";
    "Intentional"; "Unintentional"; "Other Intent";
    "Pre-deployment"; "Post-deployment"; "Other Timing" ].

(** [causality.get("entity", {}).get("value", "other")]: a value under
    ["entity"] that is not a dictionary has no [get]. *)
Definition entity_value (risk : Risk) : Outcome string :=
  match causality risk ≫= c_entity with
  | None => Ok "other"
  | Some (EntityDict f) => Ok (default "other" (cvalue f))
  | Some (EntityScalar _) => Exn "'str' object has no attribute 'get'"
  end.

(** [causality.get(key, {}).get("value", "other")] for ["intent"] and
    ["timing"]. *)
Definition field_value (f : option CausalityField) : string :=
  default "other" (f ≫= cvalue).

Definition entity_label (value : string) : string :=
  let entity := capitalize value in
  let entity :=
    if existsb (String.eqb entity) [ "Ai"; "Human"; "Other" ] then entity else "Other" in
  if String.eqb entity "Ai" then "AI" else entity.

Definition intent_label (value : string) : string :=
  let intent := capitalize value in
  let intent :=
    if existsb (String.eqb intent) [ "Intentional"; "Unintentional"; "Other" ]
    then intent else "Other Intent" in
  if String.eqb intent "Other" then "Other Intent" else intent.

Definition timing_label (value : string) : string :=
  let timing_value := Py.lower value in
  if String.eqb timing_value "pre-deployment" then "Pre-deployment"
  else if String.eqb timing_value "post-deployment" then "Post-deployment"
  else "Other Timing".

(** [d[key] = d.get(key, 0) + 1] on a dictionary with pairs as keys, kept
    in insertion order. *)
Fixpoint bump (d : list (string * string * nat)) (key : string * string)
  : list (string * string * nat) :=
  match d with
  | [] => [ (key, 1%nat) ]
  | (k, count) :: rest =>
      if String.eqb k.1 key.1 && String.eqb k.2 key.2 then (k, S count) :: rest
      else (k, count) :: bump rest key
  end.

Record Flows := {
  entity_to_intent : list (string * string * nat);
  intent_to_timing : list (string * string * nat);
}.

(** The body of the inner loop (lines 191-219). *)
Definition count_risk_flows (flows : Flows) (risk : Risk) : Outcome Flows :=
  value ← entity_value risk;
  let entity := entity_label value in
  let intent := intent_label (field_value (causality risk ≫= c_intent)) in
  let timing := timing_label (field_value (causality risk ≫= c_timing)) in
  Ok {| entity_to_intent := bump (entity_to_intent flows) (entity, intent);
        intent_to_timing := bump (intent_to_timing flows) (intent, timing) |}.

Fixpoint count_entry_flows (rs : list Risk) (flows : Flows) : Outcome Flows :=
  match rs with
  | [] => Ok flows
  | risk :: rest =>
      flows ← count_risk_flows flows risk;
      count_entry_flows rest flows
  end.

Fixpoint count_flows (analysis : Analysis) (flows : Flows) : Outcome Flows :=
  match analysis with
  | [] => Ok flows
  | (_, subdomain_data) :: rest =>
      flows ← count_entry_flows (default [] (risks subdomain_data)) flows;
      count_flows rest flows
  end.

Definition entity_map : list (string * nat) :=
  [ ("AI", 0%nat); ("Human", 1%nat); ("Other", 2%nat) ].

Definition intent_map : list (string * nat) :=
  [ ("Intentional", 3%nat); ("Unintentional", 4%nat); ("Other Intent", 5%nat) ].

Definition timing_map : list (string * nat) :=
  [ ("Pre-deployment", 6%nat); ("Post-deployment", 7%nat); ("Other Timing", 8%nat) ].

(** [table[key]]: a missing key raises [KeyError]. *)
Fixpoint index (table : list (string * nat)) (key : string) : Outcome nat :=
  match table with
  | [] => Exn ("'" +:+ key +:+ "'")
  | (k, i) :: rest => if String.eqb k key then Ok i else index rest key
  end.

(** One of the two loops that build the links.  The source appends to the
    three lists [sources], [targets] and [values] in step; a link is kept
    here as the triple of what it appends. *)
Fixpoint links (from to : list (string * nat)) (flows : list (string * string * nat))
  : Outcome (list (nat * nat * nat)) :=
  match flows with
  | [] => Ok []
  | (key, count) :: rest =>
      if (0 <? count)%nat then
        source ← index from key.1;
        target ← index to key.2;
        more ← links from to rest;
        Ok ((source, target, count) :: more)
      else links from to rest
  end.

Record Sankey := {
  sk_nodes : list string;
  sources : list nat;
  targets : list nat;
  values : list nat;
}.

Definition build_causality_sankey_data (analysis : Analysis) : Outcome Sankey :=
  flows ← count_flows analysis {| entity_to_intent := []; intent_to_timing := [] |};
  first ← links entity_map intent_map (entity_to_intent flows);
  second ← links intent_map timing_map (intent_to_timing flows);
  let all := first ++ second in
  Ok {| sk_nodes := nodes;
        sources := map (fun l => l.1.1) all;
        targets := map (fun l => l.1.2) all;
        values := map (fun l => l.2) all |}.

End Sankey.

End ChartDataBuilder.

(** ** Vocabulary for the properties of keys and facts *)

(** [c] occurs in [s]. *)
Fixpoint has_char (c : ascii) (s : string) : bool :=
  match s with
  | EmptyString => false
  | String c' rest => Ascii.eqb c' c || has_char c rest
  end.

(** A backslash takes the character after it literally; the text holds no
    other quote and does not end in the middle of an escape, so none of its
    quotes closes a quoted atom. *)
Fixpoint quote_safe (s : string) : bool :=
  match s with
  | EmptyString => true
  | String c rest =>
      if Ascii.eqb c "\" then
        match rest with
        | EmptyString => false
        | String _ rest' => quote_safe rest'
        end
      else if Ascii.eqb c "'" then false
      else quote_safe rest
  end.

(** The text an escaped text stands for. *)
Fixpoint unescape (s : string) : string :=
  match s with
  | EmptyString => EmptyString
  | String c rest =>
      if Ascii.eqb c "\" then
        match rest with
        | EmptyString => EmptyString
        | String c' rest' => String c' (unescape rest')
        end
      else String c (unescape rest)
  end.

(** The domain and subdomain that a risk or causality fact is keyed by. *)
Definition fact_key (f : Fact) : option (string * string) :=
  match f with
  | RiskFact d s _ _ _ => Some (d, s)
  | CausalityEntityFact d s _ _ => Some (d, s)
  | CausalityIntentFact d s _ _ => Some (d, s)
  | CausalityTimingFact d s _ _ => Some (d, s)
  | DomainFact _ _ => None
  | SubdomainFact _ _ _ => None
  end.

(** The text that a fact writes between quotes after escaping it: a title
    or a taxonomy name. *)
Definition free_text (f : Fact) : option string :=
  match f with
  | DomainFact _ name => Some name
  | SubdomainFact _ _ name => Some name
  | RiskFact _ _ _ title _ => Some title
  | _ => None
  end.

(** The domains that have a domain fact, in the order of the facts. *)
Definition domain_ids (fs : list Fact) : list string :=
  omap (fun f => match f with DomainFact d _ => Some d | _ => None end) fs.

(** The (domain, subdomain) pairs that have a subdomain fact. *)
Definition subdomain_ids (fs : list Fact) : list (string * string) :=
  omap (fun f => match f with SubdomainFact d s _ => Some (d, s) | _ => None end) fs.

(** The fact the extraction emits for a domain, and for a subdomain. *)
Definition domain_fact_of (d : string) : Fact :=
  DomainFact d (_escape_prolog_string (_extract_domain_name d)).

Definition subdomain_fact_of (d s : string) : Fact :=
  SubdomainFact d s (_escape_prolog_string (_extract_subdomain_name d s)).

(** The severity a risk fact carries; [None] for the other facts. *)
Definition fact_severity (f : Fact) : option string :=
  match f with RiskFact _ _ _ _ sev => Some sev | _ => None end.

(** ** What the loop of [node_generate_prolog_facts] keeps true *)

(** A taxonomy fact carries the name that the catalogue (or its fallback)
    gives to its key. *)
Definition canonical (f : Fact) : Prop :=
  match f with
  | DomainFact d _ => f = domain_fact_of d
  | SubdomainFact d s _ => f = subdomain_fact_of d s
  | _ => True
  end.

(** Each risk or causality fact comes after the facts of its domain and of
    its subdomain. *)
Definition taxonomy_first (fs : list Fact) : Prop :=
  ∀ before f after d s,
    fs = before ++ f :: after → fact_key f = Some (d, s) →
    domain_fact_of d ∈ before ∧ subdomain_fact_of d s ∈ before.

Record tidy (x : Gathered) : Prop := {
  tidy_domains : ∀ d, d ∈ domains_seen x ↔ d ∈ domain_ids (facts x);
  tidy_subdomains :
    ∀ k, k ∈ subdomains_seen x ↔
         ∃ d s, (d, s) ∈ subdomain_ids (facts x) ∧ Py.split "." k = [d; s];
  tidy_domains_once : NoDup (domain_ids (facts x));
  tidy_subdomains_once : NoDup (subdomain_ids (facts x));
  tidy_names : Forall canonical (facts x);
  tidy_order : taxonomy_first (facts x);
}.

(** ** Vocabulary for the conversion of the causality stage *)

(** The keys [_flat_to_nested_risk] reads with [flat[...]]. *)
Definition complete_flat (r : Risk) : bool :=
  bool_decide (is_Some (title r)) && bool_decide (is_Some (explanation r))
  && bool_decide (is_Some (severity r)) && bool_decide (is_Some (mitigation r))
  && bool_decide (is_Some (entity r)) && bool_decide (is_Some (entity_rationale r))
  && bool_decide (is_Some (intent r)) && bool_decide (is_Some (intent_rationale r))
  && bool_decide (is_Some (timing r)) && bool_decide (is_Some (timing_rationale r)).

Definition complete_entry (kv : string * Content) : bool :=
  match risks kv.2 with
  | None => false
  | Some rs => forallb complete_flat rs
  end.

Definition succeeded {A : Type} (o : Outcome A) : bool :=
  match o with Ok _ => true | Exn _ => false end.

(** The risk carries the three causality dimensions inside a ["causality"]
    dictionary and none of the flat keys. *)
Definition is_nested (r : Risk) : bool :=
  bool_decide (is_Some (nested_entity r)) && bool_decide (is_Some (nested_intent r))
  && bool_decide (is_Some (nested_timing r))
  && bool_decide (entity r = None) && bool_decide (intent r = None)
  && bool_decide (timing r = None).

(** The fields of a risk that the conversion copies. *)
Definition core (r : Risk) : option string * option string * option string * option string :=
  (title r, explanation r, severity r, mitigation r).

(** [nested] is [flat] with its three causality values moved inside a
    ["causality"] dictionary. *)
Definition nests (flat nested : Risk) : Prop :=
  core nested = core flat
  ∧ nested_entity nested = entity flat
  ∧ nested_intent nested = intent flat
  ∧ nested_timing nested = timing flat
  ∧ is_nested nested = true.

(** No risk of the inventory has a ["causality"] key. *)
Definition all_flat (analysis : Analysis) : Prop :=
  Forall (fun kv => Forall (fun r => causality r = None) (risks_of kv.2)) analysis.

(** The texts of the [KeyError]s that the conversion can raise. *)
Definition missing_key_texts : list string :=
  [ "'risks'"; "'title'"; "'explanation'"; "'severity'"; "'mitigation'";
    "'entity'"; "'entity_rationale'"; "'intent'"; "'intent_rationale'";
    "'timing'"; "'timing_rationale'" ].

(** ** Vocabulary for the chart data *)

Definition counted (c : ChartDataBuilder.SeverityCounts) : nat :=
  ChartDataBuilder.high_count c + ChartDataBuilder.medium_count c
  + ChartDataBuilder.low_count c.

(** The risks the bar chart shows, over all domains and severities. *)
Definition charted (d : ChartDataBuilder.RiskDistribution) : nat :=
  sum_list (ChartDataBuilder.high d) + sum_list (ChartDataBuilder.medium d)
  + sum_list (ChartDataBuilder.low d).

(** The severity is one of the three words, in any letter case. *)
Definition recognised (r : Risk) : bool :=
  let sev := Py.lower (default EmptyString (severity r)) in
  String.eqb sev "high" || String.eqb sev "medium" || String.eqb sev "low".

(** The key starts with one of the seven domain numbers and a dot. *)
Definition in_taxonomy (k : string) : bool :=
  existsb (fun d => Py.startswith (d +:+ ".") k) ChartDataBuilder.domains.

(** The risks of the inventory that the bar chart can show: those under a
    key of the taxonomy whose severity is recognised. *)
Definition chartable (analysis : Analysis) : nat :=
  sum_list (map (fun kv => if in_taxonomy kv.1
                           then length (List.filter recognised (risks_of kv.2))
                           else 0%nat) analysis).

(** Every risk of the inventory has a recognised severity. *)
Definition all_recognised (analysis : Analysis) : bool :=
  forallb (fun kv => forallb recognised (risks_of kv.2)) analysis.

(** The links of a flow diagram: source, target and value at each position. *)
Definition links_of (data : ChartDataBuilder.Sankey) : list (nat * nat * nat) :=
  zip (zip (ChartDataBuilder.sources data) (ChartDataBuilder.targets data))
      (ChartDataBuilder.values data).

(** A link between the layers that start at nodes [from] and [to] (three
    nodes each), with a positive value. *)
Definition joins (from to : nat) (l : nat * nat * nat) : Prop :=
  (from ≤ l.1.1 < from + 3)%nat ∧ (to ≤ l.1.2 < to + 3)%nat ∧ (0 < l.2)%nat.

(** The total value of a list of links. *)
Definition flow (ls : list (nat * nat * nat)) : nat := sum_list (map (fun l => l.2) ls).

(** The value under ["entity"] of the risk's causality dictionary, if any,
    is a dictionary. *)
Definition entity_is_dict (r : Risk) : bool :=
  match causality r ≫= c_entity with
  | Some (EntityScalar _) => false
  | _ => true
  end.

(** ** Vocabulary for the orchestrator's log *)

(** The messages of a complete run. *)
Definition pipeline_log : list string :=
  [ "Domain analysis start"; "Causality analysis start"; "Heuristic analysis start";
    "Report generation start"; "Orchestrator completed successfully";
    "Report generation end" ].

(** ** Vocabulary for the error lists of the nodes *)

(** The node adds at most one message at the end of the error list and
    leaves the messages before it as they are. *)
Definition appends_at_most_one (node : State → Result) : Prop :=
  ∀ s, ∃ more, errors_of (final_state (node s)) = errors_of s ++ more
               ∧ (length more ≤ 1)%nat.

(** Every node of the four stages but [node_load] of the causality, the
    heuristic and the report stage, which start with
    [state["errors"] = []]. *)
Definition working_nodes (env : Env) (file_path : string) (minted : nat)
  : list (State → Result) :=
  [ (fun s => (DomainAnalyzer.node_load env file_path s minted).1);
    DomainAnalyzer.node_validate;
    DomainAnalyzer.node_analyze env;
    DomainAnalyzer.node_save env;
    CausalityAnalyzer.node_validate;
    CausalityAnalyzer.node_analyze env;
    CausalityAnalyzer.node_save env;
    HeuristicAnalyzer.node_generate_prolog_facts;
    HeuristicAnalyzer.node_initialize_prolog env;
    HeuristicAnalyzer.node_execute_heuristic_analysis;
    HeuristicAnalyzer.node_save env;
    ReportGenerator.node_generate_html_report env;
    ReportGenerator.node_save env ].

(** ** Vocabulary for the executive summary *)

(** The entry comes from the first solution of the query of its rank. *)
Definition ranked_by (prolog : Engine) (r : RankedDomain) : Prop :=
  ∃ sol others,
    query prolog ("critical_domain_ranked(" +:+ pretty (rank r) +:+ ", D, N, C)")
      = QSolutions (sol :: others)
    ∧ binding sol "D" = Some (rd_domain r)
    ∧ binding sol "N" = Some (rd_domain_name r)
    ∧ binding sol "C" = Some (rd_high_count r).

(** ** Sample states of the stages *)

(** The state the causality stage receives for the flat inventory. *)
Definition causality_sample : State :=
  causality_state_of {[ "run_id" := "r1" ]} flat_inventory.

(** The state the heuristic stage receives for the nested inventory. *)
Definition heuristic_sample : State :=
  heuristic_state_of {[ "run_id" := "r1" ]} sample_inventory.

(** The state the orchestrator hands to the domain stage. *)
Definition domain_seed : State :=
  {| metadata := Some ∅; questionnaire := Some empty_questionnaire;
     analysis := Some []; heuristic := None; prolog_facts := None; prolog := None;
     html_path := None; messages := Some []; errors := Some [] |}.

(** An inventory whose only risk has no severity. *)
Definition inventory_without_severity : Analysis :=
  [ ("7.3", {| risks := Some [ bare_risk ] |}) ].

(** ** Fact extraction *)

Lemma count_facts_app p fs gs :
  count_facts p (fs ++ gs) = (count_facts p fs + count_facts p gs)%nat.
Proof. induction fs as [|f fs IH]; simpl; [done|]. rewrite IH. lia. Qed.

Section RiskBlocks.
Variables domain subdomain : string.

Lemma risk_facts_shape risk_id r :
  ∃ t sev e i tm,
    risk_facts domain subdomain risk_id r =
      [ RiskFact domain subdomain risk_id t sev;
        CausalityEntityFact domain subdomain risk_id e;
        CausalityIntentFact domain subdomain risk_id i;
        CausalityTimingFact domain subdomain risk_id tm ].
Proof.
  unfold risk_facts. destruct (causality_values r) as [[e i] tm]. eauto 10.
Qed.

Lemma risk_facts_counts risk_id r :
  count_facts is_risk_fact (risk_facts domain subdomain risk_id r) = 1%nat
  ∧ count_facts is_entity_fact (risk_facts domain subdomain risk_id r) = 1%nat
  ∧ count_facts is_intent_fact (risk_facts domain subdomain risk_id r) = 1%nat
  ∧ count_facts is_timing_fact (risk_facts domain subdomain risk_id r) = 1%nat.
Proof.
  destruct (risk_facts_shape risk_id r) as (t & sev & e & i & tm & ->). done.
Qed.

Local Abbreviation numbered start rs :=
  (flat_map (fun '(risk_id, risk) => risk_facts domain subdomain risk_id risk)
            (Py.enumerate start rs)).

Lemma numbered_counts p start rs :
  (∀ risk_id r, count_facts p (risk_facts domain subdomain risk_id r) = 1%nat) →
  count_facts p (numbered start rs) = length rs.
Proof.
  intros Hone. revert start.
  induction rs as [|r rs IH]; intros start; [done|].
  cbn [Py.enumerate flat_map].
  rewrite count_facts_app, Hone, IH. done.
Qed.

Lemma numbered_block start rs i r :
  rs !! i = Some r →
  occurs_in (risk_facts domain subdomain (start + i) r) (numbered start rs).
Proof.
  unfold occurs_in. revert start i.
  induction rs as [|r0 rs IH]; intros start i Hi; [done|].
  destruct i as [|i]; simpl in Hi.
  - injection Hi as ->. exists [], (numbered (S start) rs).
    rewrite Nat.add_0_r. done.
  - destruct (IH (S start) i Hi) as (before & after & Heq).
    exists (risk_facts domain subdomain start r0 ++ before), after.
    replace (start + S i)%nat with (S start + i)%nat by lia.
    cbn [Py.enumerate flat_map].
    rewrite Heq, <- app_assoc. done.
Qed.
End RiskBlocks.

Lemma occurs_in_widen block fs before after :
  occurs_in block fs → occurs_in block (before ++ fs ++ after).
Proof.
  intros (b & a & ->). exists (before ++ b), (a ++ after).
  by rewrite <- !app_assoc.
Qed.


Lemma per_risk_kinds :
  per_risk_kind is_risk_fact ∧ per_risk_kind is_entity_fact
  ∧ per_risk_kind is_intent_fact ∧ per_risk_kind is_timing_fact.
Proof.
  repeat split; try done; intros d s i r;
    by destruct (risk_facts_counts d s i r) as (? & ? & ? & ?).
Qed.

Lemma see_domain_facts domain x :
  ∃ tax, facts (see_domain domain x) = facts x ++ tax
         ∧ ∀ p, per_risk_kind p → count_facts p tax = 0%nat.
Proof.
  unfold see_domain. case_decide.
  - exists []. by rewrite app_nil_r.
  - eexists. split; [done|]. intros p (_ & Hd & _). simpl. by rewrite Hd.
Qed.

Lemma see_subdomain_facts domain subdomain x :
  ∃ tax, facts (see_subdomain domain subdomain x) = facts x ++ tax
         ∧ ∀ p, per_risk_kind p → count_facts p tax = 0%nat.
Proof.
  unfold see_subdomain. case_decide.
  - exists []. by rewrite app_nil_r.
  - eexists. split; [done|]. intros p (_ & _ & Hs). simpl. by rewrite Hs.
Qed.

Lemma extract_entry_keyed x k c d s :
  Py.split "." k = [d; s] →
  ∃ tax, facts (extract_entry x (k, c)) = facts x ++ tax ++ entry_risk_facts d s (risks_of c)
         ∧ ∀ p, per_risk_kind p → count_facts p tax = 0%nat.
Proof.
  intros Hk. unfold extract_entry. rewrite Hk. cbn [facts].
  destruct (see_domain_facts d x) as (t1 & H1 & Hc1).
  destruct (see_subdomain_facts d s (see_domain d x)) as (t2 & H2 & Hc2).
  exists (t1 ++ t2). split.
  - rewrite H2, H1, <- !app_assoc. done.
  - intros p Hp. rewrite count_facts_app, Hc1, Hc2; done.
Qed.

Lemma extract_entry_skipped x k c :
  length (Py.split "." k) ≠ 2%nat → extract_entry x (k, c) = x.
Proof.
  intros Hk. unfold extract_entry.
  destruct (Py.split "." k) as [|a [|b [|? ?]]]; done.
Qed.

Lemma extract_entry_extends x item :
  ∃ more, facts (extract_entry x item) = facts x ++ more.
Proof.
  destruct item as [k c].
  destruct (decide (length (Py.split "." k) = 2%nat)) as [Hk|Hk].
  - destruct (Py.split "." k) as [|d [|s [|? ?]]] eqn:E; try done.
    destruct (extract_entry_keyed x k c d s E) as (tax & -> & _). eauto.
  - rewrite extract_entry_skipped by done. exists []. by rewrite app_nil_r.
Qed.

Lemma fold_extract_extends l x :
  ∃ more, facts (fold_left extract_entry l x) = facts x ++ more.
Proof.
  revert x. induction l as [|item l IH]; intros x; cbn [fold_left].
  - exists []. by rewrite app_nil_r.
  - destruct (IH (extract_entry x item)) as (m1 & ->).
    destruct (extract_entry_extends x item) as (m2 & ->).
    exists (m2 ++ m1). by rewrite app_assoc.
Qed.

Lemma fold_extract_count p l x :
  per_risk_kind p → well_keyed l →
  count_facts p (facts (fold_left extract_entry l x)) =
    (count_facts p (facts x) + inventory_size l)%nat.
Proof.
  intros Hp Hl. revert x.
  induction Hl as [|[k c] l Hk Hl IH]; intros x; cbn [fold_left].
  - unfold inventory_size. simpl. lia.
  - rewrite IH. cbn [fst] in Hk.
    destruct (Py.split "." k) as [|d [|s [|? ?]]] eqn:E; try done.
    destruct (extract_entry_keyed x k c d s E) as (tax & -> & Htax).
    rewrite !count_facts_app, (Htax p Hp).
    unfold entry_risk_facts. rewrite numbered_counts by apply Hp.
    unfold inventory_size. simpl. lia.
Qed.

Lemma fold_extract_block l x k c d s i r :
  (k, c) ∈ l → Py.split "." k = [d; s] → risks_of c !! i = Some r →
  occurs_in (risk_facts d s (S i) r) (facts (fold_left extract_entry l x)).
Proof.
  intros Hin Hk Hi. revert x.
  induction l as [|item l IH]; intros x; [by apply elem_of_nil in Hin|].
  apply elem_of_cons in Hin as [<-|Hin]; cbn [fold_left].
  - destruct (fold_extract_extends l (extract_entry x (k, c))) as (more & ->).
    destruct (extract_entry_keyed x k c d s Hk) as (tax & -> & _).
    rewrite <- !app_assoc. rewrite (app_assoc (facts x) tax).
    apply occurs_in_widen. apply (numbered_block d s 1 _ i r Hi).
  - by apply IH.
Qed.

Lemma risk_facts_values d s risk_id r :
  ∃ e i tm,
    risk_facts d s risk_id r =
      [ RiskFact d s risk_id (_escape_prolog_string (default EmptyString (title r)))
                 (default "medium" (severity r));
        CausalityEntityFact d s risk_id e;
        CausalityIntentFact d s risk_id i;
        CausalityTimingFact d s risk_id tm ]
    ∧ (nested_entity r = None → entity r = None → e = "other")
    ∧ (nested_intent r = None → intent r = None → i = "other")
    ∧ (nested_timing r = None → timing r = None → tm = "other").
Proof.
  unfold risk_facts, causality_values, nested_entity, nested_intent, nested_timing.
  destruct (causality r) as [[[[f|x]|] ci ct]|]; cbn.
  - exists (default "other" (cvalue f)), (default "other" (ci ≫= cvalue)),
      (default "other" (ct ≫= cvalue)).
    repeat split; [by intros -> | by intros -> | by intros ->].
  - do 3 eexists. split; [done|]. repeat split; by intros _ ->.
  - do 3 eexists. split; [done|]. repeat split; by intros _ ->.
  - do 3 eexists. split; [done|]. repeat split; by intros _ ->.
Qed.

Lemma generate_facts_returns state inventory :
  analysis state = Some inventory →
  HeuristicAnalyzer.node_generate_prolog_facts state =
    Return (set_prolog_facts (Some (facts (extract inventory))) state).
Proof.
  intros Ha. unfold HeuristicAnalyzer.node_generate_prolog_facts,
    HeuristicAnalyzer.generate_facts. by rewrite Ha.
Qed.

(** C5: on an inventory whose keys all split into two parts, the fact
    extraction node returns a fact list with one risk fact, one entity fact,
    one intent fact and one timing fact per risk of the inventory (each count
    is the sum of the risk-list lengths); the risk at position [i] (from 0) of
    the list of key [d.s] contributes the consecutive facts risk, entity,
    intent, timing, all keyed by [(d, s, i + 1)]. *)
Theorem extraction_emits_one_block_per_risk (state : State) (inventory : Analysis) :
  analysis state = Some inventory →
  well_keyed inventory →
  ∃ fs,
    HeuristicAnalyzer.node_generate_prolog_facts state
      = Return (set_prolog_facts (Some fs) state)
    ∧ count_facts is_risk_fact fs = inventory_size inventory
    ∧ count_facts is_entity_fact fs = inventory_size inventory
    ∧ count_facts is_intent_fact fs = inventory_size inventory
    ∧ count_facts is_timing_fact fs = inventory_size inventory
    ∧ ∀ k c d s i r,
        (k, c) ∈ inventory → Py.split "." k = [d; s] → risks_of c !! i = Some r →
        ∃ t sev e it tm,
          occurs_in [ RiskFact d s (S i) t sev;
                      CausalityEntityFact d s (S i) e;
                      CausalityIntentFact d s (S i) it;
                      CausalityTimingFact d s (S i) tm ] fs.
Proof.
  intros Ha Hk. eexists. split; [by apply generate_facts_returns|].
  unfold extract.
  destruct per_risk_kinds as (H1 & H2 & H3 & H4).
  rewrite !fold_extract_count by done. cbn [facts extraction_start count_facts].
  repeat split; try done.
  intros k c d s i r Hin Hs Hi.
  destruct (risk_facts_shape d s (S i) r) as (t & sev & e & it & tm & Heq).
  exists t, sev, e, it, tm. rewrite <- Heq.
  by eapply fold_extract_block.
Qed.

Lemma extraction_emits_one_block_per_risk_witness :
  ∃ fs,
    HeuristicAnalyzer.node_generate_prolog_facts (heuristic_state_of ∅ sample_inventory)
      = Return (set_prolog_facts (Some fs) (heuristic_state_of ∅ sample_inventory))
    ∧ count_facts is_risk_fact fs = 2%nat.
Proof.
  destruct (extraction_emits_one_block_per_risk
              (heuristic_state_of ∅ sample_inventory) sample_inventory)
    as (fs & Hret & Hrisk & _).
  - reflexivity.
  - repeat constructor.
  - exists fs. split; [exact Hret | exact Hrisk].
Defined.

(** C6: a key that does not split into exactly two parts contributes no
    fact and leaves the bookkeeping of seen domains and subdomains as it
    was; the node returns without touching the error list, and the facts are
    those of the inventory without that key. *)
Theorem malformed_key_is_skipped (state : State) (before after : Analysis)
    (k : string) (c : Content) :
  analysis state = Some (before ++ (k, c) :: after) →
  length (Py.split "." k) ≠ 2%nat →
  (∀ x, extract_entry x (k, c) = x)
  ∧ ∃ fs,
      HeuristicAnalyzer.node_generate_prolog_facts state
        = Return (set_prolog_facts (Some fs) state)
      ∧ errors (set_prolog_facts (Some fs) state) = errors state
      ∧ fs = facts (extract (before ++ after)).
Proof.
  intros Ha Hk. split; [intros x; by apply extract_entry_skipped|].
  eexists. split; [by apply generate_facts_returns|]. split; [done|].
  unfold extract. rewrite !fold_left_app. cbn [fold_left].
  by rewrite extract_entry_skipped.
Qed.

Lemma malformed_key_is_skipped_witness :
  ∃ fs,
    HeuristicAnalyzer.node_generate_prolog_facts (heuristic_state_of ∅ inventory_with_abc)
      = Return (set_prolog_facts (Some fs) (heuristic_state_of ∅ inventory_with_abc))
    ∧ errors (set_prolog_facts (Some fs) (heuristic_state_of ∅ inventory_with_abc)) = Some []
    ∧ length fs = 12%nat.
Proof.
  destruct (malformed_key_is_skipped
              (heuristic_state_of ∅ inventory_with_abc)
              [ ("2.1", {| risks := Some [ nested_risk "high" "ai" "intentional" "post-deployment" ] |}) ]
              [ ("7.3", {| risks := Some [ bare_risk ] |}) ]
              "abc" {| risks := Some [ bare_risk ] |})
    as (_ & fs & Hret & Herr & Hfs).
  - reflexivity.
  - vm_compute. lia.
  - exists fs. split; [exact Hret|]. split; [exact Herr|].
    rewrite Hfs. vm_compute. reflexivity.
Defined.

(** C10: in the facts of a risk, a missing ["severity"] gives severity
    [medium], and a causality dimension with no value in the nested
    dictionary and no flat key gives [other]; the node returns with the error
    list as it was. *)
Theorem missing_fields_take_defaults (state : State) (inventory : Analysis)
    (k : string) (c : Content) (d s : string) (i : nat) (r : Risk) :
  analysis state = Some inventory →
  (k, c) ∈ inventory → Py.split "." k = [d; s] → risks_of c !! i = Some r →
  ∃ fs t sev e it tm,
    HeuristicAnalyzer.node_generate_prolog_facts state
      = Return (set_prolog_facts (Some fs) state)
    ∧ errors (set_prolog_facts (Some fs) state) = errors state
    ∧ occurs_in [ RiskFact d s (S i) t sev;
                  CausalityEntityFact d s (S i) e;
                  CausalityIntentFact d s (S i) it;
                  CausalityTimingFact d s (S i) tm ] fs
    ∧ (severity r = None → sev = "medium")
    ∧ (nested_entity r = None → entity r = None → e = "other")
    ∧ (nested_intent r = None → intent r = None → it = "other")
    ∧ (nested_timing r = None → timing r = None → tm = "other").
Proof.
  intros Ha Hin Hs Hi.
  destruct (risk_facts_values d s (S i) r) as (e & it & tm & Heq & He & Hit & Htm).
  exists (facts (extract inventory)),
    (_escape_prolog_string (default EmptyString (title r))),
    (default "medium" (severity r)), e, it, tm.
  split; [by apply generate_facts_returns|]. split; [done|].
  split; [rewrite <- Heq; by eapply fold_extract_block|].
  split; [by intros ->|]. done.
Qed.

Lemma missing_fields_take_defaults_witness :
  ∃ fs t,
    HeuristicAnalyzer.node_generate_prolog_facts (heuristic_state_of ∅ inventory_with_abc)
      = Return (set_prolog_facts (Some fs) (heuristic_state_of ∅ inventory_with_abc))
    ∧ occurs_in [ RiskFact "7" "3" 1 t "medium";
                  CausalityEntityFact "7" "3" 1 "other";
                  CausalityIntentFact "7" "3" 1 "other";
                  CausalityTimingFact "7" "3" 1 "other" ] fs.
Proof.
  destruct (missing_fields_take_defaults
              (heuristic_state_of ∅ inventory_with_abc) inventory_with_abc
              "7.3" {| risks := Some [ bare_risk ] |} "7" "3" 0 bare_risk)
    as (fs & t & sev & e & it & tm & Hret & _ & Hocc & Hsev & He & Hit & Htm).
  - reflexivity.
  - unfold inventory_with_abc. apply list_elem_of_In. simpl. tauto.
  - reflexivity.
  - reflexivity.
  - exists fs, t. split; [exact Hret|].
    rewrite (Hsev eq_refl), (He eq_refl eq_refl), (Hit eq_refl eq_refl),
      (Htm eq_refl eq_refl) in Hocc.
    exact Hocc.
Defined.


(** ** Alerts *)

Lemma Qlt_bool_iff a b : Num.Qlt_bool a b = true ↔ (a < b)%Q.
Proof.
  unfold Num.Qlt_bool. rewrite negb_true_iff.
  split.
  - intros H. apply Qnot_le_lt. intros Hle.
    apply Qle_bool_iff in Hle. congruence.
  - intros H. destruct (Qle_bool b a) eqn:E; [|done].
    apply Qle_bool_iff in E. apply Qlt_not_le in H. done.
Qed.

Lemma Qlt_bool_false a b : Num.Qlt_bool a b = false ↔ (b <= a)%Q.
Proof.
  unfold Num.Qlt_bool. rewrite negb_false_iff. apply Qle_bool_iff.
Qed.

Lemma round2_rounds x : rounds_to x (Num.round2 x).
Proof.
  unfold rounds_to, Num.round2.
  pose proof (Qfloor_le (x * 100)) as Hlo.
  pose proof (Qlt_floor (x * 100)) as Hhi.
  rewrite inject_Z_plus in Hhi. change (inject_Z 1) with 1%Q in Hhi.
  generalize dependent (Qfloor (x * 100)). intros n Hlo Hhi.
  destruct (Num.Qlt_bool (1 # 2) (x * 100 - inject_Z n)) eqn:Eup.
  - apply Qlt_bool_iff in Eup. exists (n + 1)%Z. split; [apply Qred_correct|].
    rewrite inject_Z_plus. change (inject_Z 1) with 1%Q. split; lra.
  - apply Qlt_bool_false in Eup.
    destruct (Num.Qlt_bool (x * 100 - inject_Z n) (1 # 2)) eqn:Edown.
    + exists n. split; [apply Qred_correct|]. split; lra.
    + apply Qlt_bool_false in Edown.
      destruct (Z.odd n).
      * exists (n + 1)%Z. split; [apply Qred_correct|].
        rewrite inject_Z_plus. change (inject_Z 1) with 1%Q. split; lra.
      * exists n. split; [apply Qred_correct|]. split; lra.
Qed.

Lemma percentage_or_zero_share count total pct :
  percentage_or_zero count total = Some pct → share count total pct.
Proof.
  unfold percentage_or_zero, share.
  destruct total as [t|a]; [|done]. cbn.
  destruct (Num.Qlt_bool 0 t) eqn:E.
  - apply Qlt_bool_iff in E. destruct count as [c|a]; [|done]. cbn.
    intros [= <-]. exists t. split; [done|]. left. split; [done|].
    exists c. split; [done|]. reflexivity.
  - apply Qlt_bool_false in E. intros [= <-]. exists t. split; [done|].
    right. done.
Qed.

Lemma share_alert_inv prolog q test r :
  share_alert prolog q test = Some r →
  share_alert_of prolog q (fun pct => test pct = true) r.
Proof.
  unfold share_alert, share_alert_of.
  destruct (first_binding prolog q "C") as [count|]; [|done].
  destruct (first_binding prolog "total_risks(T)" "T") as [total|]; [|done].
  cbn. destruct (percentage_or_zero count total) as [pct|] eqn:E; [|done].
  cbn. intros [= <-]. exists count, total, pct. cbn.
  repeat split; try done.
  - by apply percentage_or_zero_share.
  - apply round2_rounds.
Qed.

Lemma share_alert_of_iff prolog q (P Q' : Q -> Prop) r :
  (∀ x, P x ↔ Q' x) → share_alert_of prolog q P r → share_alert_of prolog q Q' r.
Proof.
  intros H (count & total & pct & ? & ? & ? & Hflag & ? & ?).
  exists count, total, pct. repeat split; try done; rewrite <- H || rewrite H; tauto.
Qed.

Lemma share_alert_zero_total prolog q test t count :
  first_binding prolog "total_risks(T)" "T" = Some (TNum t) → (t == 0)%Q →
  first_binding prolog q "C" = Some count →
  share_alert prolog q test = Some {| alert := test 0%Q; value := 0%Q |}.
Proof.
  intros Ht Hz Hc. unfold share_alert, percentage_or_zero. rewrite Hc, Ht. cbn.
  assert (Num.Qlt_bool 0 t = false) as -> by (apply Qlt_bool_false; lra).
  cbn. done.
Qed.

(** C3 (as amended): when the total risk count is zero, each of the five
    alerts that divide a count by the total takes the branch [else 0]: it
    answers with a record whose value is 0, not with null, as soon as its
    count query answers; the alert on the high-severity percentage answers
    with value 0 when its query has no solution. *)
Theorem zero_total_share_alerts_have_value_zero (prolog : Engine) (t : Q) :
  first_binding prolog "total_risks(T)" "T" = Some (TNum t) → (t == 0)%Q →
  (is_Some (first_binding prolog "risks_by_entity(ai, C)" "C") →
     value <$> ai_dominance (alerts (_run_pattern_analysis prolog)) = Some 0%Q)
  ∧ (is_Some (first_binding prolog "risks_by_timing('post-deployment', C)" "C") →
     value <$> operational_risks (alerts (_run_pattern_analysis prolog)) = Some 0%Q)
  ∧ (is_Some (first_binding prolog "risks_by_timing('pre-deployment', C)" "C") →
     value <$> low_preventable_ratio (alerts (_run_pattern_analysis prolog)) = Some 0%Q)
  ∧ (is_Some (first_binding prolog "risks_by_severity(medium, C)" "C") →
     value <$> medium_risk_accumulation (alerts (_run_pattern_analysis prolog)) = Some 0%Q)
  ∧ (is_Some (first_binding prolog "risks_by_entity(human, C)" "C") →
     value <$> human_error_dominance (alerts (_run_pattern_analysis prolog)) = Some 0%Q)
  ∧ (query prolog "percentage_high_severity(P)" = QSolutions [] →
     value <$> critical_risk_concentration (alerts (_run_pattern_analysis prolog))
       = Some 0%Q).
Proof.
  intros Ht Hz. cbn [alerts _run_pattern_analysis run_alerts ai_dominance
    operational_risks low_preventable_ratio medium_risk_accumulation
    human_error_dominance critical_risk_concentration].
  unfold alert_ai_dominance, alert_operational_risks, alert_low_preventable_ratio,
    alert_medium_risk_accumulation, alert_human_error_dominance.
  repeat split; try (intros [count Hc];
    by rewrite (share_alert_zero_total _ _ _ t count Ht Hz Hc)).
  intros Hq. unfold alert_critical_risk_concentration. by rewrite Hq.
Qed.

Lemma zero_total_share_alerts_have_value_zero_witness :
  value <$> ai_dominance (alerts (_run_pattern_analysis empty_base)) = Some 0%Q
  ∧ value <$> low_preventable_ratio (alerts (_run_pattern_analysis empty_base)) = Some 0%Q.
Proof.
  destruct (zero_total_share_alerts_have_value_zero empty_base 0)
    as (Hai & _ & Hpre & _ & _ & _).
  - reflexivity.
  - reflexivity.
  - split; [apply Hai | apply Hpre]; eexists; reflexivity.
Defined.

(** C3, as stated, fails: on a fact base whose total is zero the value of
    the ai_dominance alert is the number 0. *)
Lemma zero_total_alert_value_is_not_null :
  first_binding empty_base "total_risks(T)" "T" = Some (TNum 0)
  ∧ ai_dominance (alerts (_run_pattern_analysis empty_base))
      = Some {| alert := false; value := 0%Q |}
  ∧ value <$> ai_dominance (alerts (_run_pattern_analysis empty_base)) ≠ None.
Proof. split; [reflexivity|]. split; [reflexivity|]. discriminate. Qed.

Lemma critical_alert_inv prolog r :
  alert_critical_risk_concentration prolog = Some r →
  ∃ sols p,
    query prolog "percentage_high_severity(P)" = QSolutions sols
    ∧ match sols with
      | [] => p = 0%Q
      | sol :: _ => binding sol "P" = Some (TNum p)
      end
    ∧ (alert r = true ↔ (40 < p)%Q)
    ∧ value r = Num.round2 p
    ∧ rounds_to p (value r).
Proof.
  unfold alert_critical_risk_concentration.
  destruct (query prolog "percentage_high_severity(P)") as [|sols]; [done|].
  assert (∀ p, Some {| alert := Num.Qlt_bool 40 p; value := Num.round2 p |} = Some r →
    (alert r = true ↔ (40 < p)%Q) ∧ value r = Num.round2 p ∧ rounds_to p (value r)) as Hfin.
  { intros p [= <-]. cbn. split; [apply Qlt_bool_iff|]. split; [done|]. apply round2_rounds. }
  destruct sols as [|sol sols]; cbn.
  - intros H. exists [], 0%Q. split; [done|]. split; [done|]. by apply Hfin.
  - destruct (binding sol "P") as [[p|a]|] eqn:E; cbn; try done.
    intros H. exists (sol :: sols), p. split; [done|]. split; [done|]. by apply Hfin.
Qed.

Lemma intentional_alert_inv prolog r :
  alert_intentional_threats prolog = Some r →
  ∃ n, first_binding prolog "risks_by_intent(intentional, C)" "C" = Some (TNum n)
       ∧ (alert r = true ↔ (3 < n)%Q)
       ∧ value r = n.
Proof.
  unfold alert_intentional_threats.
  destruct (first_binding prolog "risks_by_intent(intentional, C)" "C") as [[n|a]|];
    cbn; try done.
  intros [= <-]. exists n. split; [done|]. split; [apply Qlt_bool_iff|done].
Qed.

Lemma fragmentation_alert_inv prolog r :
  alert_high_risk_fragmentation prolog = Some r →
  ∃ sols ds high,
    query prolog "risks_in_domain_by_severity(D, high, C), C > 0" = QSolutions sols
    ∧ mapM (fun d => binding d "D") sols = Some ds
    ∧ first_binding prolog "risks_by_severity(high, C)" "C" = Some high
    ∧ (alert r = true ↔
         (4 ≤ length (Num.distinct ds))%nat ∧ ∃ h, high = TNum h ∧ (6 <= h)%Q)
    ∧ value r = inject_Z (Z.of_nat (length (Num.distinct ds))).
Proof.
  unfold alert_high_risk_fragmentation, count_domains.
  destruct (query prolog _) as [|sols] eqn:Eq; [done|].
  destruct (mapM (fun d => binding d "D") sols) as [ds|] eqn:Em; [|done].
  destruct (first_binding prolog "risks_by_severity(high, C)" "C") as [high|] eqn:Eh;
    [|done].
  cbn [mbind option_bind].
  intros H. exists sols, ds, high. do 3 (split; [done|]).
  destruct (4 <=? length (Num.distinct ds))%nat eqn:E.
  - apply Nat.leb_le in E. destruct high as [h|a]; cbn in H; [|done].
    injection H as <-. cbn. split; [|done]. split.
    + intros Hh. split; [done|]. exists h. split; [done|]. by apply Qle_bool_iff.
    + intros (_ & h' & [= <-] & Hh). by apply Qle_bool_iff.
  - apply Nat.leb_gt in E. cbn in H. injection H as <-. cbn. split; [|done].
    split; [done|]. intros (Hge & _). lia.
Qed.




(** For every inventory of up to 400 risks, whatever the count, the
    threshold tests of the five share alerts come out the same in binary64
    arithmetic as on the exact rationals of the model. *)
Lemma share_flags_agree_with_binary64 : Binary64.flags_agree_up_to 400 = true.
Proof. vm_compute. reflexivity. Qed.


(** ** Error list *)

Lemma errors_of_record_error msg s :
  errors_of (record_error msg s) =
    if decide (msg ∈ errors_of s) then errors_of s else errors_of s ++ [msg].
Proof. done. Qed.

Lemma record_error_elem msg s : msg ∈ errors_of (record_error msg s).
Proof.
  rewrite errors_of_record_error. case_decide; [done|].
  apply elem_of_app. right. by apply list_elem_of_singleton.
Qed.

Lemma record_error_NoDup msg s :
  NoDup (errors_of s) → NoDup (errors_of (record_error msg s)).
Proof.
  intros Hs. rewrite errors_of_record_error. case_decide; [done|].
  apply NoDup_app. split; [done|]. split.
  - intros x Hx Hm. apply list_elem_of_singleton in Hm. by subst.
  - apply NoDup_singleton.
Qed.

Lemma record_error_nonempty msg s : errors_of (record_error msg s) ≠ [].
Proof.
  intros H. pose proof (record_error_elem msg s) as Hin.
  rewrite H in Hin. by apply elem_of_nil in Hin.
Qed.

Lemma push_error_nonempty msg s : errors_of (push_error msg s) ≠ [].
Proof. unfold push_error, errors_of. cbn. by destruct (default [] (errors s)). Qed.

(** ** Which nodes raise *)

Lemma heuristic_load_returns state :
  ∃ s, HeuristicAnalyzer.node_load state = Return s
       ∧ (analysis state = None →
          errors_of s = ["No analysis data present in initial state"]).
Proof.
  unfold HeuristicAnalyzer.node_load. cbn.
  destruct (analysis state); [destruct (metadata state)|]; eexists; split; done.
Qed.

Lemma initialize_failure env state e :
  HeuristicAnalyzer.initialize env state = Exn e →
  HeuristicAnalyzer.node_initialize_prolog env state =
    Raise ("Prolog initialization failed: " +:+ e)
          (record_error ("Prolog initialization failed: " +:+ e) state).
Proof. intros H. unfold HeuristicAnalyzer.node_initialize_prolog. by rewrite H. Qed.

Lemma other_nodes_return env state :
  raised (HeuristicAnalyzer.node_load state) = false
  ∧ raised (HeuristicAnalyzer.node_generate_prolog_facts state) = false
  ∧ raised (HeuristicAnalyzer.node_execute_heuristic_analysis state) = false
  ∧ raised (CausalityAnalyzer.node_load state) = false
  ∧ raised (CausalityAnalyzer.node_validate state) = false
  ∧ raised (DomainAnalyzer.node_validate state) = false
  ∧ raised (ReportGenerator.node_load state) = false
  ∧ raised (ReportGenerator.node_generate_html_report env state) = false.
Proof.
  repeat split.
  - unfold HeuristicAnalyzer.node_load. cbn.
    destruct (analysis state); [by destruct (metadata state)|done].
  - unfold HeuristicAnalyzer.node_execute_heuristic_analysis.
    by destruct (prolog state).
  - unfold CausalityAnalyzer.node_load. cbn. by destruct (analysis state).
  - unfold CausalityAnalyzer.node_validate. destruct (analysis state); [|done].
    by destruct (CausalityAnalyzer.check_shape _).
  - unfold DomainAnalyzer.node_validate.
    destruct (negb _); [done|].
    destruct (questionnaire state ≫= q_metadata); [|done].
    destruct (questionnaire state ≫= q_responses); [|done].
    by destruct (_ && _).
  - unfold ReportGenerator.node_load. cbn.
    destruct (analysis state); [|done]. destruct (heuristic state); [|done].
    destruct (questionnaire state); cbn; by destruct (metadata state).
  - unfold ReportGenerator.node_generate_html_report.
    destruct (ReportGenerator.generate_executive_summary_text env _ _ _); [|done].
    by destruct (generate_html_report env _ _ _ _).
Qed.

Lemma guarded_nodes_return env state :
  (∀ f n, (∀ e, open_json env f ≠ FileOtherError e) →
          raised (DomainAnalyzer.node_load env f state n).1 = false)
  ∧ (get_llm_instance env = Ok () → errors state ≠ None →
     raised (DomainAnalyzer.node_analyze env state) = false)
  ∧ (get_llm_instance env = Ok () → with_structured_output env = Ok () →
     raised (CausalityAnalyzer.node_analyze env state) = false).
Proof.
  repeat split.
  - intros f n Hopen. unfold DomainAnalyzer.node_load.
    destruct (open_json env f) as [q| |msg|e] eqn:E; try done.
    + by destruct (default ∅ (q_metadata q) !! "run_id") as [[|c r]|].
    + by specialize (Hopen e).
  - intros Hllm Herr. unfold DomainAnalyzer.node_analyze. rewrite Hllm.
    destruct (negb _).
    + by destruct (errors state).
    + destruct (DomainAnalyzer.structured_reply env _); [|done].
      by destruct (validate_python env _).
  - intros Hllm Hout. unfold CausalityAnalyzer.node_analyze. rewrite Hllm, Hout.
    by destruct (CausalityAnalyzer.analyze env _).
Qed.




(** ** Save nodes *)

(** C2 (as amended): when the metadata carries no run identifier, the save
    node of every stage catches the failure of its save step, records its
    text in the error list and returns the state; the text is the one of the
    missing-identifier error as soon as the output directory can be made. *)
Theorem save_nodes_record_missing_run_id (env : Env) (state : State) :
  Py.truthy (metadata_get state "run_id") = false →
  (∃ e, HeuristicAnalyzer.node_save env state
          = Return (record_error ("Save failed: " +:+ e) state)
        ∧ (makedirs env (HEURISTIC_DIR env) = Ok () →
           e = "Missing run_id in state; run must start from domain analyzer"))
  ∧ (∃ e, DomainAnalyzer.node_save env state = Return (record_error e state)
          ∧ (makedirs env (DOMAIN_DIR env) = Ok () →
             e = "Missing run_id in state; ensure the flow starts from domain analyzer which creates run_id"))
  ∧ (∃ e, CausalityAnalyzer.node_save env state
            = Return (record_error e (push_error e state))
          ∧ (makedirs env (CAUSALITY_DIR env) = Ok () →
             e = "Missing run_id in state; run must start from domain analyzer"))
  ∧ (∃ e, ReportGenerator.node_save env state
            = Return (record_error ("Metadata save failed: " +:+ e) state)
          ∧ (makedirs env (REPORT_DIR env) = Ok () →
             e = "Missing run_id in state; run must start from domain analyzer")).
Proof.
  intros Hrun.
  unfold HeuristicAnalyzer.node_save, HeuristicAnalyzer.save,
    DomainAnalyzer.node_save, DomainAnalyzer._save_output,
    CausalityAnalyzer.node_save, CausalityAnalyzer._save_output,
    ReportGenerator.node_save, ReportGenerator.save.
  rewrite Hrun.
  repeat split.
  - destruct (makedirs env (HEURISTIC_DIR env)) as [[]|e]; cbn; eexists; split; done.
  - destruct (makedirs env (DOMAIN_DIR env)) as [[]|e]; cbn; eexists; split; done.
  - destruct (makedirs env (CAUSALITY_DIR env)) as [[]|e]; cbn; eexists; split; done.
  - destruct (makedirs env (REPORT_DIR env)) as [[]|e]; cbn; eexists; split; done.
Qed.

Lemma save_nodes_record_missing_run_id_witness :
  ∃ e, CausalityAnalyzer.node_save happy_env (causality_state_of ∅ flat_inventory)
         = Return (record_error e (push_error e (causality_state_of ∅ flat_inventory)))
       ∧ e = "Missing run_id in state; run must start from domain analyzer".
Proof.
  destruct (save_nodes_record_missing_run_id happy_env (causality_state_of ∅ flat_inventory))
    as (_ & _ & (e & Hsave & He) & _).
  - reflexivity.
  - exists e. split; [exact Hsave|]. apply He. reflexivity.
Defined.

(** C2, as stated, fails: without a run identifier the save node of the
    heuristic stage returns its state, with the failure in the error list. *)
Lemma save_without_run_id_returns :
  metadata_get (heuristic_state_of ∅ sample_inventory) "run_id" = None
  ∧ HeuristicAnalyzer.node_save happy_env (heuristic_state_of ∅ sample_inventory)
    = Return (record_error
                "Save failed: Missing run_id in state; run must start from domain analyzer"
                (heuristic_state_of ∅ sample_inventory))
  ∧ raised (DomainAnalyzer.node_save happy_env (heuristic_state_of ∅ sample_inventory)) = false
  ∧ raised (CausalityAnalyzer.node_save happy_env (heuristic_state_of ∅ sample_inventory)) = false.
Proof. repeat split; reflexivity. Qed.

(** ** Repeated messages *)

(** C8: the causality stage appends without looking.  On an inventory whose
    entry ["1.1"] has no ["risks"] key, running the validate node twice
    leaves its text twice in the error list; so does one run of the whole
    pipeline when the language model fails with the same text. *)
Theorem causality_error_list_repeats_a_message :
  errors_of (final_state
               (run_nodes [ CausalityAnalyzer.node_validate; CausalityAnalyzer.node_validate ]
                          (causality_state_of {[ "run_id" := "r1" ]} inventory_without_risks)))
    = [ missing_risks_text; missing_risks_text ]
  ∧ CausalityAnalyzer.invoke env_llm_fails
      (causality_state_of {[ "run_id" := "r1" ]} inventory_without_risks)
    = Return (set_errors (Some [ missing_risks_text; missing_risks_text ])
                (causality_state_of {[ "run_id" := "r1" ]} inventory_without_risks))
  ∧ ¬ NoDup [ missing_risks_text; missing_risks_text ].
Proof.
  split; [reflexivity|]. split; [reflexivity|].
  intros H. apply NoDup_cons in H as [Hnin _].
  apply Hnin. by apply list_elem_of_singleton.
Qed.


(** ** The run identifier through the nodes *)

Lemma run_nodes_keeps_run_id nodes :
  Forall keeps_run_id nodes → keeps_run_id (run_nodes nodes).
Proof.
  induction 1 as [|node nodes Hnode _ IH]; intros s; cbn [run_nodes]; [done|].
  specialize (Hnode s). destruct (node s) as [s'|e s']; cbn in *.
  - by rewrite IH.
  - done.
Qed.

Lemma domain_analyze_keeps env : keeps_run_id (DomainAnalyzer.node_analyze env).
Proof.
  intros s. unfold DomainAnalyzer.node_analyze.
  destruct (get_llm_instance env); [|done].
  destruct (negb (questionnaire_truthy (questionnaire s))).
  - by destruct (errors s).
  - destruct (DomainAnalyzer.structured_reply env _); [|done].
    by destruct (validate_python env _).
Qed.

Lemma domain_save_keeps env : keeps_run_id (DomainAnalyzer.node_save env).
Proof.
  intros s. unfold DomainAnalyzer.node_save.
  by destruct (DomainAnalyzer._save_output env s).
Qed.

Lemma causality_nodes_keep env : Forall keeps_run_id (CausalityAnalyzer.nodes env).
Proof.
  repeat apply Forall_cons_2; [| | | |apply Forall_nil_2]; intros s.
  - unfold CausalityAnalyzer.node_load. cbn. by destruct (analysis s).
  - unfold CausalityAnalyzer.node_validate. destruct (analysis s); [|done].
    by destruct (CausalityAnalyzer.check_shape _).
  - unfold CausalityAnalyzer.node_analyze.
    destruct (get_llm_instance env); [|done].
    destruct (with_structured_output env); [|done].
    by destruct (CausalityAnalyzer.analyze env _).
  - unfold CausalityAnalyzer.node_save.
    by destruct (CausalityAnalyzer._save_output env s).
Qed.

Lemma heuristic_nodes_keep env : Forall keeps_run_id (HeuristicAnalyzer.nodes env).
Proof.
  repeat apply Forall_cons_2; [| | | | |apply Forall_nil_2]; intros s.
  - unfold HeuristicAnalyzer.node_load. cbn.
    destruct (analysis s); [|done]. unfold run_id_of, metadata_get.
    destruct (metadata s) eqn:E; cbn; rewrite ?E; cbn; by rewrite ?lookup_empty.
  - done.
  - unfold HeuristicAnalyzer.node_initialize_prolog.
    by destruct (HeuristicAnalyzer.initialize env s).
  - unfold HeuristicAnalyzer.node_execute_heuristic_analysis.
    by destruct (prolog s).
  - unfold HeuristicAnalyzer.node_save. by destruct (HeuristicAnalyzer.save env s).
Qed.

Lemma reload_questionnaire_metadata env meta s :
  metadata (ReportGenerator.reload_questionnaire env meta s) = metadata s.
Proof.
  unfold ReportGenerator.reload_questionnaire.
  destruct (questionnaire_truthy _); [done|].
  destruct (meta !! "run_id") as [[|c r]|]; try done.
  destruct (exists_file env _); [|done]. by destruct (open_json env _).
Qed.

Lemma report_nodes_keep env : Forall keeps_run_id (ReportGenerator.nodes env).
Proof.
  repeat apply Forall_cons_2; [| | |apply Forall_nil_2]; intros s.
  - unfold ReportGenerator.node_load. cbn.
    destruct (analysis s); [|done]. destruct (heuristic s); [|done].
    unfold run_id_of, metadata_get.
    destruct (questionnaire s); cbn;
      destruct (metadata s) eqn:E; cbn; rewrite ?E; cbn; by rewrite ?lookup_empty.
  - unfold ReportGenerator.node_generate_html_report.
    assert (run_id_of (set_metadata (Some (default ∅ (metadata s))) s) = run_id_of s)
      as Hdef.
    { unfold run_id_of, metadata_get. cbn.
      destruct (metadata s) eqn:E; cbn; by rewrite ?lookup_empty. }
    destruct (ReportGenerator.generate_executive_summary_text env _ _ _) as [text|e];
      [|done].
    cbn zeta.
    assert (∀ s', metadata s' =
                    metadata (ReportGenerator.reload_questionnaire env
                      (<["executive_summary_text" := text]> (default ∅ (metadata s)))
                      (set_metadata
                         (Some (<["executive_summary_text" := text]> (default ∅ (metadata s))))
                         (set_metadata (Some (default ∅ (metadata s))) s))) →
                  run_id_of s' = run_id_of s) as Hkeep.
    { intros s' Hs'. rewrite reload_questionnaire_metadata in Hs'.
      unfold run_id_of, metadata_get. rewrite Hs'. cbn.
      rewrite lookup_insert_ne by done.
      destruct (metadata s) eqn:E; cbn; by rewrite ?lookup_empty. }
    destruct (generate_html_report env _ _ _ _); apply Hkeep; done.
  - unfold ReportGenerator.node_save. by destruct (ReportGenerator.save env s).
Qed.

Lemma later_nodes_keep env : Forall keeps_run_id (later_nodes env).
Proof.
  unfold later_nodes. repeat apply Forall_app_2.
  - repeat apply Forall_cons_2; [apply domain_analyze_keeps | apply domain_save_keeps|].
    apply Forall_nil_2.
  - apply causality_nodes_keep.
  - apply heuristic_nodes_keep.
  - apply report_nodes_keep.
Qed.

(** ** The domain stage with an empty final error list *)

Lemma keeps_run_id_return node s s' :
  keeps_run_id node → node s = Return s' → run_id_of s' = run_id_of s.
Proof. intros Hk Hn. specialize (Hk s). by rewrite Hn in Hk. Qed.

Lemma domain_save_clean env s s' :
  DomainAnalyzer.node_save env s = Return s' → errors_of s' = [] →
  s' = s ∧ Py.truthy (run_id_of s) = true.
Proof.
  unfold DomainAnalyzer.node_save, DomainAnalyzer._save_output, run_id_of.
  destruct (makedirs env _) as [[]|e]; cbn.
  - destruct (Py.truthy (metadata_get s "run_id")) eqn:E.
    + destruct (write_json env _) as [[]|e]; cbn.
      * by intros [= <-] _.
      * intros [= <-] H. by apply record_error_nonempty in H.
    + intros [= <-] H. by apply record_error_nonempty in H.
  - intros [= <-] H. by apply record_error_nonempty in H.
Qed.

Lemma domain_analyze_clean env s s' :
  DomainAnalyzer.node_analyze env s = Return s' → errors_of s' = [] →
  errors_of s = [] ∧ run_id_of s' = run_id_of s.
Proof.
  intros Hn He. split; [|by eapply keeps_run_id_return; [apply domain_analyze_keeps|]].
  revert Hn He. unfold DomainAnalyzer.node_analyze.
  destruct (get_llm_instance env); [|done].
  destruct (negb (questionnaire_truthy (questionnaire s))).
  - destruct (errors s) as [errs|]; [|done].
    intros [= <-]. unfold errors_of. cbn. by destruct errs.
  - destruct (DomainAnalyzer.structured_reply env _).
    + destruct (validate_python env _).
      * by intros [= <-].
      * intros [= <-] H. by apply record_error_nonempty in H.
    + intros [= <-] H. by apply record_error_nonempty in H.
Qed.

Lemma domain_validate_clean s s' :
  DomainAnalyzer.node_validate s = Return s' → errors_of s' = [] →
  errors_of s = []
  ∧ ∃ q dm,
      questionnaire s = Some q ∧ q_metadata q = Some dm
      ∧ metadata s' =
          Some (if Py.truthy (run_id_of s) && negb (Py.truthy (dm !! "run_id"))
                then <["run_id" := default EmptyString (run_id_of s)]> dm
                else dm).
Proof.
  unfold DomainAnalyzer.node_validate, run_id_of.
  destruct (negb (questionnaire_truthy (questionnaire s))) eqn:Et.
  { intros [= <-] H. by apply record_error_nonempty in H. }
  destruct (questionnaire s) as [q|] eqn:Eq; [|done]. cbn.
  destruct (q_metadata q) as [dm|] eqn:Edm.
  2: { intros [= <-] H. by apply record_error_nonempty in H. }
  destruct (q_responses q).
  2: { intros [= <-] H. by apply record_error_nonempty in H. }
  intros Hn He.
  assert (errors_of s' = errors_of s ∧
          metadata s' =
            Some (if Py.truthy (metadata_get s "run_id") && negb (Py.truthy (dm !! "run_id"))
                  then <["run_id" := default EmptyString (metadata_get s "run_id")]> dm
                  else dm)) as [He' Hm].
  { destruct (Py.truthy (metadata_get s "run_id") && negb (Py.truthy (dm !! "run_id")));
      by injection Hn as <-. }
  split; [by rewrite <- He'|]. exists q, dm. done.
Qed.

Lemma document_run_id_lookup q dm :
  q_metadata q = Some dm →
  document_run_id q =
    match dm !! "run_id" with
    | Some (String c r) => Some (String c r)
    | _ => None
    end.
Proof. intros H. unfold document_run_id. by rewrite H. Qed.

Lemma domain_tail_clean env s1 q rid result :
  questionnaire s1 = Some q → run_id_of s1 = Some rid →
  rid = default rid (document_run_id q) →
  run_nodes [ DomainAnalyzer.node_validate; DomainAnalyzer.node_analyze env;
              DomainAnalyzer.node_save env ] s1 = Return result →
  errors_of result = [] →
  run_id_of result = Some rid ∧ Py.truthy (Some rid) = true.
Proof.
  intros Hq Hrid Hdoc Hrun Herr. cbn [run_nodes] in Hrun.
  destruct (DomainAnalyzer.node_validate s1) as [s2|] eqn:Ev; [|done].
  destruct (DomainAnalyzer.node_analyze env s2) as [s3|] eqn:Ea; [|done].
  destruct (DomainAnalyzer.node_save env s3) as [s4|] eqn:Es; [|done].
  injection Hrun as ->.
  destruct (domain_save_clean _ _ _ Es Herr) as [-> Htruthy].
  destruct (domain_analyze_clean _ _ _ Ea Herr) as [Herr2 Hkeep].
  destruct (domain_validate_clean _ _ Ev Herr2) as (_ & q' & dm & Hq' & Hdm & Hmeta).
  rewrite Hq in Hq'. injection Hq' as <-.
  rewrite Hkeep in *. clear Hkeep Ea Es Ev.
  assert (run_id_of s2 = Some rid) as Hs2.
  { unfold run_id_of, metadata_get in *. rewrite Hmeta in *. cbn in *.
    rewrite Hrid in *. cbn in *.
    rewrite (document_run_id_lookup q dm Hdm) in Hdoc.
    destruct (dm !! "run_id") as [[|c r]|] eqn:Edm; cbn in *.
    - destruct rid as [|c r]; cbn in *.
      + by rewrite Edm in Htruthy.
      + by rewrite lookup_insert_eq.
    - rewrite andb_false_r in *. by rewrite Edm, Hdoc.
    - destruct rid as [|c r]; cbn in *.
      + by rewrite Edm in Htruthy.
      + by rewrite lookup_insert_eq. }
  split; [done|]. by rewrite Hs2 in Htruthy.
Qed.

Lemma domain_tail_errors env s1 result :
  run_nodes [ DomainAnalyzer.node_validate; DomainAnalyzer.node_analyze env;
              DomainAnalyzer.node_save env ] s1 = Return result →
  errors_of result = [] → errors_of s1 = [].
Proof.
  intros Hrun Herr. cbn [run_nodes] in Hrun.
  destruct (DomainAnalyzer.node_validate s1) as [s2|] eqn:Ev; [|done].
  destruct (DomainAnalyzer.node_analyze env s2) as [s3|] eqn:Ea; [|done].
  destruct (DomainAnalyzer.node_save env s3) as [s4|] eqn:Es; [|done].
  injection Hrun as ->.
  destruct (domain_save_clean _ _ _ Es Herr) as [-> _].
  destruct (domain_analyze_clean _ _ _ Ea Herr) as [Herr2 _].
  by destruct (domain_validate_clean _ _ Ev Herr2) as [H1 _].
Qed.

Lemma domain_invoke_clean env f seed n result n' :
  DomainAnalyzer.invoke env f seed n = (Return result, n') → errors_of result = [] →
  ∃ q, open_json env f = FileOk q
       ∧ run_id_of result = Some (default (uuid4_hex env n) (document_run_id q))
       ∧ Py.truthy (run_id_of result) = true
       ∧ n' = match document_run_id q with Some _ => n | None => S n end.
Proof.
  unfold DomainAnalyzer.invoke, DomainAnalyzer.node_load.
  destruct (open_json env f) as [q| |msg|e] eqn:Eo.
  - intros Hrun Herr. exists q. split; [done|].
    assert (document_run_id q =
              match default ∅ (q_metadata q) !! "run_id" with
              | Some (String c r) => Some (String c r)
              | _ => None
              end) as Hdoc.
    { unfold document_run_id. destruct (q_metadata q); cbn; [done|].
      by rewrite lookup_empty. }
    rewrite Hdoc.
    destruct (default ∅ (q_metadata q) !! "run_id") as [[|c r]|] eqn:Edoc;
      cbn in Hrun; injection Hrun as Hrun <-;
      (eapply domain_tail_clean in Hrun as [Hres Ht];
       [ rewrite Hres; cbn; done
       | done
       | unfold run_id_of, metadata_get; cbn; by rewrite lookup_insert_eq
       | rewrite Hdoc; done
       | done ]).
  - cbn. intros Hrun Herr. injection Hrun as Hrun <-.
    apply domain_tail_errors in Hrun; [|done].
    by apply record_error_nonempty in Hrun.
  - cbn. intros Hrun Herr. injection Hrun as Hrun <-.
    apply domain_tail_errors in Hrun; [|done].
    by apply record_error_nonempty in Hrun.
  - done.
Qed.


(** ** Orchestrator *)

Lemma check_clean stage result store :
  errors_of result = [] → Orchestrator.check stage result store = inl (store result).
Proof. intros H. unfold Orchestrator.check. by rewrite H. Qed.

Lemma check_errors stage result store :
  errors_of result ≠ [] →
  Orchestrator.check stage result store
    = inr (Orchestrator.StageFailed stage (errors_of result)).
Proof. intros H. unfold Orchestrator.check. by destruct (errors_of result). Qed.

Lemma check_raised_iff w stage result store :
  step_raised (w, Orchestrator.check stage result store) ↔ errors_of result ≠ [].
Proof.
  unfold step_raised. cbn. split.
  - intros [f Hf] He. by rewrite check_clean in Hf.
  - intros He. rewrite check_errors by done. eauto.
Qed.

Lemma run_steps_abort (step : Orchestrator.Step) rest state w :
  step_raised (step state w) →
  Orchestrator.run_steps (step :: rest) state w = step state w.
Proof.
  intros [f Hf]. cbn [Orchestrator.run_steps].
  destruct (step state w) as [w' [s|f']]; cbn in *; done.
Qed.



(** ** The run identifier through a run *)

Lemma domain_invoke_minted env f seed n :
  (DomainAnalyzer.invoke env f seed n).2 = n
  ∨ (DomainAnalyzer.invoke env f seed n).2 = S n.
Proof.
  unfold DomainAnalyzer.invoke, DomainAnalyzer.node_load.
  destruct (open_json env f); cbn; auto.
  destruct (default ∅ (q_metadata q) !! "run_id") as [[|c r]|]; cbn; auto.
Qed.

Lemma domain_step_minted env state w :
  Orchestrator.minted (Orchestrator.domain_step env state w).1 = Orchestrator.minted w
  ∨ Orchestrator.minted (Orchestrator.domain_step env state w).1
    = S (Orchestrator.minted w).
Proof.
  unfold Orchestrator.domain_step.
  destruct (Orchestrator.domain_state state) as [seed|]; [|by left].
  cbn [Orchestrator.minted Orchestrator.logged].
  pose proof (domain_invoke_minted env (Orchestrator.input_file state) seed
                (Orchestrator.minted w)) as H.
  destruct (DomainAnalyzer.invoke env _ seed _) as [[result|e s] n]; exact H.
Qed.

Lemma causality_step_minted env state w :
  Orchestrator.minted (Orchestrator.causality_step env state w).1 = Orchestrator.minted w.
Proof.
  unfold Orchestrator.causality_step.
  destruct (Orchestrator.domain_state state); [|done].
  by destruct (CausalityAnalyzer.invoke env _).
Qed.

Lemma heuristic_step_minted env state w :
  Orchestrator.minted (Orchestrator.heuristic_step env state w).1 = Orchestrator.minted w.
Proof.
  unfold Orchestrator.heuristic_step.
  destruct (Orchestrator.causality_state state); [|done].
  by destruct (HeuristicAnalyzer.invoke env _).
Qed.

Lemma report_step_minted env state w :
  Orchestrator.minted (Orchestrator.report_step env state w).1 = Orchestrator.minted w.
Proof.
  unfold Orchestrator.report_step.
  destruct (Orchestrator.heuristic_state state); [|done].
  destruct (Orchestrator.causality_state state); [|done].
  by destruct (ReportGenerator.invoke env _).
Qed.

Lemma run_steps_minted env state w :
  Orchestrator.minted
    (Orchestrator.run_steps (Orchestrator.build_orchestrator_graph env) state w).1
    = Orchestrator.minted (Orchestrator.domain_step env state w).1.
Proof.
  unfold Orchestrator.build_orchestrator_graph. cbn [Orchestrator.run_steps].
  destruct (Orchestrator.domain_step env state w) as [w1 [s1|f]]; [|done].
  pose proof (causality_step_minted env s1 w1) as H2.
  destruct (Orchestrator.causality_step env s1 w1) as [w2 [s2|f]]; [|done].
  pose proof (heuristic_step_minted env s2 w2) as H3.
  destruct (Orchestrator.heuristic_step env s2 w2) as [w3 [s3|f]]; [|cbn in *; congruence].
  pose proof (report_step_minted env s3 w3) as H4.
  destruct (Orchestrator.report_step env s3 w3) as [w4 [s4|f]]; cbn in *; congruence.
Qed.

Lemma check_inl stage result store s :
  Orchestrator.check stage result store = inl s →
  errors_of result = [] ∧ s = store result.
Proof.
  unfold Orchestrator.check. destruct (errors_of result); [|done].
  by intros [= <-].
Qed.

Lemma run_steps_complete env state w w' final :
  Orchestrator.run_steps (Orchestrator.build_orchestrator_graph env) state w
    = (w', inl final) →
  ∃ seed d c h r,
    Orchestrator.domain_state state = Some seed
    ∧ DomainAnalyzer.invoke env (Orchestrator.input_file state) seed (Orchestrator.minted w)
      = (Return d, Orchestrator.minted w')
    ∧ errors_of d = []
    ∧ CausalityAnalyzer.invoke env (Orchestrator.causality_seed d) = Return c
    ∧ HeuristicAnalyzer.invoke env (Orchestrator.heuristic_seed c) = Return h
    ∧ ReportGenerator.invoke env (Orchestrator.report_seed h c) = Return r
    ∧ Orchestrator.domain_state final = Some d
    ∧ Orchestrator.causality_state final = Some c
    ∧ Orchestrator.heuristic_state final = Some h
    ∧ Orchestrator.report_state final = Some r.
Proof.
  unfold Orchestrator.build_orchestrator_graph. cbn [Orchestrator.run_steps].
  (* domain *)
  unfold Orchestrator.domain_step at 1.
  destruct (Orchestrator.domain_state state) as [seed|] eqn:Eseed; [|done].
  cbn [Orchestrator.minted Orchestrator.logged].
  destruct (DomainAnalyzer.invoke env _ seed _) as [[d|e sd] n] eqn:Ed; [|done].
  destruct (Orchestrator.check "Domain analysis" d _) as [s1|f] eqn:E1; [|done].
  apply check_inl in E1 as [Hd ->].
  (* causality *)
  unfold Orchestrator.causality_step at 1. cbn [Orchestrator.domain_state].
  destruct (CausalityAnalyzer.invoke env _) as [c|e sc] eqn:Ec; [|done].
  destruct (Orchestrator.check "Causality analysis" c _) as [s2|f] eqn:E2; [|done].
  apply check_inl in E2 as [_ ->].
  (* heuristic *)
  unfold Orchestrator.heuristic_step at 1. cbn [Orchestrator.causality_state].
  destruct (HeuristicAnalyzer.invoke env _) as [h|e sh] eqn:Eh; [|done].
  destruct (Orchestrator.check "Heuristic analysis" h _) as [s3|f] eqn:E3; [|done].
  apply check_inl in E3 as [_ ->].
  (* report *)
  unfold Orchestrator.report_step at 1.
  cbn [Orchestrator.causality_state Orchestrator.heuristic_state].
  destruct (ReportGenerator.invoke env _) as [r|e sr] eqn:Er; [|done].
  destruct (Orchestrator.check "Report generation" r _) as [s4|f] eqn:E4; [|done].
  apply check_inl in E4 as [_ ->].
  intros [= <- <-]. cbn.
  exists seed, d, c, h, r. done.
Qed.

(** C9: in a run of the orchestrator the identifier generator is called at
    most once, and only by the first step; when the run completes, it was
    called exactly when the input document carries no run identifier, the
    identifier of the run is the document's or else the minted one, and the
    metadata of the final state of each of the four stages carries that same
    identifier; no node that runs after the validate node of the first stage
    changes it. *)
Theorem run_id_minted_once_and_kept
    (env : Env) (input_file : string) (w : Orchestrator.World) :
  let out := Orchestrator.run_orchestrator env input_file w in
  (Orchestrator.minted out.1 = Orchestrator.minted w
   ∨ Orchestrator.minted out.1 = S (Orchestrator.minted w))
  ∧ (∀ final, out.2 = inl final →
       ∃ q rid d c h r,
         open_json env input_file = FileOk q
         ∧ rid = default (uuid4_hex env (Orchestrator.minted w)) (document_run_id q)
         ∧ Py.truthy (Some rid) = true
         ∧ Orchestrator.minted out.1
           = match document_run_id q with
             | Some _ => Orchestrator.minted w
             | None => S (Orchestrator.minted w)
             end
         ∧ Orchestrator.domain_state final = Some d
         ∧ Orchestrator.causality_state final = Some c
         ∧ Orchestrator.heuristic_state final = Some h
         ∧ Orchestrator.report_state final = Some r
         ∧ run_id_of d = Some rid
         ∧ run_id_of c = Some rid
         ∧ run_id_of h = Some rid
         ∧ run_id_of r = Some rid)
  ∧ (∀ node, node ∈ later_nodes env → keeps_run_id node)
  ∧ (∀ state w',
       Orchestrator.minted (Orchestrator.causality_step env state w').1
         = Orchestrator.minted w'
       ∧ Orchestrator.minted (Orchestrator.heuristic_step env state w').1
         = Orchestrator.minted w'
       ∧ Orchestrator.minted (Orchestrator.report_step env state w').1
         = Orchestrator.minted w').
Proof.
  cbn zeta. split; [|split; [|split]].
  - unfold Orchestrator.run_orchestrator.
    destruct (exists_file env input_file); [|by left].
    pose proof (run_steps_minted env (Orchestrator.initial_state input_file) w) as Hm.
    pose proof (domain_step_minted env (Orchestrator.initial_state input_file) w) as Hd.
    destruct (Orchestrator.run_steps _ _ w) as [w' [final|f]]; cbn in *;
      rewrite Hm; exact Hd.
  - intros final. unfold Orchestrator.run_orchestrator.
    destruct (exists_file env input_file); [|done].
    destruct (Orchestrator.run_steps _ _ w) as [w' [final'|f]] eqn:Erun; [|done].
    cbn. intros [= ->].
    apply run_steps_complete in Erun
      as (seed & d & c & h & r & Hseed & Hd & Herr & Hc & Hh & Hr & Fd & Fc & Fh & Fr).
    cbn [Orchestrator.input_file Orchestrator.initial_state] in Hd.
    destruct (domain_invoke_clean _ _ _ _ _ _ Hd Herr) as (q & Hq & Hrid & Ht & Hn).
    assert (run_id_of c = run_id_of d) as Kc.
    { rewrite (keeps_run_id_return _ _ _
                    (run_nodes_keeps_run_id _ (causality_nodes_keep env)) Hc).
      unfold run_id_of, metadata_get. cbn.
      destruct (metadata d) eqn:E; cbn; by rewrite ?lookup_empty. }
    assert (run_id_of h = run_id_of c) as Kh.
    { rewrite (keeps_run_id_return _ _ _
                    (run_nodes_keeps_run_id _ (heuristic_nodes_keep env)) Hh).
      unfold run_id_of, metadata_get. cbn.
      destruct (metadata c) eqn:E; cbn; by rewrite ?lookup_empty. }
    assert (run_id_of r = run_id_of h) as Kr.
    { rewrite (keeps_run_id_return _ _ _
                    (run_nodes_keeps_run_id _ (report_nodes_keep env)) Hr).
      unfold run_id_of, metadata_get. cbn.
      destruct (metadata h) eqn:E; cbn; by rewrite ?lookup_empty. }
    exists q, (default (uuid4_hex env (Orchestrator.minted w)) (document_run_id q)),
      d, c, h, r.
    rewrite Kr, Kh, Kc, Hrid. rewrite Hrid in Ht.
    repeat split; try done.
  - intros node Hnode. eapply Forall_forall in Hnode; [exact Hnode|].
    apply later_nodes_keep.
  - intros state w'. split; [apply causality_step_minted|].
    split; [apply heuristic_step_minted | apply report_step_minted].
Qed.

Lemma run_id_minted_once_and_kept_witness :
  ∃ final d r,
    (Orchestrator.run_orchestrator happy_env "answers.json" start_world).2 = inl final
    ∧ Orchestrator.domain_state final = Some d
    ∧ Orchestrator.report_state final = Some r
    ∧ run_id_of d = Some "id0"
    ∧ run_id_of r = Some "id0".
Proof.
  destruct (run_id_minted_once_and_kept happy_env "answers.json" start_world)
    as (_ & Hrun & _ & _).
  destruct (Orchestrator.run_orchestrator happy_env "answers.json" start_world)
    as [w' [final|f]] eqn:E; [|vm_compute in E; discriminate E].
  destruct (Hrun final eq_refl)
    as (q & rid & d & c & h & r & Hq & Hrid & _ & _ & Fd & _ & _ & Fr & Rd & _ & _ & Rr).
  exists final, d, r. split; [reflexivity|]. split; [exact Fd|]. split; [exact Fr|].
  assert (rid = "id0") as ->.
  { rewrite Hrid. vm_compute in Hq. injection Hq as <-. reflexivity. }
  split; [exact Rd | exact Rr].
Defined.

(** ** Keys, escaping and the taxonomy facts of the extraction *)

Lemma split_nonempty sep s : Py.split sep s <> [].
Proof.
  induction s as [|c s IH]; cbn; [done|].
  destruct (Ascii.eqb c sep); [done|]. by destruct (Py.split sep s).
Qed.

Lemma split_join sep s :
  DomainAnalyzer.join (String sep EmptyString) (Py.split sep s) = s.
Proof.
  induction s as [|c s IH]; cbn; [done|].
  destruct (Ascii.eqb c sep) eqn:E.
  - apply Ascii.eqb_eq in E as ->.
    pose proof (split_nonempty sep s) as Hne.
    destruct (Py.split sep s) as [|p ps] eqn:Hs; [done|].
    cbn. cbn in IH. by rewrite IH.
  - destruct (Py.split sep s) as [|p ps] eqn:Hs.
    + by destruct (split_nonempty sep s).
    + cbn in *. destruct ps; cbn in *; by rewrite <- IH.
Qed.

Lemma split_parts_free sep s :
  Forall (fun p => has_char sep p = false) (Py.split sep s).
Proof.
  induction s as [|c s IH]; cbn.
  - by repeat constructor.
  - destruct (Ascii.eqb c sep) eqn:E.
    + constructor; [done|exact IH].
    + destruct (Py.split sep s) as [|p ps].
      * repeat constructor. cbn. by rewrite E.
      * inversion IH; subst. constructor; [|done]. cbn. by rewrite E.
Qed.

Lemma append_empty_l s : EmptyString +:+ s = s.
Proof. reflexivity. Qed.

Lemma append_String c a b : String c a +:+ b = String c (a +:+ b).
Proof. reflexivity. Qed.

Lemma split_app_sep sep d rest :
  has_char sep d = false ->
  Py.split sep (d +:+ String sep rest) = d :: Py.split sep rest.
Proof.
  induction d as [|c d IH]; intros H.
  - rewrite append_empty_l. cbn. by rewrite Ascii.eqb_refl.
  - cbn in H. apply orb_false_iff in H as [Hc Hd].
    rewrite append_String. cbn. by rewrite Hc, (IH Hd).
Qed.

Lemma split_free sep s : has_char sep s = false -> Py.split sep s = [s].
Proof.
  induction s as [|c s IH]; cbn; [done|]. intros H.
  apply orb_false_iff in H as [Hc Hd]. by rewrite Hc, (IH Hd).
Qed.

Lemma escape_cons c s :
  _escape_prolog_string (String c s) =
  if Ascii.eqb c "\" then String "\" (String "\" (_escape_prolog_string s))
  else if Ascii.eqb c "'" then String "\" (String "'" (_escape_prolog_string s))
  else String c (_escape_prolog_string s).
Proof.
  unfold _escape_prolog_string. cbn.
  destruct (Ascii.eqb c "\") eqn:E1.
  - reflexivity.
  - cbn. destruct (Ascii.eqb c "'") eqn:E2; reflexivity.
Qed.

Lemma escape_quote_safe s : quote_safe (_escape_prolog_string s) = true.
Proof.
  induction s as [|c s IH]; [done|].
  rewrite escape_cons.
  destruct (Ascii.eqb c "\") eqn:E1; [exact IH|].
  destruct (Ascii.eqb c "'") eqn:E2; [exact IH|].
  cbn. by rewrite E1, E2.
Qed.

Lemma unescape_escape s : unescape (_escape_prolog_string s) = s.
Proof.
  induction s as [|c s IH]; [done|].
  rewrite escape_cons.
  destruct (Ascii.eqb c "\") eqn:E1.
  - apply Ascii.eqb_eq in E1 as ->. cbn. by rewrite IH.
  - destruct (Ascii.eqb c "'") eqn:E2.
    + apply Ascii.eqb_eq in E2 as ->. cbn. by rewrite IH.
    + cbn. by rewrite E1, IH.
Qed.

Lemma domain_ids_app fs gs : domain_ids (fs ++ gs) = domain_ids fs ++ domain_ids gs.
Proof. apply omap_app. Qed.

Lemma subdomain_ids_app fs gs :
  subdomain_ids (fs ++ gs) = subdomain_ids fs ++ subdomain_ids gs.
Proof. apply omap_app. Qed.

Lemma entry_risk_facts_keyed d s rs :
  Forall (fun f => fact_key f = Some (d, s)) (entry_risk_facts d s rs).
Proof.
  unfold entry_risk_facts. generalize 1%nat.
  induction rs as [|r rs IH]; intros n; cbn [Py.enumerate flat_map]; [constructor|].
  apply Forall_app_2; [|apply IH].
  destruct (risk_facts_shape d s n r) as (t & sev & e & i & tm & ->).
  by repeat constructor.
Qed.

Lemma keyed_no_taxonomy fs :
  Forall (fun f => is_Some (fact_key f)) fs →
  domain_ids fs = [] ∧ subdomain_ids fs = [] ∧ Forall canonical fs.
Proof.
  induction 1 as [|f fs [k Hk] _ (IH1 & IH2 & IH3)]; [by repeat split|].
  destruct f; try done; cbn; repeat split; try done; by constructor.
Qed.

Lemma domain_fact_present d fs :
  Forall canonical fs → d ∈ domain_ids fs → domain_fact_of d ∈ fs.
Proof.
  intros Hc Hd. apply list_elem_of_omap in Hd as (f & Hf & Hd).
  rewrite Forall_forall in Hc. specialize (Hc f Hf).
  destruct f; try done. injection Hd as ->. cbn in Hc. by rewrite <- Hc.
Qed.

Lemma subdomain_fact_present d s fs :
  Forall canonical fs → (d, s) ∈ subdomain_ids fs → subdomain_fact_of d s ∈ fs.
Proof.
  intros Hc Hd. apply list_elem_of_omap in Hd as (f & Hf & Hd).
  rewrite Forall_forall in Hc. specialize (Hc f Hf).
  destruct f; try done. injection Hd as -> ->. cbn in Hc. by rewrite <- Hc.
Qed.

(** Appending facts: a position of the longer list lies in the old part or
    in the new one. *)
Lemma taxonomy_first_app fs new :
  taxonomy_first fs →
  (∀ b f a d s, new = b ++ f :: a → fact_key f = Some (d, s) →
     domain_fact_of d ∈ fs ++ b ∧ subdomain_fact_of d s ∈ fs ++ b) →
  taxonomy_first (fs ++ new).
Proof.
  intros Hfs Hnew before f after d s Heq Hk.
  apply app_eq_app in Heq as [l [[-> Hl]|[-> Hl]]].
  - destruct l as [|f' l].
    + cbn in Hl. subst new.
      specialize (Hnew [] f after d s eq_refl Hk).
      by rewrite !app_nil_r in Hnew.
    + cbn in Hl. injection Hl as <- ->.
      by apply (Hfs before f l).
  - by apply (Hnew l f after).
Qed.

Lemma tidy_start : tidy extraction_start.
Proof.
  split; cbn.
  - intros d. set_solver.
  - intros k. split; [set_solver|]. intros (d & s & H & _). by apply elem_of_nil in H.
  - constructor.
  - constructor.
  - constructor.
  - intros [|??] ?????; done.
Qed.

Lemma tidy_see_domain d x : tidy x → tidy (see_domain d x).
Proof.
  intros [H1 H2 H3 H4 H5 H6]. unfold see_domain. case_decide as Hd; [by split|].
  split; cbn [facts domains_seen subdomains_seen].
  - intros d'. rewrite domain_ids_app. cbn. rewrite elem_of_app, elem_of_union, H1.
    rewrite list_elem_of_singleton, elem_of_singleton. tauto.
  - intros k. rewrite subdomain_ids_app. cbn. rewrite app_nil_r. apply H2.
  - rewrite domain_ids_app. cbn. apply NoDup_app. repeat split; [done| |apply NoDup_singleton].
    intros d' Hin ->%list_elem_of_singleton. by apply Hd, H1.
  - rewrite subdomain_ids_app. cbn. by rewrite app_nil_r.
  - apply Forall_app_2; [done|]. by repeat constructor.
  - apply taxonomy_first_app; [done|].
    intros [|f0 [|f1 b]] f a d' s' Heq Hk; try done. by injection Heq as <- <-.
Qed.

Lemma tidy_see_subdomain k d s x :
  Py.split "." k = [d; s] → tidy x → tidy (see_subdomain d s x).
Proof.
  intros Hk [H1 H2 H3 H4 H5 H6].
  assert (d +:+ "." +:+ s = k) as Hkey.
  { rewrite <- (split_join "." k), Hk. done. }
  unfold see_subdomain. rewrite Hkey. case_decide as Hd; [by split|].
  split; cbn [facts domains_seen subdomains_seen].
  - intros d'. rewrite domain_ids_app. cbn. rewrite app_nil_r. apply H1.
  - intros k'. rewrite subdomain_ids_app. cbn. rewrite elem_of_union, elem_of_singleton, H2.
    split.
    + intros [->|(d' & s' & Hin & Hs)].
      * exists d, s. split; [|done]. apply elem_of_app. right. by constructor.
      * exists d', s'. split; [|done]. apply elem_of_app. by left.
    + intros (d' & s' & [Hin|Hin%list_elem_of_singleton]%elem_of_app & Hs).
      * right. eauto.
      * left. injection Hin as -> ->.
        rewrite <- (split_join "." k'), Hs, <- Hkey. done.
  - rewrite domain_ids_app. cbn. by rewrite app_nil_r.
  - rewrite subdomain_ids_app. cbn. apply NoDup_app. repeat split; [done| |apply NoDup_singleton].
    intros p Hin ->%list_elem_of_singleton. apply Hd, H2. eauto.
  - apply Forall_app_2; [done|]. by repeat constructor.
  - apply taxonomy_first_app; [done|].
    intros [|f0 [|f1 b]] f a d' s' Heq Hk'; try done. by injection Heq as <- <-.
Qed.

Lemma see_domain_seen d x : d ∈ domains_seen (see_domain d x).
Proof. unfold see_domain. case_decide; [done|]. cbn. set_solver. Qed.

Lemma see_subdomain_seen d s x :
  d +:+ "." +:+ s ∈ subdomains_seen (see_subdomain d s x).
Proof. unfold see_subdomain. case_decide; [done|]. cbn. set_solver. Qed.

Lemma see_subdomain_domains d s x :
  domains_seen (see_subdomain d s x) = domains_seen x.
Proof. unfold see_subdomain. by case_decide. Qed.

Lemma tidy_extract_entry x item : tidy x → tidy (extract_entry x item).
Proof.
  intros Hx. destruct item as [k c]. unfold extract_entry.
  destruct (Py.split "." k) as [|d [|s [|? ?]]] eqn:Hk; try done.
  pose proof (tidy_see_subdomain k d s _ Hk (tidy_see_domain d x Hx)) as Hx2.
  assert (d +:+ "." +:+ s = k) as Hkey.
  { rewrite <- (split_join "." k), Hk. done. }
  set (x2 := see_subdomain d s (see_domain d x)) in *.
  set (new := entry_risk_facts d s (default [] (risks c))).
  pose proof (entry_risk_facts_keyed d s (default [] (risks c))) as Hkeyed.
  fold new in Hkeyed.
  destruct (keyed_no_taxonomy new) as (Hn1 & Hn2 & Hn3).
  { eapply Forall_impl; [exact Hkeyed|]. by intros f ->. }
  destruct Hx2 as [H1 H2 H3 H4 H5 H6].
  split; cbn [facts domains_seen subdomains_seen].
  - intros d'. rewrite domain_ids_app, Hn1, app_nil_r. apply H1.
  - intros k'. rewrite subdomain_ids_app, Hn2, app_nil_r. apply H2.
  - by rewrite domain_ids_app, Hn1, app_nil_r.
  - by rewrite subdomain_ids_app, Hn2, app_nil_r.
  - by apply Forall_app_2.
  - apply taxonomy_first_app; [done|].
    intros b f a d' s' Heq Hf.
    assert (fact_key f = Some (d, s)) as Hf'.
    { rewrite Forall_forall in Hkeyed. apply Hkeyed. rewrite Heq.
      apply elem_of_app. right. by left. }
    rewrite Hf in Hf'. injection Hf' as -> ->.
    split; apply elem_of_app; left.
    + apply domain_fact_present; [done|]. apply H1.
      unfold x2. rewrite see_subdomain_domains. apply see_domain_seen.
    + apply subdomain_fact_present; [done|].
      pose proof (see_subdomain_seen d s (see_domain d x)) as Hs.
      fold x2 in Hs. apply H2 in Hs as (d' & s' & Hin & Hsp).
      rewrite Hkey, Hk in Hsp. by injection Hsp as <- <-.
Qed.

Lemma tidy_extract analysis : tidy (extract analysis).
Proof.
  unfold extract. generalize tidy_start. generalize extraction_start.
  induction analysis as [|item l IH]; intros x Hx; cbn [fold_left]; [done|].
  apply IH. by apply tidy_extract_entry.
Qed.

Lemma extract_entry_ids x k c d s :
  Py.split "." k = [d; s] →
  domain_ids (facts (extract_entry x (k, c))) =
    domain_ids (facts x) ++ (if decide (d ∈ domains_seen x) then [] else [d])
  ∧ subdomain_ids (facts (extract_entry x (k, c))) =
    subdomain_ids (facts x) ++ (if decide (k ∈ subdomains_seen x) then [] else [(d, s)]).
Proof.
  intros Hk.
  assert (d +:+ "." +:+ s = k) as Hkey.
  { rewrite <- (split_join "." k), Hk. done. }
  destruct (keyed_no_taxonomy (entry_risk_facts d s (default [] (risks c))))
    as (Hn1 & Hn2 & _).
  { eapply Forall_impl; [apply entry_risk_facts_keyed|]. by intros f ->. }
  unfold extract_entry. rewrite Hk. cbn [facts].
  rewrite domain_ids_app, subdomain_ids_app, Hn1, Hn2, !app_nil_r.
  unfold see_subdomain. rewrite Hkey.
  assert (subdomains_seen (see_domain d x) = subdomains_seen x) as ->.
  { unfold see_domain. by case_decide. }
  unfold see_domain.
  destruct (decide (k ∈ subdomains_seen x)), (decide (d ∈ domains_seen x));
    cbn [facts]; rewrite ?domain_ids_app, ?subdomain_ids_app; cbn;
    by rewrite ?app_nil_r.
Qed.

Lemma fold_extract_ids l x :
  tidy x →
  (∀ d, d ∈ domain_ids (facts (fold_left extract_entry l x)) ↔
        d ∈ domain_ids (facts x) ∨ ∃ k s, k ∈ l.*1 ∧ Py.split "." k = [d; s])
  ∧ (∀ d s, (d, s) ∈ subdomain_ids (facts (fold_left extract_entry l x)) ↔
        (d, s) ∈ subdomain_ids (facts x) ∨ ∃ k, k ∈ l.*1 ∧ Py.split "." k = [d; s]).
Proof.
  revert x. induction l as [|[k c] l IH]; intros x Hx; cbn [fold_left].
  - split; intros; (split; [by left|]).
    + intros [|(k & s & Hin & _)]; [done|]. by apply elem_of_nil in Hin.
    + intros [|(k & Hin & _)]; [done|]. by apply elem_of_nil in Hin.
  - destruct (IH _ (tidy_extract_entry x (k, c) Hx)) as [IHd IHs].
    assert (∀ d, d ∈ domain_ids (facts (extract_entry x (k, c))) ↔
                 d ∈ domain_ids (facts x) ∨ ∃ s, Py.split "." k = [d; s]) as Hd.
    { intros d.
      destruct (Py.split "." k) as [|d0 [|s0 [|? ?]]] eqn:Hk;
        try (unfold extract_entry; rewrite Hk; split; [by left|];
             by intros [|[? ?]]).
      destruct (extract_entry_ids x k c d0 s0 Hk) as [-> _].
      rewrite elem_of_app. case_decide as Hseen.
      - split; [intros [?|Hnil]; [by left|by apply elem_of_nil in Hnil]|].
        intros [|[s Hs]]; [by left|]. left. injection Hs as <- <-.
        by apply (tidy_domains x Hx).
      - rewrite list_elem_of_singleton. split.
        + intros [?| ->]; [by left|]. right. eauto.
        + intros [|[s Hs]]; [by left|]. right. by injection Hs as <- <-. }
    assert (∀ d s, (d, s) ∈ subdomain_ids (facts (extract_entry x (k, c))) ↔
                   (d, s) ∈ subdomain_ids (facts x) ∨ Py.split "." k = [d; s]) as Hs.
    { intros d s.
      destruct (Py.split "." k) as [|d0 [|s0 [|? ?]]] eqn:Hk;
        try (unfold extract_entry; rewrite Hk; split; [by left|];
             by intros [|?]).
      destruct (extract_entry_ids x k c d0 s0 Hk) as [_ ->].
      rewrite elem_of_app. case_decide as Hseen.
      - split; [intros [?|Hnil]; [by left|by apply elem_of_nil in Hnil]|].
        intros [|Heq]; [by left|]. left. injection Heq as <- <-.
        apply (tidy_subdomains x Hx) in Hseen as (d' & s' & Hin & Hsp).
        rewrite Hk in Hsp. by injection Hsp as <- <-.
      - rewrite list_elem_of_singleton. split.
        + intros [|Heq]; [by left|]. right. by injection Heq as -> ->.
        + intros [|Heq]; [by left|]. right. by injection Heq as <- <-. }
    split.
    + intros d. rewrite IHd, Hd. cbn. split.
      * intros [[|[s Hsp]]|(k' & s & Hin & Hsp)]; [by left| |].
        -- right. exists k, s. split; [by left|done].
        -- right. exists k', s. split; [by right|done].
      * intros [|(k' & s & Hin & Hsp)]; [by left; left|].
        apply elem_of_cons in Hin as [->|Hin]; [left; right; eauto|].
        right. eauto.
    + intros d s. rewrite IHs, Hs. cbn. split.
      * intros [[|Hsp]|(k' & Hin & Hsp)]; [by left| |].
        -- right. exists k. split; [by left|done].
        -- right. exists k'. split; [by right|done].
      * intros [|(k' & Hin & Hsp)]; [by left; left|].
        apply elem_of_cons in Hin as [->|Hin]; [by left; right|].
        right. eauto.
Qed.

Lemma entry_risk_facts_Forall (P : Fact → Prop) d s rs :
  Forall (fun r => ∀ i, Forall P (risk_facts d s i r)) rs →
  Forall P (entry_risk_facts d s rs).
Proof.
  unfold entry_risk_facts. intros H. generalize 1%nat.
  induction H as [|r rs Hr _ IH]; intros n; cbn [Py.enumerate flat_map]; [constructor|].
  apply Forall_app_2; [apply Hr|apply IH].
Qed.

Lemma extract_facts_Forall (P : Fact → Prop) l x :
  (∀ d, P (domain_fact_of d)) → (∀ d s, P (subdomain_fact_of d s)) →
  Forall (fun kv => Forall (fun r => ∀ d s i, Forall P (risk_facts d s i r))
                           (risks_of kv.2)) l →
  Forall P (facts x) → Forall P (facts (fold_left extract_entry l x)).
Proof.
  intros Hd Hs Hl. revert x.
  induction Hl as [|[k c] l Hkv _ IH]; intros x Hx; cbn [fold_left]; [done|].
  apply IH. unfold extract_entry.
  destruct (Py.split "." k) as [|d [|s [|? ?]]]; try done. cbn [facts].
  apply Forall_app_2.
  - unfold see_subdomain. case_decide; unfold see_domain; case_decide; cbn [facts];
      repeat apply Forall_app_2; try done; repeat constructor;
      first [ apply Hd | apply Hs ].
  - apply entry_risk_facts_Forall. cbn in Hkv.
    eapply Forall_impl; [exact Hkv|]. by intros r Hr i.
Qed.

(** X1: the text that [_escape_prolog_string] gives holds no unescaped quote
    and no dangling backslash, so a quote of the original text cannot close
    the quoted atom it is written in; reading the escapes back gives the
    original text, so two different texts never escape to the same one. *)
Theorem escape_yields_one_quoted_atom (s : string) :
  quote_safe (_escape_prolog_string s) = true
  ∧ unescape (_escape_prolog_string s) = s.
Proof. split; [apply escape_quote_safe | apply unescape_escape]. Qed.

(** X2: a key of the inventory is processed (splits at the dots into exactly
    a domain and a subdomain) exactly when it is the two parts joined by one
    dot and neither part contains a dot; the subdomain key that the loop
    rebuilds as [f"{domain}.{subdomain}"] is then the key itself. *)
Theorem well_formed_key_rebuilds (k d s : string) :
  Py.split "." k = [d; s]
  ↔ k = d +:+ "." +:+ s ∧ has_char "." d = false ∧ has_char "." s = false.
Proof.
  split.
  - intros Hk. pose proof (split_parts_free "." k) as Hfree.
    rewrite Hk in Hfree. inversion Hfree as [|? ? Hd Hrest]; subst.
    inversion Hrest as [|? ? Hs _]; subst.
    split; [|done]. rewrite <- (split_join "." k), Hk. done.
  - intros (-> & Hd & Hs).
    change ("." +:+ s) with (String "." s).
    by rewrite split_app_sep, (split_free "." s).
Qed.

(** X3: in the fact list of any inventory, each risk fact and each causality
    fact comes after the domain fact of its domain and after the subdomain
    fact of its subdomain, both with the name that [_extract_domain_name]
    and [_extract_subdomain_name] give. *)
Theorem taxonomy_facts_precede_their_risks (analysis : Analysis)
    (before after : list Fact) (f : Fact) (d s : string) :
  facts (extract analysis) = before ++ f :: after →
  fact_key f = Some (d, s) →
  domain_fact_of d ∈ before ∧ subdomain_fact_of d s ∈ before.
Proof. apply (tidy_order _ (tidy_extract analysis)). Qed.

Lemma taxonomy_facts_precede_their_risks_witness :
  domain_fact_of "2" ∈ [ domain_fact_of "2"; subdomain_fact_of "2" "1" ]
  ∧ subdomain_fact_of "2" "1" ∈ [ domain_fact_of "2"; subdomain_fact_of "2" "1" ].
Proof.
  apply (taxonomy_facts_precede_their_risks sample_inventory
           [ domain_fact_of "2"; subdomain_fact_of "2" "1" ]
           (skipn 3 (facts (extract sample_inventory)))
           (RiskFact "2" "1" 1 "risk" "high") "2" "1"); reflexivity.
Defined.

(** X4: whatever the inventory, the domains that receive a domain fact are
    exactly the domain parts of the keys that split into two parts, and no
    domain receives two. *)
Theorem domain_facts_cover_each_domain_once (analysis : Analysis) :
  NoDup (domain_ids (facts (extract analysis)))
  ∧ ∀ d, d ∈ domain_ids (facts (extract analysis))
         ↔ ∃ k s, k ∈ analysis.*1 ∧ Py.split "." k = [d; s].
Proof.
  split; [apply (tidy_domains_once _ (tidy_extract analysis))|].
  intros d. unfold extract.
  rewrite (proj1 (fold_extract_ids analysis extraction_start tidy_start) d).
  split; [intros [Hnil|]; [by apply elem_of_nil in Hnil|done] | by right].
Qed.

(** X5: whatever the inventory, the (domain, subdomain) pairs that receive a
    subdomain fact are exactly the keys that split into two parts, and no
    pair receives two. *)
Theorem subdomain_facts_cover_each_key_once (analysis : Analysis) :
  NoDup (subdomain_ids (facts (extract analysis)))
  ∧ ∀ d s, (d, s) ∈ subdomain_ids (facts (extract analysis))
           ↔ ∃ k, k ∈ analysis.*1 ∧ Py.split "." k = [d; s].
Proof.
  split; [apply (tidy_subdomains_once _ (tidy_extract analysis))|].
  intros d s. unfold extract.
  rewrite (proj2 (fold_extract_ids analysis extraction_start tidy_start) d s).
  split; [intros [Hnil|]; [by apply elem_of_nil in Hnil|done] | by right].
Qed.

(** X6: in the fact list of any inventory, every text that the facts write
    between quotes after escaping it (the title of a risk fact, the name of a
    domain fact and of a subdomain fact) contains no unescaped quote and no
    dangling backslash. *)
Theorem quoted_texts_of_facts_are_escaped (analysis : Analysis) :
  Forall (fun f => ∀ t, free_text f = Some t → quote_safe t = true)
         (facts (extract analysis)).
Proof.
  unfold extract. apply extract_facts_Forall.
  - intros d t [= <-]. apply escape_quote_safe.
  - intros d s t [= <-]. apply escape_quote_safe.
  - apply Forall_forall. intros kv _. apply Forall_forall. intros r _ d s i.
    unfold risk_facts. destruct (causality_values r) as [[e it] tm].
    repeat constructor; intros t [= <-]. apply escape_quote_safe.
  - constructor.
Qed.

(** ** Conversion of the causality stage *)

Lemma flat_to_nested_inv flat nested :
  CausalityAnalyzer._flat_to_nested_risk flat = Ok nested →
  ∃ t e s m ev er iv ir tv tr,
    title flat = Some t ∧ explanation flat = Some e ∧ severity flat = Some s
    ∧ mitigation flat = Some m ∧ entity flat = Some ev ∧ entity_rationale flat = Some er
    ∧ intent flat = Some iv ∧ intent_rationale flat = Some ir
    ∧ timing flat = Some tv ∧ timing_rationale flat = Some tr
    ∧ nested =
      {| title := Some t; explanation := Some e; severity := Some s;
         severity_rationale := Some (default EmptyString (severity_rationale flat));
         mitigation := Some m;
         causality :=
           Some {| c_entity := Some (EntityDict {| cvalue := Some ev; crationale := Some er |});
                   c_intent := Some {| cvalue := Some iv; crationale := Some ir |};
                   c_timing := Some {| cvalue := Some tv; crationale := Some tr |} |};
         entity := None; entity_rationale := None; intent := None;
         intent_rationale := None; timing := None; timing_rationale := None |}.
Proof.
  unfold CausalityAnalyzer._flat_to_nested_risk.
  destruct (title flat) as [t|]; [|done].
  destruct (explanation flat) as [e|]; [|done].
  destruct (severity flat) as [s|]; [|done].
  destruct (mitigation flat) as [m|]; [|done].
  destruct (entity flat) as [ev|]; [|done].
  destruct (entity_rationale flat) as [er|]; [|done].
  destruct (intent flat) as [iv|]; [|done].
  destruct (intent_rationale flat) as [ir|]; [|done].
  destruct (timing flat) as [tv|]; [|done].
  destruct (timing_rationale flat) as [tr|]; [|done].
  cbn. intros [= <-]. by eexists _, _, _, _, _, _, _, _, _, _.
Qed.

Lemma flat_to_nested_succeeded flat :
  succeeded (CausalityAnalyzer._flat_to_nested_risk flat) = complete_flat flat.
Proof.
  unfold CausalityAnalyzer._flat_to_nested_risk, complete_flat.
  destruct (title flat); [|done].
  destruct (explanation flat); [|done].
  destruct (severity flat); [|done].
  destruct (mitigation flat); [|done].
  destruct (entity flat); [|done].
  destruct (entity_rationale flat); [|done].
  destruct (intent flat); [|done].
  destruct (intent_rationale flat); [|done].
  destruct (timing flat); [|done].
  destruct (timing_rationale flat); done.
Qed.

Lemma convert_risks_succeeded rs :
  succeeded (CausalityAnalyzer.convert_risks rs) = forallb complete_flat rs.
Proof.
  induction rs as [|r rs IH]; [done|]. cbn.
  rewrite <- flat_to_nested_succeeded, <- IH.
  destruct (CausalityAnalyzer._flat_to_nested_risk r); [|done]. cbn.
  by destruct (CausalityAnalyzer.convert_risks rs).
Qed.

Lemma convert_risks_inv rs rs' :
  CausalityAnalyzer.convert_risks rs = Ok rs' →
  Forall2 (fun r r' => CausalityAnalyzer._flat_to_nested_risk r = Ok r') rs rs'.
Proof.
  revert rs'. induction rs as [|r rs IH]; intros rs'; cbn.
  - intros [= <-]. constructor.
  - destruct (CausalityAnalyzer._flat_to_nested_risk r) as [r'|] eqn:Hr; [|done]. cbn.
    destruct (CausalityAnalyzer.convert_risks rs) as [rest|]; [|done]. cbn.
    intros [= <-]. constructor; [done|]. by apply IH.
Qed.

Lemma convert_analysis_inv a n :
  CausalityAnalyzer._convert_analysis_to_nested a = Ok n →
  Forall2 (fun kv kv' =>
             kv'.1 = kv.1
             ∧ ∃ rs rs', risks kv.2 = Some rs ∧ risks kv'.2 = Some rs'
                         ∧ CausalityAnalyzer.convert_risks rs = Ok rs') a n.
Proof.
  revert n. induction a as [|[k v] a IH]; intros n; cbn.
  - intros [= <-]. constructor.
  - destruct (risks v) as [rs|] eqn:Hv; [|done].
    destruct (CausalityAnalyzer.convert_risks rs) as [rs'|] eqn:Hrs; [|done]. cbn.
    destruct (CausalityAnalyzer._convert_analysis_to_nested a) as [rest|]; [|done]. cbn.
    intros [= <-]. constructor; [|by apply IH]. cbn. eauto 10.
Qed.

Lemma nested_risk_is_nested flat nested :
  CausalityAnalyzer._flat_to_nested_risk flat = Ok nested → is_nested nested = true.
Proof.
  intros H. apply flat_to_nested_inv in H
    as (t & e & s & m & ev & er & iv & ir & tv & tr & _ & _ & _ & _ & _ & _ & _ & _ & _ & _ & ->).
  done.
Qed.

Lemma nested_risk_facts flat nested d s i :
  causality flat = None →
  CausalityAnalyzer._flat_to_nested_risk flat = Ok nested →
  risk_facts d s i nested = risk_facts d s i flat.
Proof.
  intros Hc H. apply flat_to_nested_inv in H
    as (t & e & sv & m & ev & er & iv & ir & tv & tr
        & Ht & _ & Hs & _ & He & _ & Hi & _ & Htm & _ & ->).
  unfold risk_facts, causality_values. cbn. by rewrite Hc, Ht, Hs, He, Hi, Htm.
Qed.

Lemma convert_analysis_succeeded a :
  succeeded (CausalityAnalyzer._convert_analysis_to_nested a) = forallb complete_entry a.
Proof.
  induction a as [|[k v] a IH]; [done|]. cbn. unfold complete_entry at 1. cbn.
  destruct (risks v) as [rs|]; [|done].
  rewrite <- convert_risks_succeeded, <- IH.
  destruct (CausalityAnalyzer.convert_risks rs); [|done]. cbn.
  by destruct (CausalityAnalyzer._convert_analysis_to_nested a).
Qed.

Lemma flat_to_nested_nests flat nested :
  CausalityAnalyzer._flat_to_nested_risk flat = Ok nested → nests flat nested.
Proof.
  intros H. apply flat_to_nested_inv in H
    as (t & e & sv & m & ev & er & iv & ir & tv & tr
        & Ht & He & Hs & Hm & Hev & _ & Hiv & _ & Htv & _ & ->).
  unfold nests, core. cbn. by rewrite Ht, He, Hs, Hm, Hev, Hiv, Htv.
Qed.

Lemma entry_risk_facts_ext d s rs rs' :
  Forall2 (fun r r' => ∀ i, risk_facts d s i r' = risk_facts d s i r) rs rs' →
  entry_risk_facts d s rs' = entry_risk_facts d s rs.
Proof.
  unfold entry_risk_facts. intros H. generalize 1%nat.
  induction H as [|r r' rs rs' Hr _ IH]; intros n; [done|].
  cbn [Py.enumerate flat_map]. by rewrite Hr, IH.
Qed.

Lemma fold_extract_ext a n x :
  Forall2 (fun kv kv' =>
             kv'.1 = kv.1
             ∧ ∀ d s, entry_risk_facts d s (risks_of kv'.2)
                      = entry_risk_facts d s (risks_of kv.2)) a n →
  fold_left extract_entry n x = fold_left extract_entry a x.
Proof.
  intros H. revert x.
  induction H as [|[k c] [k' c'] a n [Hk Hc] _ IH]; intros x; [done|].
  cbn [fold_left]. cbn in Hk, Hc. subst k'. rewrite IH. f_equal.
  unfold extract_entry. destruct (Py.split "." k) as [|d [|s [|? ?]]]; try done.
  unfold risks_of in Hc. by rewrite Hc.
Qed.

(** X7: when [_convert_analysis_to_nested] succeeds, the result has the keys
    of the flat inventory in the same order, each with a risk list of the
    same length, and the risk at each position keeps title, explanation,
    severity and mitigation and carries the flat entity, intent and timing as
    the values of its ["causality"] dictionary, with none of the flat
    keys left. *)
Theorem conversion_nests_each_risk_in_place (flat_analysis nested_analysis : Analysis) :
  CausalityAnalyzer._convert_analysis_to_nested flat_analysis = Ok nested_analysis →
  Forall2 (fun kv kv' => kv'.1 = kv.1
                         ∧ is_Some (risks kv'.2)
                         ∧ Forall2 nests (risks_of kv.2) (risks_of kv'.2))
          flat_analysis nested_analysis.
Proof.
  intros H. apply convert_analysis_inv in H.
  eapply Forall2_impl; [exact H|].
  intros [k v] [k' v'] (Hk & rs & rs' & Hv & Hv' & Hrs). cbn in *.
  split; [done|]. split; [by rewrite Hv'|].
  unfold risks_of. rewrite Hv, Hv'. cbn.
  apply convert_risks_inv in Hrs.
  eapply Forall2_impl; [exact Hrs|]. apply flat_to_nested_nests.
Qed.

Lemma conversion_nests_each_risk_in_place_witness :
  Forall2 (fun kv kv' => kv'.1 = kv.1
                         ∧ is_Some (risks kv'.2)
                         ∧ Forall2 nests (risks_of kv.2) (risks_of kv'.2))
          flat_inventory sample_inventory.
Proof.
  apply (conversion_nests_each_risk_in_place flat_inventory sample_inventory).
  reflexivity.
Defined.

Lemma convert_risks_facts d s rs rs' :
  Forall (fun r => causality r = None) rs →
  CausalityAnalyzer.convert_risks rs = Ok rs' →
  entry_risk_facts d s rs' = entry_risk_facts d s rs.
Proof.
  intros Hflat H. apply convert_risks_inv in H. apply entry_risk_facts_ext.
  induction H as [|r r' rs rs' Hr _ IH]; [constructor|].
  inversion Hflat; subst. constructor; [|by apply IH].
  intros i. by apply nested_risk_facts.
Qed.

(** X8: for an inventory of flat risks (none has a ["causality"] key), the
    fact extraction of the heuristic stage gives the same facts and the same
    sets of seen domains and subdomains on the converted inventory as on the
    flat one: both branches of the causality lookup read the same values. *)
Theorem conversion_is_invisible_to_extraction (flat_analysis nested_analysis : Analysis) :
  all_flat flat_analysis →
  CausalityAnalyzer._convert_analysis_to_nested flat_analysis = Ok nested_analysis →
  extract nested_analysis = extract flat_analysis.
Proof.
  intros Hflat H. apply convert_analysis_inv in H.
  unfold extract. apply fold_extract_ext.
  induction H as [|[k v] [k' v'] a n (Hk & rs & rs' & Hv & Hv' & Hrs) _ IH];
    [constructor|].
  inversion Hflat as [|? ? Hhead Htail]; subst. constructor; [|by apply IH].
  cbn in *. split; [done|]. intros d s.
  unfold risks_of in *. rewrite Hv, Hv' in *. cbn in *.
  by apply convert_risks_facts.
Qed.

Lemma conversion_is_invisible_to_extraction_witness :
  extract sample_inventory = extract flat_inventory.
Proof.
  apply (conversion_is_invisible_to_extraction flat_inventory sample_inventory).
  - repeat constructor.
  - reflexivity.
Defined.

Lemma flat_to_nested_failure flat e :
  CausalityAnalyzer._flat_to_nested_risk flat = Exn e → e ∈ missing_key_texts.
Proof.
  unfold CausalityAnalyzer._flat_to_nested_risk, missing_key_texts.
  destruct (title flat); cbn; [|intros [= <-]; set_solver].
  destruct (explanation flat); cbn; [|intros [= <-]; set_solver].
  destruct (severity flat); cbn; [|intros [= <-]; set_solver].
  destruct (mitigation flat); cbn; [|intros [= <-]; set_solver].
  destruct (entity flat); cbn; [|intros [= <-]; set_solver].
  destruct (entity_rationale flat); cbn; [|intros [= <-]; set_solver].
  destruct (intent flat); cbn; [|intros [= <-]; set_solver].
  destruct (intent_rationale flat); cbn; [|intros [= <-]; set_solver].
  destruct (timing flat); cbn; [|intros [= <-]; set_solver].
  destruct (timing_rationale flat); cbn; [done|intros [= <-]; set_solver].
Qed.

Lemma convert_risks_failure rs e :
  CausalityAnalyzer.convert_risks rs = Exn e → e ∈ missing_key_texts.
Proof.
  induction rs as [|r rs IH]; cbn; [done|].
  destruct (CausalityAnalyzer._flat_to_nested_risk r) eqn:Er; cbn.
  - destruct (CausalityAnalyzer.convert_risks rs); cbn; [done|].
    intros [= <-]. by apply IH.
  - intros [= <-]. by eapply flat_to_nested_failure.
Qed.

(** X9: [_convert_analysis_to_nested] succeeds exactly when every entry has
    a ["risks"] list and every risk has the ten keys that
    [_flat_to_nested_risk] reads with [flat[...]] ([severity_rationale] is
    read with [get] and may be missing); when it fails, the exception is the
    [KeyError] of one of these keys or of ["risks"]. *)
Theorem conversion_succeeds_iff_complete (analysis : Analysis) :
  succeeded (CausalityAnalyzer._convert_analysis_to_nested analysis)
  = forallb complete_entry analysis
  ∧ ∀ e, CausalityAnalyzer._convert_analysis_to_nested analysis = Exn e →
         e ∈ missing_key_texts.
Proof.
  split; [apply convert_analysis_succeeded|].
  induction analysis as [|[k v] a IH]; cbn; [done|]. intros e.
  destruct (risks v) as [rs|]; [|intros [= <-]; by left].
  destruct (CausalityAnalyzer.convert_risks rs) eqn:Ers; cbn.
  - destruct (CausalityAnalyzer._convert_analysis_to_nested a); cbn; [done|].
    intros [= <-]. by apply IH.
  - intros [= <-]. by eapply convert_risks_failure.
Qed.

(** X10: the shape check of the causality stage's [node_validate] accepts an
    inventory exactly when every entry has a ["risks"] list; otherwise the
    message it raises names the first entry, in the order of the inventory,
    that has none. *)
Theorem validation_names_first_entry_without_risks (analysis : Analysis) :
  match CausalityAnalyzer.check_shape analysis with
  | Ok _ => Forall (fun kv => is_Some (risks kv.2)) analysis
  | Exn e =>
      ∃ before k v after,
        analysis = before ++ (k, v) :: after
        ∧ Forall (fun kv => is_Some (risks kv.2)) before
        ∧ risks v = None
        ∧ e = "Domain " +:+ k +:+ " missing 'risks' list"
  end.
Proof.
  induction analysis as [|[k v] a IH]; cbn; [constructor|].
  destruct (risks v) as [rs|] eqn:Ev.
  - destruct (CausalityAnalyzer.check_shape a) as [[]|e].
    + constructor; [cbn; rewrite Ev; by eexists|done].
    + destruct IH as (before & k' & v' & after & -> & Hb & Hv & ->).
      exists ((k, v) :: before), k', v', after. repeat split; try done.
      constructor; [cbn; rewrite Ev; by eexists|done].
  - exists [], k, v, a. repeat split; try done.
Qed.

(** ** What a stage guarantees when it reports no error *)

Lemma causality_load_clean s s1 :
  CausalityAnalyzer.node_load s = Return s1 → errors_of s1 = [] →
  is_Some (analysis s) ∧ s1 = set_errors (Some []) (set_messages (Some []) s).
Proof.
  unfold CausalityAnalyzer.node_load. cbn.
  destruct (analysis s) as [a|] eqn:E.
  - intros [= <-] _. split; [by eexists|done].
  - intros [= <-] H. by apply record_error_nonempty in H.
Qed.

Lemma causality_validate_clean s s' :
  CausalityAnalyzer.node_validate s = Return s' → errors_of s' = [] →
  s' = s ∧ ∃ a, analysis s = Some a ∧ CausalityAnalyzer.check_shape a = Ok ().
Proof.
  unfold CausalityAnalyzer.node_validate.
  destruct (analysis s) as [a|].
  - destruct (CausalityAnalyzer.check_shape a) as [[]|e] eqn:E.
    + intros [= <-] _. eauto.
    + intros [= <-] H. by apply push_error_nonempty in H.
  - intros [= <-] H. by apply record_error_nonempty in H.
Qed.

Lemma causality_analyze_clean env s s' :
  CausalityAnalyzer.node_analyze env s = Return s' → errors_of s' = [] →
  let msgs := causality_messages env (analysis s) (default "en" (metadata_get s "language")) in
  ∃ parsed nested,
    causality_invoke env msgs = ReplyParsed parsed
    ∧ CausalityAnalyzer._convert_analysis_to_nested parsed = Ok nested
    ∧ s' = set_analysis (Some nested) (set_messages (Some msgs) s).
Proof.
  unfold CausalityAnalyzer.node_analyze, CausalityAnalyzer.analyze.
  destruct (get_llm_instance env); [|done].
  destruct (with_structured_output env); [|done].
  destruct (causality_invoke env _) as [e|parsed|t] eqn:E.
  - intros [= <-] H. by apply push_error_nonempty in H.
  - destruct (CausalityAnalyzer._convert_analysis_to_nested parsed) as [nested|e] eqn:Ec.
    + intros [= <-] _. cbn. eauto.
    + intros [= <-] H. by apply push_error_nonempty in H.
  - intros [= <-] H. by apply push_error_nonempty in H.
Qed.

Lemma causality_save_clean env s s' :
  CausalityAnalyzer.node_save env s = Return s' → errors_of s' = [] →
  s' = s ∧ Py.truthy (run_id_of s) = true.
Proof.
  unfold CausalityAnalyzer.node_save, CausalityAnalyzer._save_output, run_id_of.
  destruct (makedirs env _) as [[]|e]; cbn.
  - destruct (Py.truthy (metadata_get s "run_id")) eqn:E.
    + destruct (write_json env _) as [[]|e]; cbn.
      * by intros [= <-] _.
      * intros [= <-] H. by apply record_error_nonempty in H.
    + intros [= <-] H. by apply record_error_nonempty in H.
  - intros [= <-] H. by apply record_error_nonempty in H.
Qed.

Lemma causality_invoke_clean (env : Env) (s s' : State) :
  CausalityAnalyzer.invoke env s = Return s' → errors_of s' = [] →
  ∃ a parsed nested,
    analysis s = Some a
    ∧ CausalityAnalyzer.check_shape a = Ok ()
    ∧ causality_invoke env
        (causality_messages env (Some a) (default "en" (metadata_get s "language")))
      = ReplyParsed parsed
    ∧ CausalityAnalyzer._convert_analysis_to_nested parsed = Ok nested
    ∧ Py.truthy (run_id_of s) = true
    ∧ s' = set_analysis (Some nested)
             (set_messages
                (Some (causality_messages env (Some a)
                         (default "en" (metadata_get s "language"))))
                (set_errors (Some []) (set_messages (Some []) s))).
Proof.
  unfold CausalityAnalyzer.invoke, CausalityAnalyzer.nodes. cbn [run_nodes].
  intros Hrun Herr.
  destruct (CausalityAnalyzer.node_load s) as [s1|] eqn:E1; [|done].
  destruct (CausalityAnalyzer.node_validate s1) as [s2|] eqn:E2; [|done].
  destruct (CausalityAnalyzer.node_analyze env s2) as [s3|] eqn:E3; [|done].
  destruct (CausalityAnalyzer.node_save env s3) as [s4|] eqn:E4; [|done].
  injection Hrun as ->.
  destruct (causality_save_clean _ _ _ E4 Herr) as [-> Hid].
  destruct (causality_analyze_clean _ _ _ E3 Herr) as (parsed & nested & Hinv & Hconv & ->).
  assert (errors_of s2 = []) as Herr2 by done.
  destruct (causality_validate_clean _ _ E2 Herr2) as (-> & a & Ha & Hshape).
  destruct (causality_load_clean _ _ E1 Herr2) as (_ & ->).
  cbn in Ha. exists a, parsed, nested.
  unfold metadata_get in *. cbn in Hinv |- *. rewrite Ha in Hinv |- *. done.
Qed.

(** X11: if the causality stage returns with an empty error list, then the
    inventory it received has a risk list under every key, the language
    model replied with a dictionary, the stored inventory is the nested
    conversion of that reply, the metadata are untouched and carry a
    non-empty run identifier. *)
Theorem causality_stage_clean_return (env : Env) (s s' : State) :
  CausalityAnalyzer.invoke env s = Return s' → errors_of s' = [] →
  ∃ a parsed nested,
    analysis s = Some a
    ∧ CausalityAnalyzer.check_shape a = Ok ()
    ∧ causality_invoke env
        (causality_messages env (Some a) (default "en" (metadata_get s "language")))
      = ReplyParsed parsed
    ∧ CausalityAnalyzer._convert_analysis_to_nested parsed = Ok nested
    ∧ analysis s' = Some nested
    ∧ metadata s' = metadata s
    ∧ Py.truthy (run_id_of s') = true.
Proof.
  intros Hrun Herr.
  destruct (causality_invoke_clean env s s' Hrun Herr)
    as (a & parsed & nested & Ha & Hshape & Hreply & Hconv & Hid & ->).
  exists a, parsed, nested. done.
Qed.

Lemma causality_stage_clean_return_witness :
  ∃ a parsed nested,
    analysis causality_sample = Some a
    ∧ CausalityAnalyzer.check_shape a = Ok ()
    ∧ causality_invoke happy_env
        (causality_messages happy_env (Some a)
           (default "en" (metadata_get causality_sample "language")))
      = ReplyParsed parsed
    ∧ CausalityAnalyzer._convert_analysis_to_nested parsed = Ok nested
    ∧ analysis (final_state (CausalityAnalyzer.invoke happy_env causality_sample))
      = Some nested
    ∧ metadata (final_state (CausalityAnalyzer.invoke happy_env causality_sample))
      = metadata causality_sample
    ∧ Py.truthy (run_id_of (final_state
                              (CausalityAnalyzer.invoke happy_env causality_sample)))
      = true.
Proof.
  apply (causality_stage_clean_return happy_env causality_sample
           (final_state (CausalityAnalyzer.invoke happy_env causality_sample)));
    reflexivity.
Defined.

Lemma heuristic_save_clean env s s' :
  HeuristicAnalyzer.node_save env s = Return s' → errors_of s' = [] →
  s' = s ∧ Py.truthy (run_id_of s) = true.
Proof.
  unfold HeuristicAnalyzer.node_save, HeuristicAnalyzer.save, run_id_of.
  destruct (makedirs env _) as [[]|e]; cbn.
  - destruct (Py.truthy (metadata_get s "run_id")) eqn:E.
    + destruct (write_json env _) as [[]|e]; cbn.
      * by intros [= <-] _.
      * intros [= <-] H. by apply record_error_nonempty in H.
    + intros [= <-] H. by apply record_error_nonempty in H.
  - intros [= <-] H. by apply record_error_nonempty in H.
Qed.

Lemma heuristic_invoke_clean (env : Env) (s s' : State) :
  HeuristicAnalyzer.invoke env s = Return s' → errors_of s' = [] →
  ∃ a engine,
    analysis s = Some a
    ∧ exists_file env (RULES_FILE env) = true
    ∧ prolog_boot env (map fact_text (facts (extract a))) = Ok engine
    ∧ Py.truthy (run_id_of s) = true
    ∧ s' = set_heuristic
             (Some (HeuristicSections
                      {| executive_summary := _run_executive_summary engine;
                         counting := _run_basic_counting_analysis engine;
                         patterns := _run_pattern_analysis engine;
                         context := _run_context_analysis engine |}))
             (set_prolog (Some engine)
                (set_prolog_facts (Some (facts (extract a)))
                   (set_metadata (Some (default ∅ (metadata s)))
                      (set_errors (Some []) (set_messages (Some []) s))))).
Proof.
  unfold HeuristicAnalyzer.invoke, HeuristicAnalyzer.nodes. cbn [run_nodes].
  intros Hrun Herr.
  destruct (HeuristicAnalyzer.node_load s) as [s1|] eqn:E1; [|done].
  destruct (HeuristicAnalyzer.node_generate_prolog_facts s1) as [s2|] eqn:E2; [|done].
  destruct (HeuristicAnalyzer.node_initialize_prolog env s2) as [s3|] eqn:E3; [|done].
  destruct (HeuristicAnalyzer.node_execute_heuristic_analysis s3) as [s4|] eqn:E4; [|done].
  destruct (HeuristicAnalyzer.node_save env s4) as [s5|] eqn:E5; [|done].
  injection Hrun as ->.
  destruct (heuristic_save_clean _ _ _ E5 Herr) as [-> Hid].
  revert E1 E2 E3 E4 Herr Hid.
  unfold HeuristicAnalyzer.node_load, HeuristicAnalyzer.node_generate_prolog_facts,
    HeuristicAnalyzer.node_initialize_prolog, HeuristicAnalyzer.initialize,
    HeuristicAnalyzer.node_execute_heuristic_analysis, HeuristicAnalyzer.execute,
    HeuristicAnalyzer.generate_facts.
  cbn. destruct (analysis s) as [a|] eqn:Ea.
  - intros E1.
    assert (s1 = set_metadata (Some (default ∅ (metadata s)))
                   (set_errors (Some []) (set_messages (Some []) s))) as ->.
    { destruct (metadata s) eqn:Em; injection E1 as <-; [|done].
      destruct s; cbn in *. by subst. }
    clear E1. cbn. rewrite Ea. cbn. intros [= <-]. cbn.
    destruct (exists_file env (RULES_FILE env)) eqn:Ex; [|done].
    destruct (prolog_boot env _) as [engine|e] eqn:Eb; [|done].
    intros [= <-]. cbn. intros [= <-]. cbn. intros _ Hid.
    exists a, engine. repeat split; try done.
    revert Hid. unfold run_id_of, metadata_get. cbn.
    destruct (metadata s); cbn; [done|]. by rewrite lookup_empty.
  - intros [= <-]. cbn. intros [= <-]. cbn.
    destruct (exists_file env (RULES_FILE env)); [|done].
    destruct (prolog_boot env _) as [engine|e]; [|done].
    intros [= <-]. cbn. intros [= <-]. cbn. done.
Qed.

(** X12: if the heuristic stage returns with an empty error list, then it
    received an inventory, the rule file exists, the Prolog engine was booted
    on the texts of exactly the facts extracted from that inventory, and the
    state carries those facts, the four result sections computed on that
    engine, the inventory unchanged and a non-empty run identifier. *)
Theorem heuristic_stage_clean_return (env : Env) (s s' : State) :
  HeuristicAnalyzer.invoke env s = Return s' → errors_of s' = [] →
  ∃ a engine,
    analysis s = Some a
    ∧ exists_file env (RULES_FILE env) = true
    ∧ prolog_boot env (map fact_text (facts (extract a))) = Ok engine
    ∧ prolog_facts s' = Some (facts (extract a))
    ∧ heuristic s' =
        Some (HeuristicSections
                {| executive_summary := _run_executive_summary engine;
                   counting := _run_basic_counting_analysis engine;
                   patterns := _run_pattern_analysis engine;
                   context := _run_context_analysis engine |})
    ∧ analysis s' = Some a
    ∧ Py.truthy (run_id_of s') = true.
Proof.
  intros Hrun Herr.
  destruct (heuristic_invoke_clean env s s' Hrun Herr)
    as (a & engine & Ha & Hrules & Hboot & Hid & ->).
  exists a, engine. cbn. repeat split; try done.
  revert Hid. unfold run_id_of, metadata_get. cbn.
  destruct (metadata s); cbn; [done|]. by rewrite lookup_empty.
Qed.

Lemma heuristic_stage_clean_return_witness :
  ∃ a engine,
    analysis heuristic_sample = Some a
    ∧ exists_file happy_env (RULES_FILE happy_env) = true
    ∧ prolog_boot happy_env (map fact_text (facts (extract a))) = Ok engine
    ∧ prolog_facts (final_state (HeuristicAnalyzer.invoke happy_env heuristic_sample))
      = Some (facts (extract a))
    ∧ heuristic (final_state (HeuristicAnalyzer.invoke happy_env heuristic_sample)) =
        Some (HeuristicSections
                {| executive_summary := _run_executive_summary engine;
                   counting := _run_basic_counting_analysis engine;
                   patterns := _run_pattern_analysis engine;
                   context := _run_context_analysis engine |})
    ∧ analysis (final_state (HeuristicAnalyzer.invoke happy_env heuristic_sample))
      = Some a
    ∧ Py.truthy (run_id_of (final_state
                              (HeuristicAnalyzer.invoke happy_env heuristic_sample)))
      = true.
Proof.
  apply (heuristic_stage_clean_return happy_env heuristic_sample
           (final_state (HeuristicAnalyzer.invoke happy_env heuristic_sample)));
    reflexivity.
Defined.

(** X13: on a state that carries an inventory, the heuristic stage raises
    exactly when the rule file is missing or the Prolog engine cannot be
    booted on the facts extracted from that inventory; no failure of
    [node_save] makes it raise. *)
Theorem heuristic_stage_raises_iff_prolog_fails (env : Env) (s : State) (a : Analysis) :
  analysis s = Some a →
  raised (HeuristicAnalyzer.invoke env s) =
    negb (exists_file env (RULES_FILE env)
          && succeeded (prolog_boot env (map fact_text (facts (extract a))))).
Proof.
  intros Ha.
  unfold HeuristicAnalyzer.invoke, HeuristicAnalyzer.nodes. cbn [run_nodes].
  unfold HeuristicAnalyzer.node_load, HeuristicAnalyzer.node_generate_prolog_facts,
    HeuristicAnalyzer.node_initialize_prolog, HeuristicAnalyzer.initialize,
    HeuristicAnalyzer.node_execute_heuristic_analysis, HeuristicAnalyzer.execute,
    HeuristicAnalyzer.generate_facts, HeuristicAnalyzer.node_save.
  cbn. rewrite Ha.
  destruct (metadata s); cbn; rewrite ?Ha; cbn;
    (destruct (exists_file env (RULES_FILE env)); [|done]);
    (destruct (prolog_boot env _) as [engine|e]; [|done]); cbn;
    by destruct (HeuristicAnalyzer.save env _).
Qed.

Lemma heuristic_stage_raises_iff_prolog_fails_witness :
  raised (HeuristicAnalyzer.invoke env_without_rules heuristic_sample) =
    negb (exists_file env_without_rules (RULES_FILE env_without_rules)
          && succeeded (prolog_boot env_without_rules
                          (map fact_text (facts (extract sample_inventory))))).
Proof.
  apply (heuristic_stage_raises_iff_prolog_fails env_without_rules heuristic_sample
           sample_inventory).
  reflexivity.
Defined.

Lemma domain_invoke_document (env : Env) (file_path : string) (seed s' : State)
    (n n' : nat) :
  DomainAnalyzer.invoke env file_path seed n = (Return s', n') → errors_of s' = [] →
  ∃ q dm responses parsed validated,
    open_json env file_path = FileOk q
    ∧ q_metadata q = Some dm
    ∧ q_responses q = Some responses
    ∧ domain_invoke env
        (domain_messages env (DomainAnalyzer.questions_and_answers responses)
           (default "en" (dm !! "language")))
      = ReplyParsed parsed
    ∧ validate_python env parsed = Ok validated
    ∧ questionnaire s' = Some q
    ∧ analysis s' = Some validated
    ∧ run_id_of s' = Some (default (uuid4_hex env n) (document_run_id q))
    ∧ n' = match document_run_id q with Some _ => n | None => S n end.
Proof.
  intros Hrun Herr.
  destruct (domain_invoke_clean env file_path seed n s' n' Hrun Herr)
    as (q0 & Hq0 & Hrid & _ & Hn').
  revert Hrun Herr. unfold DomainAnalyzer.invoke. intros Hrun Herr.
  destruct (DomainAnalyzer.node_load env file_path seed n) as [[s1|] m] eqn:E1; [|done].
  injection Hrun as Hrun <-. cbn [run_nodes] in Hrun.
  destruct (DomainAnalyzer.node_validate s1) as [s2|] eqn:E2; [|done].
  destruct (DomainAnalyzer.node_analyze env s2) as [s3|] eqn:E3; [|done].
  destruct (DomainAnalyzer.node_save env s3) as [s4|] eqn:E4; [|done].
  injection Hrun as ->.
  destruct (domain_save_clean _ _ _ E4 Herr) as [-> _].
  destruct (domain_analyze_clean _ _ _ E3 Herr) as [Herr2 _].
  destruct (domain_validate_clean _ _ E2 Herr2) as (Herr1 & _).
  revert E1 E2 E3. unfold DomainAnalyzer.node_load.
  destruct (open_json env file_path) as [q| |msg|e] eqn:Eo.
  2: { intros [= <-]. by apply record_error_nonempty in Herr1. }
  2: { intros [= <-]. by apply record_error_nonempty in Herr1. }
  2: done.
  intros E1.
  assert (questionnaire s1 = Some q) as Hq1.
  { destruct (default ∅ (q_metadata q) !! "run_id") as [[|c r]|]; by injection E1 as <-. }
  clear E1. unfold DomainAnalyzer.node_validate. rewrite Hq1.
  destruct (negb (questionnaire_truthy (Some q))) eqn:Et.
  { intros [= <-]. by apply record_error_nonempty in Herr2. }
  cbn. destruct (q_metadata q) as [dm|] eqn:Edm.
  2: { intros [= <-]. by apply record_error_nonempty in Herr2. }
  destruct (q_responses q) as [responses|] eqn:Er.
  2: { intros [= <-]. by apply record_error_nonempty in Herr2. }
  intros E2.
  assert (questionnaire s2 = Some q) as Hq2.
  { destruct (Py.truthy (metadata_get s1 "run_id") && negb (Py.truthy (dm !! "run_id")));
      injection E2 as <-; done. }
  clear E2. unfold DomainAnalyzer.node_analyze, DomainAnalyzer.structured_reply.
  rewrite Hq2, Et. cbn. rewrite Edm, Er. cbn.
  destruct (get_llm_instance env); [|done].
  destruct (with_structured_output env); cbn.
  2: { intros [= <-]. by apply record_error_nonempty in Herr. }
  destruct (domain_invoke env _) as [e|parsed|t] eqn:Ei.
  1,3: intros [= <-]; by apply record_error_nonempty in Herr.
  destruct (validate_python env parsed) as [validated|e] eqn:Ev.
  2: { intros [= <-]. by apply record_error_nonempty in Herr. }
  intros [= <-]. injection Hq0 as <-.
  exists q, dm, responses, parsed, validated. done.
Qed.

(** X14: if the domain stage returns with an empty error list, then the input
    file held a questionnaire with metadata and responses, the language model
    was asked about exactly those responses in the language of the document
    (English when it names none) and replied with a dictionary, and the
    state carries the document and the validated reply as its inventory. *)
Theorem domain_stage_clean_return (env : Env) (file_path : string) (seed s' : State)
    (n n' : nat) :
  DomainAnalyzer.invoke env file_path seed n = (Return s', n') → errors_of s' = [] →
  ∃ q dm responses parsed validated,
    open_json env file_path = FileOk q
    ∧ q_metadata q = Some dm
    ∧ q_responses q = Some responses
    ∧ domain_invoke env
        (domain_messages env (DomainAnalyzer.questions_and_answers responses)
           (default "en" (dm !! "language")))
      = ReplyParsed parsed
    ∧ validate_python env parsed = Ok validated
    ∧ questionnaire s' = Some q
    ∧ analysis s' = Some validated.
Proof.
  intros Hrun Herr.
  destruct (domain_invoke_document env file_path seed s' n n' Hrun Herr)
    as (q & dm & responses & parsed & validated
        & Hq & Hdm & Hresp & Hreply & Hvalid & Hqs & Has & _).
  exists q, dm, responses, parsed, validated. done.
Qed.

Lemma domain_stage_clean_return_witness :
  ∃ q dm responses parsed validated,
    open_json happy_env "answers.json" = FileOk q
    ∧ q_metadata q = Some dm
    ∧ q_responses q = Some responses
    ∧ domain_invoke happy_env
        (domain_messages happy_env (DomainAnalyzer.questions_and_answers responses)
           (default "en" (dm !! "language")))
      = ReplyParsed parsed
    ∧ validate_python happy_env parsed = Ok validated
    ∧ questionnaire
        (final_state (DomainAnalyzer.invoke happy_env "answers.json" domain_seed 0).1)
      = Some q
    ∧ analysis
        (final_state (DomainAnalyzer.invoke happy_env "answers.json" domain_seed 0).1)
      = Some validated.
Proof.
  apply (domain_stage_clean_return happy_env "answers.json" domain_seed
           (final_state (DomainAnalyzer.invoke happy_env "answers.json" domain_seed 0).1)
           0 1); reflexivity.
Defined.

(** ** The error list across the nodes *)

Lemma reload_questionnaire_errors env meta s :
  errors (ReportGenerator.reload_questionnaire env meta s) = errors s.
Proof.
  unfold ReportGenerator.reload_questionnaire.
  destruct (questionnaire_truthy _); [done|].
  destruct (meta !! "run_id") as [[|c r]|]; try done.
  destruct (exists_file env _); [|done]. by destruct (open_json env _).
Qed.

Lemma report_generate_returns env s :
  ∃ s', ReportGenerator.node_generate_html_report env s = Return s'
        ∧ errors s' = errors s ∧ run_id_of s' = run_id_of s.
Proof.
  pose proof (report_nodes_keep env) as Hkeep.
  unfold ReportGenerator.nodes in Hkeep.
  apply Forall_cons_1 in Hkeep as [_ Hkeep]. apply Forall_cons_1 in Hkeep as [Hkeep _].
  specialize (Hkeep s). revert Hkeep.
  unfold ReportGenerator.node_generate_html_report.
  destruct (ReportGenerator.generate_executive_summary_text env _ _ _) as [text|e].
  - cbn zeta. destruct (generate_html_report env _ _ _ _) as [path|e]; cbn [final_state];
      intros Hid; eexists; (split; [done|]); (split; [|exact Hid]); cbn;
      by rewrite reload_questionnaire_errors.
  - cbn zeta. intros Hid. eexists. split; [done|]. split; [done|exact Hid].
Qed.

Lemma report_save_by_run_id env s s' :
  run_id_of s' = run_id_of s → ReportGenerator.save env s' = ReportGenerator.save env s.
Proof. unfold ReportGenerator.save, run_id_of. by intros ->. Qed.

Lemma report_invoke_errors (env : Env) (s : State) :
  raised (ReportGenerator.invoke env s) = false
  ∧ errors_of (final_state (ReportGenerator.invoke env s)) =
      match analysis s, heuristic s with
      | Some _, Some _ => []
      | _, _ => [ "Missing analysis or heuristic data in initial state" ]
      end
      ++ match ReportGenerator.save env s with
         | Ok _ => []
         | Exn e => [ "Metadata save failed: " +:+ e ]
         end.
Proof.
  unfold ReportGenerator.invoke, ReportGenerator.nodes. cbn [run_nodes].
  pose proof (report_nodes_keep env) as Hkeep.
  unfold ReportGenerator.nodes in Hkeep.
  apply Forall_cons_1 in Hkeep as [Hload _]. specialize (Hload s).
  assert (∃ s1, ReportGenerator.node_load s = Return s1
                ∧ errors_of s1 =
                    match analysis s, heuristic s with
                    | Some _, Some _ => []
                    | _, _ => [ "Missing analysis or heuristic data in initial state" ]
                    end) as (s1 & E1 & Herr1).
  { unfold ReportGenerator.node_load. cbn.
    destruct (analysis s); [|eexists; split; [reflexivity|done]].
    destruct (heuristic s); [|eexists; split; [reflexivity|done]].
    destruct (questionnaire s) eqn:Eq, (metadata s) eqn:Em; cbn; rewrite ?Em;
      eexists; (split; [reflexivity|done]). }
  rewrite E1 in Hload |- *. cbn in Hload.
  destruct (report_generate_returns env s1) as (s2 & E2 & Herr2 & Hid2).
  rewrite E2.
  unfold ReportGenerator.node_save.
  rewrite (report_save_by_run_id env s s2) by (by rewrite Hid2).
  assert (errors_of s2 = errors_of s1) as Herrs by (unfold errors_of; by rewrite Herr2).
  destruct (ReportGenerator.save env s) as [[]|e]; cbn [raised final_state].
  - split; [done|]. by rewrite Herrs, Herr1, app_nil_r.
  - split; [done|]. rewrite errors_of_record_error, Herrs, Herr1.
    destruct (analysis s); [destruct (heuristic s)|]; case_decide as Hin; try done.
    all: first [ by apply elem_of_nil in Hin
               | apply list_elem_of_singleton in Hin; discriminate Hin ].
Qed.

Lemma reload_questionnaire_html_path env meta s :
  html_path (ReportGenerator.reload_questionnaire env meta s) = html_path s.
Proof.
  unfold ReportGenerator.reload_questionnaire.
  destruct (questionnaire_truthy _); [done|].
  destruct (meta !! "run_id") as [[|c r]|]; try done.
  destruct (exists_file env _); [|done]. by destruct (open_json env _).
Qed.

Lemma report_invoke_html_path env s :
  html_path (final_state (ReportGenerator.invoke env s)) = html_path s
  ∨ ∃ m h a q path,
      generate_html_report env m h a q = Ok path
      ∧ html_path (final_state (ReportGenerator.invoke env s)) = Some path.
Proof.
  unfold ReportGenerator.invoke, ReportGenerator.nodes. cbn [run_nodes].
  assert (∃ s1, ReportGenerator.node_load s = Return s1
                ∧ html_path s1 = html_path s) as (s1 & -> & <-).
  { unfold ReportGenerator.node_load. cbn.
    destruct (analysis s) eqn:Ea;
      [|eexists; split; [reflexivity|done]].
    destruct (heuristic s) eqn:Eh;
      [|eexists; split; [reflexivity|done]].
    destruct (questionnaire s) eqn:Eq, (metadata s) eqn:Em; cbn; rewrite ?Em;
      eexists; (split; [reflexivity|done]). }
  assert (∃ s2, ReportGenerator.node_generate_html_report env s1 = Return s2
                ∧ (html_path s2 = html_path s1
                   ∨ ∃ m h a q path,
                       generate_html_report env m h a q = Ok path
                       ∧ html_path s2 = Some path)) as (s2 & -> & H2).
  { unfold ReportGenerator.node_generate_html_report.
    destruct (ReportGenerator.generate_executive_summary_text env _ _ _) as [text|e];
      cbn zeta; [|eexists; split; [reflexivity|by left]].
    destruct (generate_html_report env _ _ _ _) as [path|e] eqn:Eg;
      eexists; (split; [reflexivity|]).
    - right. eauto 10.
    - left. by rewrite reload_questionnaire_html_path. }
  unfold ReportGenerator.node_save.
  by destruct (ReportGenerator.save env s2).
Qed.


Lemma run_nodes_NoDup nodes s :
  Forall (fun node : State → Result =>
            ∀ s, NoDup (errors_of s) → NoDup (errors_of (final_state (node s)))) nodes →
  NoDup (errors_of s) → NoDup (errors_of (final_state (run_nodes nodes s))).
Proof.
  intros H. revert s. induction H as [|node nodes Hnode _ IH]; intros s Hs;
    cbn [run_nodes]; [done|].
  specialize (Hnode s Hs). destruct (node s) as [s1|e s1]; cbn in *; [by apply IH|done].
Qed.

Lemma heuristic_nodes_NoDup env s :
  NoDup (errors_of s) →
  NoDup (errors_of (final_state
           (run_nodes [ HeuristicAnalyzer.node_generate_prolog_facts;
                        HeuristicAnalyzer.node_initialize_prolog env;
                        HeuristicAnalyzer.node_execute_heuristic_analysis;
                        HeuristicAnalyzer.node_save env ] s))).
Proof.
  apply run_nodes_NoDup. repeat apply Forall_cons_2; [| | | |apply Forall_nil_2];
    clear s; intros s Hs.
  - done.
  - unfold HeuristicAnalyzer.node_initialize_prolog.
    destruct (HeuristicAnalyzer.initialize env s); cbn; [done|].
    by apply record_error_NoDup.
  - unfold HeuristicAnalyzer.node_execute_heuristic_analysis.
    destruct (prolog s); cbn; [done|]. by apply record_error_NoDup.
  - unfold HeuristicAnalyzer.node_save.
    destruct (HeuristicAnalyzer.save env s); cbn; [done|]. by apply record_error_NoDup.
Qed.


Lemma record_error_appends msg s :
  ∃ more, errors_of (record_error msg s) = errors_of s ++ more ∧ (length more ≤ 1)%nat.
Proof.
  rewrite errors_of_record_error. case_decide.
  - exists []. by rewrite app_nil_r; cbn; auto.
  - exists [msg]. by cbn.
Qed.

Lemma push_error_appends msg s :
  ∃ more, errors_of (push_error msg s) = errors_of s ++ more ∧ (length more ≤ 1)%nat.
Proof. exists [msg]. by cbn. Qed.

Lemma unchanged_appends (s s' : State) :
  errors s' = errors s →
  ∃ more, errors_of s' = errors_of s ++ more ∧ (length more ≤ 1)%nat.
Proof. intros H. exists []. unfold errors_of. rewrite H, app_nil_r. cbn. auto. Qed.

(** X17: every node of the four stages other than [node_load] of the
    causality, heuristic and report stages leaves the messages already in
    the error list in place and adds at most one message at the end, whether
    it returns or raises. *)
Theorem working_nodes_only_append (env : Env) (file_path : string) (minted : nat) :
  Forall appends_at_most_one (working_nodes env file_path minted).
Proof.
  unfold working_nodes.
  repeat apply Forall_cons_2; [| | | | | | | | | | | | |apply Forall_nil_2]; intros s.
  - unfold DomainAnalyzer.node_load.
    destruct (open_json env file_path) as [q| |msg|e]; cbn [fst final_state].
    + destruct (default ∅ (q_metadata q) !! "run_id") as [[|c r]|];
        by apply unchanged_appends.
    + apply record_error_appends.
    + apply record_error_appends.
    + by apply unchanged_appends.
  - unfold DomainAnalyzer.node_validate.
    destruct (negb (questionnaire_truthy (questionnaire s))); [apply record_error_appends|].
    destruct (questionnaire s ≫= q_metadata); [|apply record_error_appends].
    destruct (questionnaire s ≫= q_responses); [|apply record_error_appends].
    destruct (Py.truthy _ && _); by apply unchanged_appends.
  - unfold DomainAnalyzer.node_analyze.
    destruct (get_llm_instance env); [|by apply unchanged_appends].
    destruct (negb (questionnaire_truthy (questionnaire s))).
    + destruct (errors s) as [errs|] eqn:E; cbn [final_state]; [|by apply unchanged_appends].
      eexists [_]. unfold errors_of. cbn. rewrite E. cbn. auto.
    + destruct (DomainAnalyzer.structured_reply env _);
        [|exact (record_error_appends _ (set_messages _ s))].
      destruct (validate_python env _);
        [|exact (record_error_appends _ (set_messages _ s))].
      by apply unchanged_appends.
  - unfold DomainAnalyzer.node_save.
    destruct (DomainAnalyzer._save_output env s);
      [by apply unchanged_appends|apply record_error_appends].
  - unfold CausalityAnalyzer.node_validate.
    destruct (analysis s) as [a|]; [|apply record_error_appends].
    destruct (CausalityAnalyzer.check_shape a);
      [by apply unchanged_appends|apply push_error_appends].
  - unfold CausalityAnalyzer.node_analyze.
    destruct (get_llm_instance env); [|by apply unchanged_appends].
    destruct (with_structured_output env); [|by apply unchanged_appends].
    destruct (CausalityAnalyzer.analyze env _); cbn [final_state].
    + by apply unchanged_appends.
    + exists [e]. unfold push_error, errors_of. cbn. auto.
  - unfold CausalityAnalyzer.node_save.
    destruct (CausalityAnalyzer._save_output env s) as [p|e];
      [by apply unchanged_appends|]. cbn [final_state].
    exists [e]. rewrite errors_of_record_error.
    rewrite decide_True; [by cbn; auto|].
    unfold push_error, errors_of. cbn. apply elem_of_app. right. by left.
  - by apply unchanged_appends.
  - unfold HeuristicAnalyzer.node_initialize_prolog.
    destruct (HeuristicAnalyzer.initialize env s);
      [by apply unchanged_appends|apply record_error_appends].
  - unfold HeuristicAnalyzer.node_execute_heuristic_analysis.
    destruct (prolog s); [by apply unchanged_appends|apply record_error_appends].
  - unfold HeuristicAnalyzer.node_save.
    destruct (HeuristicAnalyzer.save env s);
      [by apply unchanged_appends|apply record_error_appends].
  - destruct (report_generate_returns env s) as (s' & -> & He & _).
    by apply unchanged_appends.
  - unfold ReportGenerator.node_save.
    destruct (ReportGenerator.save env s);
      [by apply unchanged_appends|apply record_error_appends].
Qed.

(** ** Executive summary *)

Lemma ranked_domain_cases prolog k :
  ranked_domain prolog k = None
  ∨ ranked_domain prolog k = Some []
  ∨ ∃ r, ranked_domain prolog k = Some [r] ∧ rank r = k ∧ ranked_by prolog r.
Proof.
  unfold ranked_domain, ranked_by.
  destruct (query prolog _) as [|[|sol others]] eqn:Eq; [by left|by right; left|].
  destruct (binding sol "D") as [d|] eqn:Ed; [|by left].
  destruct (binding sol "N") as [n|] eqn:En; [|by left].
  destruct (binding sol "C") as [c|] eqn:Ec; [|by left].
  right. right. eexists. split; [done|]. split; [done|]. cbn. eauto 10.
Qed.

Lemma ranked_domains_in_order prolog ks :
  let top := default [] (mjoin <$> mapM (ranked_domain prolog) ks) in
  map rank top `sublist_of` ks ∧ Forall (ranked_by prolog) top.
Proof.
  induction ks as [|k ks [IH1 IH2]]; cbn in *; [by split; constructor|].
  destruct (ranked_domain_cases prolog k) as [->|[->|(r & -> & Hr & Hby)]]; cbn.
  - split; [apply sublist_nil_l|constructor].
  - destruct (mapM (ranked_domain prolog) ks) as [rs|]; cbn in *.
    + split; [by apply sublist_cons|done].
    + split; [apply sublist_nil_l|constructor].
  - destruct (mapM (ranked_domain prolog) ks) as [rs|]; cbn in *.
    + rewrite Hr. split; [by apply sublist_skip|by constructor].
    + split; [apply sublist_nil_l|constructor].
Qed.

(** X18: whatever the engine answers, the ranks of [top_3_critical_domains]
    are a subsequence of 1, 2, 3 (at most three entries, in increasing rank,
    none twice), and each entry holds the domain, name and count of the first
    solution of the query of its rank. *)
Theorem top_3_domains_are_ranked_in_order (prolog : Engine) :
  map rank (top_3_critical_domains (_run_executive_summary prolog))
    `sublist_of` [1; 2; 3]%nat
  ∧ Forall (ranked_by prolog) (top_3_critical_domains (_run_executive_summary prolog)).
Proof. apply ranked_domains_in_order. Qed.

(** ** A run of the orchestrator *)

Section RunLog.
Import Orchestrator.

Lemma domain_step_log env state w :
  log (domain_step env state w).1 = log w ++ [ "Domain analysis start" ].
Proof.
  unfold domain_step. destruct (domain_state state); [|done].
  by destruct (DomainAnalyzer.invoke env _ _ _) as [[?|? ?] ?].
Qed.

Lemma causality_step_log env state w :
  log (causality_step env state w).1 = log w ++ [ "Causality analysis start" ].
Proof.
  unfold causality_step. destruct (domain_state state); [|done].
  by destruct (CausalityAnalyzer.invoke env _).
Qed.

Lemma heuristic_step_log env state w :
  log (heuristic_step env state w).1 = log w ++ [ "Heuristic analysis start" ].
Proof.
  unfold heuristic_step. destruct (causality_state state); [|done].
  by destruct (HeuristicAnalyzer.invoke env _).
Qed.

Lemma report_step_log env state w :
  log (report_step env state w).1 = log w ++ [ "Report generation start" ].
Proof.
  unfold report_step. destruct (heuristic_state state); [|done].
  destruct (causality_state state); [|done].
  by destruct (ReportGenerator.invoke env _).
Qed.

(** X19: the messages a run of the orchestrator logs are a non-empty
    beginning of the sequence: the four stage starts in pipeline order, then
    the two closing messages; the sequence is complete exactly when the run
    returns.  When the input file does not exist the only message is the one
    that says so, and no stage runs. *)
Theorem orchestrator_log_follows_the_pipeline (env : Env) (input_file : string)
    (w : World) :
  ∃ l, log (run_orchestrator env input_file w).1 = log w ++ l
       ∧ if exists_file env input_file then
           l `prefix_of` pipeline_log ∧ l ≠ []
           ∧ (l = pipeline_log ↔ ∃ final, (run_orchestrator env input_file w).2 = inl final)
         else
           l = [ "Input file not found" ]
           ∧ minted (run_orchestrator env input_file w).1 = minted w
           ∧ (run_orchestrator env input_file w).2
             = inr (Propagated ("Input file not found: " +:+ input_file)).
Proof.
  unfold run_orchestrator, build_orchestrator_graph.
  destruct (exists_file env input_file); [|by eexists].
  cbn [run_steps].
  pose proof (domain_step_log env (initial_state input_file) w) as H1.
  destruct (domain_step env (initial_state input_file) w) as [w1 [s1|f1]]; cbn in H1.
  2: { exists (take 1 pipeline_log). cbn. split; [exact H1|]. split; [by eexists|].
       split; [done|]. split; [done|]. by intros [? ?]. }
  pose proof (causality_step_log env s1 w1) as H2.
  destruct (causality_step env s1 w1) as [w2 [s2|f2]]; cbn in H2.
  2: { exists (take 2 pipeline_log). cbn. split; [by rewrite H2, H1, <- app_assoc|].
       split; [by eexists|]. split; [done|]. split; [done|]. by intros [? ?]. }
  pose proof (heuristic_step_log env s2 w2) as H3.
  destruct (heuristic_step env s2 w2) as [w3 [s3|f3]]; cbn in H3.
  2: { exists (take 3 pipeline_log). cbn.
       split; [by rewrite H3, H2, H1, <- !app_assoc|].
       split; [by eexists|]. split; [done|]. split; [done|]. by intros [? ?]. }
  pose proof (report_step_log env s3 w3) as H4.
  destruct (report_step env s3 w3) as [w4 [s4|f4]]; cbn in H4.
  2: { exists (take 4 pipeline_log). cbn.
       split; [by rewrite H4, H3, H2, H1, <- !app_assoc|].
       split; [by eexists|]. split; [done|]. split; [done|]. by intros [? ?]. }
  exists pipeline_log. cbn. split; [by rewrite H4, H3, H2, H1, <- !app_assoc|].
  split; [done|]. split; [done|]. split; [eauto|done].
Qed.
End RunLog.

Lemma run_steps_clean env state w w' final :
  Orchestrator.run_steps (Orchestrator.build_orchestrator_graph env) state w
    = (w', inl final) →
  ∃ seed d c h r,
    Orchestrator.domain_state state = Some seed
    ∧ DomainAnalyzer.invoke env (Orchestrator.input_file state) seed (Orchestrator.minted w)
      = (Return d, Orchestrator.minted w')
    ∧ CausalityAnalyzer.invoke env (Orchestrator.causality_seed d) = Return c
    ∧ HeuristicAnalyzer.invoke env (Orchestrator.heuristic_seed c) = Return h
    ∧ ReportGenerator.invoke env (Orchestrator.report_seed h c) = Return r
    ∧ errors_of d = [] ∧ errors_of c = [] ∧ errors_of h = [] ∧ errors_of r = []
    ∧ final = {| Orchestrator.input_file := Orchestrator.input_file state;
                 Orchestrator.domain_state := Some d;
                 Orchestrator.causality_state := Some c;
                 Orchestrator.heuristic_state := Some h;
                 Orchestrator.report_state := Some r |}.
Proof.
  unfold Orchestrator.build_orchestrator_graph. cbn [Orchestrator.run_steps].
  unfold Orchestrator.domain_step at 1.
  destruct (Orchestrator.domain_state state) as [seed|] eqn:Eseed; [|done].
  cbn [Orchestrator.minted Orchestrator.logged].
  destruct (DomainAnalyzer.invoke env _ seed _) as [[d|e sd] n] eqn:Ed; [|done].
  destruct (Orchestrator.check "Domain analysis" d _) as [s1|f] eqn:E1; [|done].
  apply check_inl in E1 as [Hd ->].
  unfold Orchestrator.causality_step at 1. cbn [Orchestrator.domain_state].
  destruct (CausalityAnalyzer.invoke env _) as [c|e sc] eqn:Ec; [|done].
  destruct (Orchestrator.check "Causality analysis" c _) as [s2|f] eqn:E2; [|done].
  apply check_inl in E2 as [Hc ->].
  unfold Orchestrator.heuristic_step at 1. cbn [Orchestrator.causality_state].
  destruct (HeuristicAnalyzer.invoke env _) as [h|e sh] eqn:Eh; [|done].
  destruct (Orchestrator.check "Heuristic analysis" h _) as [s3|f] eqn:E3; [|done].
  apply check_inl in E3 as [Hh ->].
  unfold Orchestrator.report_step at 1.
  cbn [Orchestrator.causality_state Orchestrator.heuristic_state].
  destruct (ReportGenerator.invoke env _) as [r|e sr] eqn:Er; [|done].
  destruct (Orchestrator.check "Report generation" r _) as [s4|f] eqn:E4; [|done].
  apply check_inl in E4 as [Hr ->].
  intros [= <- <-]. cbn.
  exists seed, d, c, h, r. done.
Qed.

Lemma reload_questionnaire_analysis env meta s :
  analysis (ReportGenerator.reload_questionnaire env meta s) = analysis s.
Proof.
  unfold ReportGenerator.reload_questionnaire.
  destruct (questionnaire_truthy _); [done|].
  destruct (meta !! "run_id") as [[|c r]|]; try done.
  destruct (exists_file env _); [|done]. by destruct (open_json env _).
Qed.

Lemma reload_questionnaire_heuristic env meta s :
  heuristic (ReportGenerator.reload_questionnaire env meta s) = heuristic s.
Proof.
  unfold ReportGenerator.reload_questionnaire.
  destruct (questionnaire_truthy _); [done|].
  destruct (meta !! "run_id") as [[|c r]|]; try done.
  destruct (exists_file env _); [|done]. by destruct (open_json env _).
Qed.

Lemma report_invoke_frame env s :
  analysis (final_state (ReportGenerator.invoke env s)) = analysis s
  ∧ heuristic (final_state (ReportGenerator.invoke env s)) = heuristic s.
Proof.
  unfold ReportGenerator.invoke, ReportGenerator.nodes. cbn [run_nodes].
  assert (∃ s1, ReportGenerator.node_load s = Return s1
                ∧ analysis s1 = analysis s ∧ heuristic s1 = heuristic s)
    as (s1 & -> & Ha1 & Hh1).
  { unfold ReportGenerator.node_load. cbn.
    destruct (analysis s) eqn:Ea;
      [|eexists; split; [reflexivity|cbn; by rewrite ?Ea]].
    destruct (heuristic s) eqn:Eh;
      [|eexists; split; [reflexivity|cbn; by rewrite ?Ea, ?Eh]].
    destruct (questionnaire s) eqn:Eq, (metadata s) eqn:Em; cbn; rewrite ?Em;
      eexists; (split; [reflexivity|cbn; by rewrite ?Ea, ?Eh]). }
  assert (∃ s2, ReportGenerator.node_generate_html_report env s1 = Return s2
                ∧ analysis s2 = analysis s1 ∧ heuristic s2 = heuristic s1)
    as (s2 & -> & Ha2 & Hh2).
  { unfold ReportGenerator.node_generate_html_report.
    destruct (ReportGenerator.generate_executive_summary_text env _ _ _) as [text|e];
      cbn zeta; [|eexists; split; [reflexivity|done]].
    destruct (generate_html_report env _ _ _ _); eexists; (split; [reflexivity|]);
      cbn; by rewrite reload_questionnaire_analysis, reload_questionnaire_heuristic. }
  unfold ReportGenerator.node_save.
  destruct (ReportGenerator.save env s2); cbn; by rewrite Ha2, Hh2, Ha1, Hh1.
Qed.

Lemma causality_invoke_questionnaire env s :
  questionnaire (final_state (CausalityAnalyzer.invoke env s)) = questionnaire s.
Proof.
  unfold CausalityAnalyzer.invoke, CausalityAnalyzer.nodes. cbn [run_nodes].
  assert (∃ s1, CausalityAnalyzer.node_load s = Return s1
                ∧ questionnaire s1 = questionnaire s) as (s1 & -> & <-).
  { unfold CausalityAnalyzer.node_load. cbn.
    destruct (analysis s); eexists; (split; [reflexivity|done]). }
  assert (∃ s2, CausalityAnalyzer.node_validate s1 = Return s2
                ∧ questionnaire s2 = questionnaire s1) as (s2 & -> & <-).
  { unfold CausalityAnalyzer.node_validate.
    destruct (analysis s1) as [a|]; [destruct (CausalityAnalyzer.check_shape a)|];
      eexists; (split; [reflexivity|done]). }
  assert (questionnaire (final_state (CausalityAnalyzer.node_analyze env s2))
          = questionnaire s2) as H3.
  { unfold CausalityAnalyzer.node_analyze.
    destruct (get_llm_instance env); [|done].
    destruct (with_structured_output env); [|done].
    by destruct (CausalityAnalyzer.analyze env _). }
  destruct (CausalityAnalyzer.node_analyze env s2) as [s3|e s3]; cbn in H3; [|done].
  rewrite <- H3. unfold CausalityAnalyzer.node_save.
  by destruct (CausalityAnalyzer._save_output env s3).
Qed.

Lemma report_invoke_questionnaire env s q :
  questionnaire s = Some q → questionnaire_truthy (Some q) = true →
  questionnaire (final_state (ReportGenerator.invoke env s)) = Some q.
Proof.
  intros Hq Ht.
  unfold ReportGenerator.invoke, ReportGenerator.nodes. cbn [run_nodes].
  assert (∃ s1, ReportGenerator.node_load s = Return s1
                ∧ questionnaire s1 = Some q) as (s1 & -> & H1).
  { unfold ReportGenerator.node_load. cbn.
    destruct (analysis s) eqn:Ea;
      [|eexists; split; [reflexivity|done]].
    destruct (heuristic s) eqn:Eh;
      [|eexists; split; [reflexivity|done]].
    rewrite Hq. destruct (metadata s) eqn:Em; cbn; rewrite ?Em;
      eexists; (split; [reflexivity|done]). }
  assert (∃ s2, ReportGenerator.node_generate_html_report env s1 = Return s2
                ∧ questionnaire s2 = Some q) as (s2 & -> & H2).
  { unfold ReportGenerator.node_generate_html_report.
    destruct (ReportGenerator.generate_executive_summary_text env _ _ _) as [text|e];
      cbn zeta; [|eexists; split; [reflexivity|done]].
    unfold ReportGenerator.reload_questionnaire. cbn. rewrite H1, Ht.
    destruct (generate_html_report env _ _ _ _); eexists; (split; [reflexivity|done]). }
  unfold ReportGenerator.node_save.
  by destruct (ReportGenerator.save env s2).
Qed.

Lemma converted_all_nested a n :
  CausalityAnalyzer._convert_analysis_to_nested a = Ok n →
  Forall (fun kv => Forall (fun r => is_nested r = true) (risks_of kv.2)) n.
Proof.
  intros H. apply convert_analysis_inv in H.
  induction H as [|[k v] [k' v'] a n (Hk & rs & rs' & Hv & Hv' & Hrs) _ IH];
    constructor; [|done].
  cbn in *. unfold risks_of. rewrite Hv'. cbn.
  apply convert_risks_inv in Hrs. clear Hv Hv'.
  induction Hrs as [|r r' rs rs' Hr _ IHrs]; constructor; [|done].
  by eapply nested_risk_is_nested.
Qed.

(** X20: in a run of the orchestrator that returns, the domain stage holds
    the questionnaire read from the input file; the causality stage holds an
    inventory whose risks are all nested; the heuristic stage ran on that
    inventory: its facts are extracted from it, the engine was booted on the
    texts of these facts and the four sections come from that engine; the
    report stage ends with the same inventory, the same sections and the
    questionnaire of the input file. *)
Theorem complete_run_hands_the_inventory_through
    (env : Env) (input_file : string) (w w' : Orchestrator.World)
    (final : Orchestrator.OrchestratorState) :
  Orchestrator.run_orchestrator env input_file w = (w', inl final) →
  ∃ q nested engine d c h r,
    open_json env input_file = FileOk q
    ∧ Orchestrator.domain_state final = Some d
    ∧ Orchestrator.causality_state final = Some c
    ∧ Orchestrator.heuristic_state final = Some h
    ∧ Orchestrator.report_state final = Some r
    ∧ questionnaire d = Some q
    ∧ questionnaire r = Some q
    ∧ analysis c = Some nested
    ∧ Forall (fun kv => Forall (fun r => is_nested r = true) (risks_of kv.2)) nested
    ∧ analysis h = Some nested
    ∧ prolog_facts h = Some (facts (extract nested))
    ∧ prolog_boot env (map fact_text (facts (extract nested))) = Ok engine
    ∧ heuristic h =
        Some (HeuristicSections
                {| executive_summary := _run_executive_summary engine;
                   counting := _run_basic_counting_analysis engine;
                   patterns := _run_pattern_analysis engine;
                   context := _run_context_analysis engine |})
    ∧ analysis r = Some nested
    ∧ heuristic r = heuristic h.
Proof.
  unfold Orchestrator.run_orchestrator.
  destruct (exists_file env input_file); [|done].
  destruct (Orchestrator.run_steps _ _ w) as [w1 [final1|f]] eqn:Erun; [|done].
  intros [= _ <-].
  apply run_steps_clean in Erun
    as (seed & d & c & h & r & _ & Ed & Ec & Eh & Er & Hd & Hc & Hh & Hr & ->).
  cbn [Orchestrator.input_file Orchestrator.initial_state] in Ed.
  destruct (domain_invoke_document _ _ _ _ _ _ Ed Hd)
    as (q & dm & responses & parsed & validated & Hq & Hdm & _ & _ & _ & Hqd & _).
  destruct (causality_invoke_clean _ _ _ Ec Hc)
    as (a & reply & nested & _ & _ & _ & Hconv & _ & Hceq).
  assert (analysis c = Some nested) as Hac by (by rewrite Hceq).
  destruct (heuristic_invoke_clean _ _ _ Eh Hh)
    as (a' & engine & Ha' & _ & Hboot & _ & Hheq).
  cbn in Ha'. rewrite Hac in Ha'. cbn in Ha'. injection Ha' as <-.
  assert (prolog_facts h = Some (facts (extract nested))
          ∧ heuristic h =
              Some (HeuristicSections
                      {| executive_summary := _run_executive_summary engine;
                         counting := _run_basic_counting_analysis engine;
                         patterns := _run_pattern_analysis engine;
                         context := _run_context_analysis engine |})
          ∧ analysis h = Some nested) as (Hfacts & Hsec & Hah).
  { rewrite Hheq. cbn. by rewrite Hac. }
  destruct (report_invoke_frame env (Orchestrator.report_seed h c)) as [Har Hhr].
  rewrite Er in Har, Hhr. cbn in Har, Hhr. rewrite Hah in Har. rewrite Hsec in Hhr.
  pose proof (causality_invoke_questionnaire env (Orchestrator.causality_seed d)) as Hqc.
  rewrite Ec in Hqc. cbn in Hqc. rewrite Hqd in Hqc. cbn in Hqc.
  assert (questionnaire r = Some q) as Hqr.
  { pose proof (report_invoke_questionnaire env (Orchestrator.report_seed h c) q) as Hrq.
    rewrite Er in Hrq. cbn in Hrq. apply Hrq.
    - by rewrite Hqc.
    - by rewrite Hdm. }
  exists q, nested, engine, d, c, h, r. cbn.
  repeat split; try done.
  - by eapply converted_all_nested.
  - by rewrite Hhr, Hsec.
Qed.

Lemma complete_run_hands_the_inventory_through_witness :
  ∃ final h r nested,
    (Orchestrator.run_orchestrator happy_env "answers.json" start_world).2 = inl final
    ∧ Orchestrator.heuristic_state final = Some h
    ∧ Orchestrator.report_state final = Some r
    ∧ prolog_facts h = Some (facts (extract nested))
    ∧ analysis r = Some nested
    ∧ heuristic r = heuristic h.
Proof.
  destruct (Orchestrator.run_orchestrator happy_env "answers.json" start_world)
    as [w' [final|f]] eqn:E; [|vm_compute in E; discriminate E].
  destruct (complete_run_hands_the_inventory_through
              happy_env "answers.json" start_world w' final E)
    as (q & nested & engine & d & c & h & r
        & _ & _ & _ & Fh & Fr & _ & _ & _ & _ & _ & Hfacts & _ & _ & Har & Hhr).
  exists final, h, r, nested. done.
Defined.

(** ** The bar chart of the report *)

Section BarChart.
Import ChartDataBuilder.

Lemma count_risk_counted c r :
  counted (count_risk c r) = (counted c + if recognised r then 1 else 0)%nat.
Proof.
  unfold count_risk, recognised, counted.
  destruct (String.eqb _ "high"); cbn; [lia|].
  destruct (String.eqb _ "medium"); cbn; [lia|].
  destruct (String.eqb _ "low"); cbn; lia.
Qed.

Lemma fold_count_risk_counted rs c :
  counted (fold_left count_risk rs c)
  = (counted c + length (List.filter recognised rs))%nat.
Proof.
  revert c. induction rs as [|r rs IH]; intros c; cbn [fold_left List.filter]; [cbn; lia|].
  rewrite IH, count_risk_counted. destruct (recognised r); cbn; lia.
Qed.

Lemma fold_count_entry_counted d a c :
  counted (fold_left (count_entry d) a c)
  = (counted c
     + sum_list (map (fun kv => if Py.startswith (d +:+ ".") kv.1
                                then length (List.filter recognised (risks_of kv.2))
                                else 0%nat) a))%nat.
Proof.
  revert c. induction a as [|[k v] a IH]; intros c; cbn [fold_left map sum_list]; [lia|].
  rewrite IH. unfold count_entry. cbn [fst snd].
  destruct (Py.startswith (d +:+ ".") k); unfold id; [|lia].
  rewrite fold_count_risk_counted, <- Nat.add_assoc. reflexivity.
Qed.

Lemma sum_counts cs :
  (sum_list (map high_count cs) + sum_list (map medium_count cs)
   + sum_list (map low_count cs))%nat = sum_list (map counted cs).
Proof. induction cs as [|c cs IH]; cbn; [done|]. unfold counted at 1. lia. Qed.

Lemma startswith_first_char c c' k :
  Py.startswith (String c ".") k = true → Py.startswith (String c' ".") k = true → c = c'.
Proof.
  unfold Py.startswith. destruct k as [|c1 k]; cbn; [done|].
  destruct (ascii_dec c c1) as [->|]; [|done].
  destruct (ascii_dec c' c1) as [->|]; done.
Qed.

Lemma one_domain_per_key k (n : nat) :
  sum_list (map (fun d => if Py.startswith (d +:+ ".") k then n else 0%nat) domains)
  = if in_taxonomy k then n else 0%nat.
Proof.
  unfold in_taxonomy, domains. cbn [map sum_list existsb].
  change ("1" +:+ ".") with "1."; change ("2" +:+ ".") with "2.";
  change ("3" +:+ ".") with "3."; change ("4" +:+ ".") with "4.";
  change ("5" +:+ ".") with "5."; change ("6" +:+ ".") with "6.";
  change ("7" +:+ ".") with "7.".
  destruct (Py.startswith "1." k) eqn:E1, (Py.startswith "2." k) eqn:E2,
           (Py.startswith "3." k) eqn:E3, (Py.startswith "4." k) eqn:E4,
           (Py.startswith "5." k) eqn:E5, (Py.startswith "6." k) eqn:E6,
           (Py.startswith "7." k) eqn:E7; cbn; try lia;
    exfalso;
    repeat match goal with
           | H : Py.startswith _ k = false |- _ => clear H
           end;
    match goal with
    | H : Py.startswith (String ?c _) k = true,
      H' : Py.startswith (String ?c' _) k = true |- _ =>
        assert_fails (constr_eq c c');
        discriminate (startswith_first_char c c' k H H')
    end.
Qed.

Lemma sum_list_map_add {A} (g h : A → nat) ds :
  sum_list (map (fun d => g d + h d)%nat ds)
  = (sum_list (map g ds) + sum_list (map h ds))%nat.
Proof.
  induction ds as [|d ds IH]; [done|].
  cbn [map sum_list_with id] in *. lia.
Qed.

Lemma sum_list_map_zero {A} (ds : list A) : sum_list (map (fun _ => 0%nat) ds) = 0%nat.
Proof. by induction ds. Qed.

Lemma sum_list_swap {A B} (f : A → B → nat) ds a :
  sum_list (map (fun d => sum_list (map (f d) a)) ds)
  = sum_list (map (fun kv => sum_list (map (fun d => f d kv) ds)) a).
Proof.
  induction a as [|kv a IH]; cbn [map sum_list].
  - apply sum_list_map_zero.
  - change (sum_list (map (fun d => (f d kv + sum_list (map (f d) a))%nat) ds)
            = (sum_list (map (fun d => f d kv) ds)
               + sum_list (map (fun kv => sum_list (map (fun d => f d kv) ds)) a))%nat).
    by rewrite sum_list_map_add, IH.
Qed.

Lemma charted_chartable analysis :
  charted (build_risk_distribution_data analysis) = chartable analysis.
Proof.
  unfold charted, build_risk_distribution_data. cbn [high medium low].
  rewrite sum_counts, map_map.
  erewrite map_ext; [|intros d; unfold count_domain; apply fold_count_entry_counted].
  cbn [counted high_count medium_count low_count Nat.add].
  rewrite (sum_list_swap
             (fun d kv => if Py.startswith (d +:+ ".") kv.1
                          then length (List.filter recognised (risks_of kv.2))
                          else 0%nat)).
  unfold chartable. f_equal. apply map_ext. intros kv. apply one_domain_per_key.
Qed.

Lemma filter_length_le {A} (p : A → bool) l : (length (List.filter p l) ≤ length l)%nat.
Proof. induction l as [|x l IH]; cbn; [done|]. destruct (p x); cbn; lia. Qed.

Lemma filter_length_all {A} (p : A → bool) l :
  forallb p l = true → length (List.filter p l) = length l.
Proof.
  induction l as [|x l IH]; cbn; [done|]. destruct (p x); cbn; [|done].
  intros H. by rewrite IH.
Qed.

Lemma chartable_le analysis : (chartable analysis ≤ inventory_size analysis)%nat.
Proof.
  unfold chartable, inventory_size.
  induction analysis as [|kv a IH]; [done|].
  cbn [map sum_list_with id] in *.
  pose proof (filter_length_le recognised (risks_of kv.2)).
  destruct (in_taxonomy kv.1); lia.
Qed.

(** X21: the stacked bar chart has seven columns per severity, and over all
    columns it shows each risk of the inventory at most once: exactly the
    risks under a key that starts with one of the seven domain numbers and a
    dot, and whose severity is high, medium or low in any letter case. *)
Theorem bar_chart_counts_each_risk_at_most_once (analysis : Analysis) :
  charted (build_risk_distribution_data analysis) = chartable analysis
  ∧ (chartable analysis ≤ inventory_size analysis)%nat
  ∧ length (high (build_risk_distribution_data analysis)) = 7%nat
  ∧ length (medium (build_risk_distribution_data analysis)) = 7%nat
  ∧ length (low (build_risk_distribution_data analysis)) = 7%nat.
Proof.
  split; [apply charted_chartable|]. split; [apply chartable_le|]. done.
Qed.

(** X22: for an inventory whose keys split into two parts and start with a
    domain number of the taxonomy, and whose risks all have a recognised
    severity, the bar chart shows as many risks as the fact extraction of the
    heuristic stage emits risk facts. *)
Theorem bar_chart_agrees_with_fact_base (analysis : Analysis) :
  well_keyed analysis →
  forallb (fun kv => in_taxonomy kv.1) analysis = true →
  all_recognised analysis = true →
  charted (build_risk_distribution_data analysis)
  = count_facts is_risk_fact (facts (extract analysis)).
Proof.
  intros Hkeys Htax Hrec. rewrite charted_chartable.
  unfold extract. rewrite fold_extract_count; [|apply per_risk_kinds|done].
  cbn. clear Hkeys. unfold chartable, inventory_size, all_recognised in *.
  induction analysis as [|kv a IH]; [done|].
  cbn [map sum_list_with id forallb] in *.
  apply andb_true_iff in Htax as [-> Htax]. apply andb_true_iff in Hrec as [Hr Hrec].
  rewrite (filter_length_all _ _ Hr), IH; done.
Qed.

Lemma bar_chart_agrees_with_fact_base_witness :
  charted (build_risk_distribution_data sample_inventory)
  = count_facts is_risk_fact (facts (extract sample_inventory)).
Proof.
  apply (bar_chart_agrees_with_fact_base sample_inventory).
  - repeat constructor.
  - reflexivity.
  - reflexivity.
Defined.

Lemma unrecognised_without_severity r : severity r = None → recognised r = false.
Proof. unfold recognised. by intros ->. Qed.

(** X23: the two readers of the inventory treat a missing severity
    differently: when no risk has a ["severity"] key, the bar chart shows no
    risk at all, while every risk fact handed to Prolog carries the severity
    [medium]. *)
Theorem risk_without_severity_is_medium_for_prolog_and_absent_from_chart
    (analysis : Analysis) :
  Forall (fun kv => Forall (fun r => severity r = None) (risks_of kv.2)) analysis →
  charted (ChartDataBuilder.build_risk_distribution_data analysis) = 0%nat
  ∧ Forall (fun f => is_risk_fact f = true → fact_severity f = Some "medium")
           (facts (extract analysis)).
Proof.
  intros H. split.
  - rewrite charted_chartable. unfold chartable.
    induction H as [|kv a Hkv _ IH]; [done|].
    cbn [map sum_list_with id]. rewrite IH.
    assert (List.filter recognised (risks_of kv.2) = []) as ->.
    { induction Hkv as [|r rs Hr _ IHr]; [done|]. cbn.
      by rewrite (unrecognised_without_severity r Hr). }
    by destruct (in_taxonomy kv.1).
  - unfold extract. apply extract_facts_Forall.
    + done.
    + done.
    + eapply Forall_impl; [exact H|]. intros kv Hkv.
      eapply Forall_impl; [exact Hkv|]. intros r Hr d s i.
      unfold risk_facts. rewrite Hr. destruct (causality_values r) as [[e it] tm].
      by repeat constructor.
    + constructor.
Qed.

Lemma risk_without_severity_is_medium_for_prolog_and_absent_from_chart_witness :
  charted (ChartDataBuilder.build_risk_distribution_data inventory_without_severity)
  = 0%nat
  ∧ Forall (fun f => is_risk_fact f = true → fact_severity f = Some "medium")
           (facts (extract inventory_without_severity)).
Proof.
  apply (risk_without_severity_is_medium_for_prolog_and_absent_from_chart
           inventory_without_severity).
  repeat constructor.
Defined.
End BarChart.

(** ** The flow diagram of the report *)

Section FlowDiagram.
Import ChartDataBuilder.
Variable capitalize : string → string.

(** The keys of a counting dictionary come from [left ✕ right] and its
    counts are positive. *)
Local Abbreviation labelled left right :=
  (Forall (fun kc : string * string * nat =>
             kc.1.1 ∈ left ∧ kc.1.2 ∈ right ∧ (0 < kc.2)%nat)).

Lemma bump_sum d key :
  sum_list (map (fun kc => kc.2) (bump d key)) = S (sum_list (map (fun kc => kc.2) d)).
Proof.
  induction d as [|[k c] d IH]; [done|]. cbn [bump].
  destruct (String.eqb k.1 key.1 && String.eqb k.2 key.2).
  - cbn [map sum_list_with id snd]. lia.
  - cbn [map sum_list_with id snd] in *. lia.
Qed.

Lemma bump_labelled (left right : list string) d key :
  key.1 ∈ left → key.2 ∈ right → labelled left right d →
  labelled left right (bump d key).
Proof.
  intros Hl Hr Hd. induction Hd as [|[k c] d (H1 & H2 & H3) Htail IH]; cbn [bump].
  - constructor; [|constructor]. cbn. repeat split; [done|done|lia].
  - destruct (String.eqb k.1 key.1 && String.eqb k.2 key.2).
    + constructor; [|done]. cbn in *. repeat split; [done|done|lia].
    + constructor; [|done]. cbn. done.
Qed.

Lemma entity_label_in value :
  entity_label capitalize value ∈ [ "AI"; "Human"; "Other" ].
Proof.
  unfold entity_label. cbn [existsb].
  destruct (String.eqb (capitalize value) "Ai") eqn:E1.
  - cbn. rewrite E1. set_solver.
  - destruct (String.eqb (capitalize value) "Human") eqn:E2.
    + cbn. rewrite E1. apply String.eqb_eq in E2 as ->. set_solver.
    + destruct (String.eqb (capitalize value) "Other") eqn:E3; cbn.
      * rewrite E1. apply String.eqb_eq in E3 as ->. set_solver.
      * set_solver.
Qed.

Lemma intent_label_in value :
  intent_label capitalize value ∈ [ "Intentional"; "Unintentional"; "Other Intent" ].
Proof.
  unfold intent_label. cbn [existsb].
  destruct (String.eqb (capitalize value) "Intentional") eqn:E1.
  - cbn. apply String.eqb_eq in E1 as ->. cbn. set_solver.
  - destruct (String.eqb (capitalize value) "Unintentional") eqn:E2.
    + cbn. apply String.eqb_eq in E2 as ->. cbn. set_solver.
    + destruct (String.eqb (capitalize value) "Other") eqn:E3; cbn.
      * rewrite E3. set_solver.
      * set_solver.
Qed.

Lemma timing_label_in value :
  timing_label value ∈ [ "Pre-deployment"; "Post-deployment"; "Other Timing" ].
Proof.
  unfold timing_label.
  destruct (String.eqb _ "pre-deployment"); [set_solver|].
  destruct (String.eqb _ "post-deployment"); set_solver.
Qed.

Local Abbreviation entities := [ "AI"; "Human"; "Other" ].
Local Abbreviation intents := [ "Intentional"; "Unintentional"; "Other Intent" ].
Local Abbreviation timings := [ "Pre-deployment"; "Post-deployment"; "Other Timing" ].
Local Abbreviation total d := (sum_list (map (fun kc : string * string * nat => kc.2) d)).

(** What the counting loop keeps true of the two dictionaries, [n] risks
    having been counted. *)
Local Abbreviation counted_flows flows n :=
  (labelled entities intents (entity_to_intent flows)
   ∧ labelled intents timings (intent_to_timing flows)
   ∧ total (entity_to_intent flows) = n
   ∧ total (intent_to_timing flows) = n).

Lemma count_risk_flows_spec flows r n :
  counted_flows flows n →
  match count_risk_flows capitalize flows r with
  | Ok flows' => entity_is_dict r = true ∧ counted_flows flows' (S n)
  | Exn _ => entity_is_dict r = false
  end.
Proof.
  intros (H1 & H2 & H3 & H4).
  unfold count_risk_flows, entity_value, entity_is_dict.
  destruct (causality r ≫= c_entity) as [[f|x]|]; cbn; try done.
  all: split; [done|]; repeat split;
    first [ apply bump_labelled; cbn;
            first [ done | apply entity_label_in | apply intent_label_in
                  | apply timing_label_in ]
          | by rewrite bump_sum, ?H3, ?H4 ].
Qed.

Lemma count_entry_flows_spec rs flows n :
  counted_flows flows n →
  match count_entry_flows capitalize rs flows with
  | Ok flows' => forallb entity_is_dict rs = true ∧ counted_flows flows' (n + length rs)
  | Exn _ => forallb entity_is_dict rs = false
  end.
Proof.
  revert flows n. induction rs as [|r rs IH]; intros flows n H; cbn.
  - split; [done|]. by rewrite Nat.add_0_r.
  - pose proof (count_risk_flows_spec flows r n H) as Hr.
    destruct (count_risk_flows capitalize flows r) as [flows1|e]; cbn.
    + destruct Hr as [-> H1]. cbn. specialize (IH flows1 (S n) H1).
      destruct (count_entry_flows capitalize rs flows1); [|done].
      destruct IH as [-> IH]. split; [done|].
      by replace (n + S (length rs))%nat with (S n + length rs)%nat by lia.
    + by rewrite Hr.
Qed.

Lemma count_flows_spec analysis flows n :
  counted_flows flows n →
  match count_flows capitalize analysis flows with
  | Ok flows' =>
      forallb (fun kv => forallb entity_is_dict (risks_of kv.2)) analysis = true
      ∧ counted_flows flows' (n + inventory_size analysis)
  | Exn _ =>
      forallb (fun kv => forallb entity_is_dict (risks_of kv.2)) analysis = false
  end.
Proof.
  revert flows n. induction analysis as [|[k v] a IH]; intros flows n H;
    cbn [count_flows forallb].
  - split; [done|]. unfold inventory_size. cbn. by rewrite Nat.add_0_r.
  - pose proof (count_entry_flows_spec (default [] (risks v)) flows n H) as Hv.
    fold (risks_of v) in Hv |- *. cbn [snd].
    destruct (count_entry_flows capitalize (risks_of v) flows) as [flows1|e]; cbn.
    + destruct Hv as [-> H1]. cbn. specialize (IH flows1 _ H1).
      destruct (count_flows capitalize a flows1); [|done].
      destruct IH as [-> IH]. split; [done|].
      unfold inventory_size in *. cbn [map sum_list_with id snd].
      by rewrite Nat.add_assoc.
    + by rewrite Hv.
Qed.

Lemma index_in (table : list (string * nat)) (from : nat) key :
  Forall (fun ki => (from ≤ ki.2 < from + 3)%nat) table →
  key ∈ table.*1 →
  ∃ i, index table key = Ok i ∧ (from ≤ i < from + 3)%nat.
Proof.
  induction 1 as [|[k i] table Hi _ IH]; cbn; [by intros ?%elem_of_nil|].
  intros Hin. destruct (String.eqb k key) eqn:E; [by eexists|].
  apply elem_of_cons in Hin as [->|Hin]; [by rewrite String.eqb_refl in E|].
  by apply IH.
Qed.

Lemma links_spec (from_table to_table : list (string * nat)) (from to : nat) flows :
  Forall (fun ki => (from ≤ ki.2 < from + 3)%nat) from_table →
  Forall (fun ki => (to ≤ ki.2 < to + 3)%nat) to_table →
  labelled (from_table.*1) (to_table.*1) flows →
  ∃ ls, links from_table to_table flows = Ok ls
        ∧ Forall (joins from to) ls ∧ flow ls = total flows.
Proof.
  intros Hf Ht. induction 1 as [|[key count] flows (H1 & H2 & H3) _ (ls & IH & Hj & Hs)].
  - exists []. split; [done|]. split; [constructor|done].
  - cbn in H1, H2, H3. cbn [links].
    destruct (index_in from_table from key.1 Hf H1) as (s & -> & Hsr).
    destruct (index_in to_table to key.2 Ht H2) as (t & -> & Htr).
    rewrite IH. replace (0 <? count)%nat with true by (symmetry; by apply Nat.ltb_lt).
    cbn. eexists. split; [done|]. split.
    + constructor; [done|exact Hj].
    + unfold flow in *. cbn [map sum_list_with id snd]. by rewrite Hs.
Qed.

Lemma links_of_triples (all : list (nat * nat * nat)) :
  zip (zip (map (fun l => l.1.1) all) (map (fun l => l.1.2) all)) (map (fun l => l.2) all)
  = all.
Proof. induction all as [|[[a b] c] all IH]; cbn; [done|]. by rewrite IH. Qed.

End FlowDiagram.
